(** * Persistent log store and power-state controller of the splint
      adherence temperature logger (nRF52840 firmware), shallow embedding.

    The firmware exists in several overlapping variants.  Each module below
    names the variant it embeds:
    - [src/unnamed/part_000], first sketch (records carry elapsed seconds);
    - [src/unnamed/part_002], watchdog-reset variant (records carry an index);
    - [src/collect_temperature_new/collect_temperature_new.ino], timer variant
      with the entry count kept in the configuration record;
    - [src/unnamed/part_003], bit-packed date/time codec.

    Machine integers are [Z] with their wrap-around written out. *)

From Stdlib Require Import ZArith QArith Bool List String Lia.
Import ListNotations.

Open Scope Z_scope.

Definition u32 (z : Z) : Z := z mod 2 ^ 32.

(** ** Single-precision values, as far as the firmware looks at them.

    The firmware only compares a stored [float] against integer constants.
    IEEE comparisons are exact comparisons of the represented real values,
    false whenever an operand is NaN; erased flash ([0xFFFFFFFF]) reads back
    as a quiet NaN. *)
Module F32.

Inductive f32 : Type :=
| Fin (q : Q)          (* a finite value *)
| Inf (neg : bool)     (* +inf or -inf *)
| NaN.

Definition Qltb (a b : Q) : bool := negb (Qle_bool b a).

(** [x < y] in C on two floats. *)
Definition lt (x y : f32) : bool :=
  match x, y with
  | NaN, _ | _, NaN => false
  | Fin a, Fin b => Qltb a b
  | Fin _, Inf neg => negb neg
  | Inf true, Inf true => false
  | Inf true, _ => true
  | Inf false, _ => false
  end.

(** Conversion of an [int] literal to [float] (exact for the constants used). *)
Definition of_int (z : Z) : f32 := Fin (inject_Z z).

(** Bit pattern [0xFFFFFFFF] of an erased word. *)
Definition erased_float : f32 := NaN.

(** Nearest single-precision values of the decimal literals [-99.99] and
    [199.99] (24-bit significands, scaled by [2^-17] and [2^-16]). *)
Definition m99_99 : f32 := Fin (Qmake (-13105889) 131072).
Definition p199_99 : f32 := Fin (Qmake 13106545 65536).

End F32.

Import F32.

(** ** Log store of [part_000] (first sketch). *)
Module LogStore.

Definition FLASH_PAGE_SIZE : Z := 4096.
Definition CONFIG_ADDRESS : Z := 0x70000.
Definition DATA_START_ADDRESS : Z := 0x80000.
Definition MAX_DATA_ENTRIES : nat := 15000.

(** [struct TemperatureData { uint32_t elapsedSeconds; float temperature;
    uint8_t proximityVal; }], 12 bytes with padding. *)
Record TemperatureData := {
  elapsedSeconds : Z;
  temperature : f32;
  proximityVal : Z
}.

Definition sizeof_TemperatureData : Z := 12.

(** A slot of erased flash: every byte [0xFF]. *)
Definition erased_record : TemperatureData :=
  {| elapsedSeconds := 0xFFFFFFFF; temperature := erased_float;
     proximityVal := 0xFF |}.

(** The data region, slot by slot from [DATA_START_ADDRESS]: [flash.read] of
    slot [i] (address [DATA_START_ADDRESS + i * 12]) either succeeds with the
    decoded record or fails ([None]). *)
Definition region := nat -> option TemperatureData.

Definition erased_region : region := fun _ => Some erased_record.

(** The plausibility test of the scan:
    [data.temperature > -100 && data.temperature < 200]. *)
Definition plausible (t : f32) : bool :=
  lt (of_int (-100)) t && lt t (of_int 200).

(** The loop of [findHighestDataIndex], from slot [i] with [fuel] slots
    left: a failed read ends the loop; every plausible slot [i] sets
    [highestIndex = i + 1]. *)
Fixpoint scan_from (r : region) (i fuel highestIndex : nat) : nat :=
  match fuel with
  | O => highestIndex
  | S fuel' =>
      match r i with
      | None => highestIndex
      | Some data =>
          scan_from r (S i) fuel'
            (if plausible (temperature data) then S i else highestIndex)
      end
  end.

Definition findHighestDataIndex (r : region) : nat :=
  scan_from r 0 MAX_DATA_ENTRIES 0.

(** Whether slot [j] reads back as a plausible record. *)
Definition slot_plausible (r : region) (j : nat) : bool :=
  match r j with
  | Some d => plausible (temperature d)
  | None => false
  end.

(** Geometry reported by [flash.get_flash_start()] / [get_flash_size()]. *)
Record flash_geometry := { flash_start : Z; flash_size : Z }.

(** The in-memory store: [currentIndex] and the data region. *)
Record store := { currentIndex : Z; data : region }.

Definition program_slot (r : region) (k : nat) (d : TemperatureData) : region :=
  fun j => if Nat.eqb j k then Some d else r j.

(** [saveTemperatureReading(temperature, proximityVal, elapsedSeconds)];
    [program_ok] is the outcome of [flash.program].  Programming stores the
    record exactly (the slots written below were erased beforehand). *)
Definition saveTemperatureReading (g : flash_geometry) (program_ok : bool)
    (s : store) (temp : f32) (prox elapsed : Z) : bool * store :=
  let dataOffset := u32 (currentIndex s * sizeof_TemperatureData) in
  let dataAddress := u32 (DATA_START_ADDRESS + dataOffset) in
  if (dataAddress <? flash_start g)
     || (flash_start g + flash_size g <? u32 (dataAddress + sizeof_TemperatureData))
  then (false, s)
  else
    let d := {| elapsedSeconds := elapsed; temperature := temp;
                proximityVal := prox |} in
    if negb program_ok then (false, s)
    else (true, {| currentIndex := u32 (currentIndex s + 1);
                   data := program_slot (data s)
                             (Z.to_nat (dataOffset / sizeof_TemperatureData)) d |}).

(** One sample as handed to [saveTemperatureReading]. *)
Record sample := { s_temp : f32; s_prox : Z; s_elapsed : Z }.

(** A run of appends with every [flash.program] succeeding; stops at the
    first failed append, as the logging loop does. *)
Fixpoint append_all (g : flash_geometry) (s : store) (xs : list sample)
    : bool * store :=
  match xs with
  | [] => (true, s)
  | x :: xs' =>
      let '(ok, s') := saveTemperatureReading g true s (s_temp x) (s_prox x)
                         (s_elapsed x) in
      if ok then append_all g s' xs' else (false, s')
  end.

(** State right after [initializeDevice]: index 0, data pages erased. *)
Definition fresh_store : store := {| currentIndex := 0; data := erased_region |}.

(** The count of valid leading records, following the words of the spec
    (section 4.3 [recover_index]): stop at the first slot failing the
    plausibility check, or at a failed read, or at capacity. *)
Fixpoint spec_leading_valid (r : region) (i fuel : nat) : nat :=
  match fuel with
  | O => O
  | S fuel' =>
      match r i with
      | Some d => if plausible (temperature d)
                  then S (spec_leading_valid r (S i) fuel') else O
      | None => O
      end
  end.

Definition spec_recover_index (r : region) : nat :=
  spec_leading_valid r 0 MAX_DATA_ENTRIES.

(** Internal flash of the nRF52840 as reported by [FlashIAP]: 1 MB at 0. *)
Definition nrf52840_flash : flash_geometry :=
  {| flash_start := 0; flash_size := 0x100000 |}.

Definition mk_sample (t : Z) : sample :=
  {| s_temp := of_int t; s_prox := 0; s_elapsed := 0 |}.

(** The record [saveTemperatureReading] writes for a sample. *)
Definition stored (x : sample) : TemperatureData :=
  {| elapsedSeconds := s_elapsed x; temperature := s_temp x;
     proximityVal := s_prox x |}.

(** Samples whose temperature the scan accepts. *)
Definition all_plausible (xs : list sample) : Prop :=
  Forall (fun x => plausible (s_temp x) = true) xs.

(** Three readings, the middle one implausible. *)
Definition c1_samples : list sample := [mk_sample 20; mk_sample (-200); mk_sample 20].

End LogStore.

(** ** Init-packet checksum of [initializeDevice] ([part_000]; [part_002]
    has the same loop). *)
Module InitCodec.

(** [sizeof(InitializationData)]: [timestamp], [wakeupInterval],
    [personalId[16]], [checksum], four-byte aligned, no padding. *)
Definition sizeof_InitializationData : nat := 28.
Definition sizeof_uint32 : nat := 4.

(** The received bytes [packedData], each in [0, 255]. *)
Definition packet_wf (packed : list Z) : Prop :=
  List.length packed = sizeof_InitializationData
  /\ Forall (fun b => 0 <= b < 256) packed.

(** [calculatedChecksum += dataPtr[i]] on a [uint32_t]. *)
Definition add_byte (acc b : Z) : Z := u32 (acc + b).

(** The loop over [i < sizeof(InitializationData) - sizeof(uint32_t)],
    followed by [calculatedChecksum &= 0xFFFFFFFF]. *)
Definition calculatedChecksum (packed : list Z) : Z :=
  Z.land
    (fold_left add_byte
       (firstn (sizeof_InitializationData - sizeof_uint32) packed) 0)
    0xFFFFFFFF.

(** Little-endian decoding of a byte list (the Cortex-M4 is little endian). *)
Fixpoint le_decode (bs : list Z) : Z :=
  match bs with
  | [] => 0
  | b :: bs' => b + 256 * le_decode bs'
  end.

(** [initData.checksum] after [memcpy(&initData, packedData, 28)]. *)
Definition stored_checksum (packed : list Z) : Z :=
  le_decode (skipn (sizeof_InitializationData - sizeof_uint32) packed).

(** The test [calculatedChecksum != initData.checksum] (negated). *)
Definition checksum_ok (packed : list Z) : bool :=
  calculatedChecksum packed =? stored_checksum packed.

Definition sum_bytes (bs : list Z) : Z := fold_right Z.add 0 bs.

(** The spec's [checksum(bytes)]: the sum of all payload bytes excluding
    the trailing 4-byte checksum field, truncated to 32 bits. *)
Definition spec_checksum (packed : list Z) : Z :=
  u32 (sum_bytes (firstn (List.length packed - 4) packed)).

(** Replace byte [i] of the packet by [b]. *)
Definition set_byte (packed : list Z) (i : nat) (b : Z) : list Z :=
  firstn i packed ++ b :: skipn (S i) packed.

End InitCodec.

(** ** Bit-packed date and time of [part_003]. *)
Module DateCodec.

Definition u16 (z : Z) : Z := z mod 2 ^ 16.
Definition u8 (z : Z) : Z := z mod 2 ^ 8.

(** [uint16_t encodeDate(uint16_t year, uint8_t month, uint8_t day)]. *)
Definition encodeDate (year month day : Z) : Z :=
  let year := year mod 100 in
  u16 (Z.lor (Z.lor (Z.shiftl year 9) (Z.shiftl month 5)) day).

(** [uint16_t encodeTime(uint8_t hour, uint8_t minute)]. *)
Definition encodeTime (hour minute : Z) : Z :=
  u16 (Z.lor (Z.shiftl hour 8) minute).

(** [decodeDate(encodedDate, year, month, day)]: the three out-parameters. *)
Definition decodeDate (encodedDate : Z) : Z * Z * Z :=
  (u16 (Z.shiftr encodedDate 9 + 2000),
   u8 (Z.land (Z.shiftr encodedDate 5) 0x0F),
   u8 (Z.land encodedDate 0x1F)).

(** [decodeTime(encodedTime, hour, minute)]. *)
Definition decodeTime (encodedTime : Z) : Z * Z :=
  (u8 (Z.shiftr encodedTime 8), u8 (Z.land encodedTime 0xFF)).

(** Integers [lo .. hi]. *)
Definition zrange (lo hi : Z) : list Z :=
  map (fun n => lo + Z.of_nat n) (seq 0 (Z.to_nat (hi - lo + 1))).

Definition date_roundtrips (y m d : Z) : bool :=
  let '(y', m', d') := decodeDate (encodeDate y m d) in
  (y' =? 2000 + y mod 100) && (m' =? m) && (d' =? d).

Definition time_roundtrips (h mi : Z) : bool :=
  let '(h', mi') := decodeTime (encodeTime h mi) in (h' =? h) && (mi' =? mi).

End DateCodec.

(** ** Configuration record and [saveConfig] ([part_000]; [part_002] has the
    same layout and the same [saveConfig]). *)
Module Config.

Definition MODE_IDLE : Z := 0.
Definition MODE_LOGGING : Z := 1.

(** [struct ConfigData]; [personalId] is the raw [char[16]] array and [mode]
    the raw enum word as read back from flash. *)
Record ConfigData := {
  initialTimestamp : Z;
  wakeupInterval : Z;
  personalId : list Z;
  mode : Z
}.

Definition ConfigData_eq_dec (a b : ConfigData) : {a = b} + {a <> b}.
Proof. decide equality; try apply Z.eq_dec. apply (list_eq_dec Z.eq_dec). Defined.

(** [memcmp(&a, &b, sizeof(ConfigData)) == 0]. *)
Definition config_eqb (a b : ConfigData) : bool :=
  if ConfigData_eq_dec a b then true else false.

Definition bytes_of (str : string) : list Z :=
  map (fun c => Z.of_nat (Ascii.nat_of_ascii c)) (list_ascii_of_string str).

(** A string literal stored in [char[16]]: its bytes, then zero fill. *)
Definition char16 (str : string) : list Z :=
  let bs := firstn 16 (bytes_of str) in bs ++ repeat 0 (16 - List.length bs).

(** Contents of the C string held in a [char] array: up to the first NUL. *)
Fixpoint cstr (bs : list Z) : list Z :=
  match bs with
  | [] => []
  | b :: bs' => if b =? 0 then [] else b :: cstr bs'
  end.

Definition strlen (bs : list Z) : nat := List.length (cstr bs).

(** [strcmp(a, literal) != 0]. *)
Definition strcmp_ne (bs : list Z) (lit : string) : bool :=
  if list_eq_dec Z.eq_dec (cstr bs) (bytes_of lit) then false else true.

(** The power-on value of the global [config] in [part_000]. *)
Definition default_config : ConfigData :=
  {| initialTimestamp := 0; wakeupInterval := 0;
     personalId := char16 "DEFAULT_ID"; mode := MODE_IDLE |}.

(** A freshly erased config page: every byte [0xFF]. *)
Definition erased_config : ConfigData :=
  {| initialTimestamp := 0xFFFFFFFF; wakeupInterval := 0xFFFFFFFF;
     personalId := repeat 255 16; mode := 0xFFFFFFFF |}.

(** Outcomes of the flash primitives during one [saveConfig] call: return
    codes of [flash.erase], [flash.program] and [flash.read], the page
    contents left by a failed erase, and the page contents after
    [flash.program] returns (the record itself when the write went right). *)
Record flash_driver := {
  erase_rc : Z;
  after_failed_erase : ConfigData;
  program_rc : Z;
  programmed : ConfigData;
  read_rc : Z
}.

(** A driver that does what it is asked. *)
Definition good_driver (c : ConfigData) : flash_driver :=
  {| erase_rc := 0; after_failed_erase := erased_config; program_rc := 0;
     programmed := c; read_rc := 0 |}.

(** [bool saveConfig()]: the result and the config page afterwards. *)
Definition saveConfig (fd : flash_driver) (config : ConfigData)
    : bool * ConfigData :=
  if negb (erase_rc fd =? 0) then (false, after_failed_erase fd)
  else if negb (program_rc fd =? 0) then (false, programmed fd)
  else
    let verifyConfig := programmed fd in
    if negb (read_rc fd =? 0) || negb (config_eqb config verifyConfig)
    then (false, programmed fd)
    else (true, programmed fd).

End Config.

(** ** Boot-time mode selection ([setup]) of three variants. *)
Module Boot.
Import Config.

(** Result of [setup]: the global [config], [currentMode], [currentIndex],
    and the record handed to [saveConfig] during boot, if any. *)
Record boot_result := {
  b_config : ConfigData;
  currentMode : Z;
  b_currentIndex : Z;
  b_saved : option ConfigData
}.

(** [setup()] of [part_000].  [flash_init_ok] is [flash.init() == 0]; the
    config page is read into [config] ([flash.read]'s result is ignored);
    [currentIndex = findHighestDataIndex()]. *)
Definition setup_part000 (flash_init_ok : bool) (page : ConfigData)
    (r : LogStore.region) : boot_result :=
  if negb flash_init_ok then
    {| b_config := default_config; currentMode := MODE_IDLE;
       b_currentIndex := 0; b_saved := Some default_config |}
  else
    let config := page in
    let currentIndex := Z.of_nat (LogStore.findHighestDataIndex r) in
    if (mode config =? MODE_IDLE) && (currentIndex =? 0) then
      let config' := {| initialTimestamp := initialTimestamp config;
                        wakeupInterval := wakeupInterval config;
                        personalId := personalId config;
                        mode := MODE_LOGGING |} in
      {| b_config := config'; currentMode := mode config';
         b_currentIndex := currentIndex; b_saved := Some config' |}
    else if mode config =? MODE_LOGGING then
      let config' := {| initialTimestamp := initialTimestamp config;
                        wakeupInterval := wakeupInterval config;
                        personalId := personalId config;
                        mode := MODE_IDLE |} in
      {| b_config := config'; currentMode := mode config';
         b_currentIndex := currentIndex; b_saved := Some config' |}
    else
      {| b_config := config; currentMode := mode config;
         b_currentIndex := currentIndex; b_saved := None |}.

(** [part_002] stores [struct TemperatureData { uint32_t index; float
    temperature; }] and its scan keeps the largest stored index plus one. *)
Record TemperatureData2 := { index : Z; temperature2 : f32 }.

Definition region2 := nat -> option TemperatureData2.

Fixpoint scan2_from (r : region2) (i fuel : nat) (highestIndex : Z) : Z :=
  match fuel with
  | O => highestIndex
  | S fuel' =>
      match r i with
      | None => highestIndex
      | Some data =>
          scan2_from r (S i) fuel'
            (if LogStore.plausible (temperature2 data)
             then (if highestIndex <=? index data then u32 (index data + 1)
                   else highestIndex)
             else highestIndex)
      end
  end.

Definition findHighestDataIndex2 (r : region2) : Z :=
  scan2_from r 0 LogStore.MAX_DATA_ENTRIES 0.

Definition RESET_FLAG_VALUE : Z := 0xDEADBEEF.

(** The power-on value of [config] in [part_002]. *)
Definition default_config2 : ConfigData :=
  {| initialTimestamp := 0; wakeupInterval := 300;
     personalId := char16 "DEFAULT_ID"; mode := MODE_IDLE |}.

(** [setup()] of [part_002].  [dog_reset] is the [DOG] bit of
    [NRF_POWER->RESETREAS]; [resetFlag] is the word read at
    [WDT_RESET_FLAG_ADDRESS]. *)
Definition setup_part002 (flash_init_ok dog_reset : bool) (resetFlag : Z)
    (page : ConfigData) (r : region2) : boot_result :=
  if negb flash_init_ok then
    {| b_config := default_config2; currentMode := MODE_IDLE;
       b_currentIndex := 0; b_saved := Some default_config2 |}
  else
    let isWatchdogReset := dog_reset in
    let wasPlannedReset := isWatchdogReset && (resetFlag =? RESET_FLAG_VALUE) in
    let config := page in
    let currentIndex := findHighestDataIndex2 r in
    if (mode config =? MODE_IDLE) && (currentIndex =? 0) then
      let config' := {| initialTimestamp := initialTimestamp config;
                        wakeupInterval := wakeupInterval config;
                        personalId := personalId config;
                        mode := MODE_LOGGING |} in
      {| b_config := config'; currentMode := mode config';
         b_currentIndex := currentIndex; b_saved := Some config' |}
    else if (mode config =? MODE_LOGGING) && negb wasPlannedReset then
      let config' := {| initialTimestamp := initialTimestamp config;
                        wakeupInterval := wakeupInterval config;
                        personalId := personalId config;
                        mode := MODE_IDLE |} in
      {| b_config := config'; currentMode := mode config';
         b_currentIndex := currentIndex; b_saved := Some config' |}
    else
      {| b_config := config; currentMode := mode config;
         b_currentIndex := currentIndex; b_saved := None |}.

(** [struct ConfigData] of [collect_temperature_new.ino]. *)
Record ConfigDataNew := {
  n_initialTimestamp : Z;
  n_wakeupInterval : Z;
  n_personalId : list Z;
  n_currentDataIndex : Z;
  n_mode : Z;
  n_magicNumber : Z
}.

Definition MAGIC : Z := 0xABCD1234.

(** [setup()] of [collect_temperature_new.ino]: the resulting
    [currentMode].  [read_ok] is [flash.read(&config, ...) == 0]. *)
Definition setup_new (flash_init_ok read_ok : bool) (config : ConfigDataNew) : Z :=
  if negb flash_init_ok then MODE_IDLE
  else
    let validConfig := read_ok && (n_magicNumber config =? MAGIC) in
    if validConfig then
      if negb (n_initialTimestamp config =? 0)
         && (0 <? strlen (n_personalId config))%nat
         && strcmp_ne (n_personalId config) "DEFAULT_ID"
      then (if 0 <? n_currentDataIndex config then MODE_IDLE else MODE_LOGGING)
      else MODE_IDLE
    else MODE_IDLE.

(** Sample inputs: a configured device's config page, with mode Idle and
    with mode Logging; an erased [part_002] data region; a configured
    [collect_temperature_new] record; a flash whose program step fails after
    a good erase. *)
Definition populated_page : ConfigData :=
  {| initialTimestamp := 1700000000; wakeupInterval := 60;
     personalId := char16 "P01"; mode := MODE_IDLE |}.

Definition logging_page : ConfigData :=
  {| initialTimestamp := 1700000000; wakeupInterval := 60;
     personalId := char16 "P01"; mode := MODE_LOGGING |}.

Definition erased_region2 : region2 :=
  fun _ => Some {| index := 0xFFFFFFFF; temperature2 := erased_float |}.

Definition populated_new : ConfigDataNew :=
  {| n_initialTimestamp := 1700000000; n_wakeupInterval := 60;
     n_personalId := char16 "P01"; n_currentDataIndex := 0;
     n_mode := MODE_IDLE; n_magicNumber := MAGIC |}.


End Boot.

(** ** The ['i'] command of [processSerialCommand] and [initializeDevice]
    ([part_000]; [part_002] has the same handler). *)
Module InitCommand.
Import Config.

(** Bytes sent by the host after [READY_FOR_INIT], in order, each with the
    time (ms after [startTime = millis()]) from which [Serial.available()]
    reports it.  The handler's own work takes no measurable time next to
    [delay(10)], so the [k]-th poll happens at [millis() - startTime]
    equal to 10 times the number of [delay(10)] calls before it. *)
Definition serial_input := list (Z * Z).

Inductive read_result :=
| Received (packedData : list Z)
| TimedOut.

(** [while (bytesRead < dataSize) { if (millis() - startTime > 5000)
    { TIMEOUT } if (Serial.available()) read else delay(10); }].
    [now] is [millis() - startTime]; [ticks] counts the [delay(10)] calls
    left before [now] passes 5000 (the loop starts with [ticks = 501] and
    [now = 0], so [now = 5010 - 10 * ticks] throughout). *)
Fixpoint read_loop (ticks : nat) (now : Z) {struct ticks}
    : nat -> serial_input -> list Z -> read_result :=
  fix poll (need : nat) (input : serial_input) (packed : list Z)
      {struct need} : read_result :=
    match need with
    | O => Received (rev packed)
    | S need' =>
        if now >? 5000 then TimedOut
        else
          match input with
          | (t, b) :: input' =>
              if t <=? now then poll need' input' (b :: packed)
              else match ticks with
                   | O => TimedOut
                   | S ticks' => read_loop ticks' (now + 10) need input packed
                   end
          | [] =>
              match ticks with
              | O => TimedOut
              | S ticks' => read_loop ticks' (now + 10) need input packed
              end
          end
    end.

Definition dataSize : nat := InitCodec.sizeof_InitializationData.

Definition read_packet (input : serial_input) : read_result :=
  read_loop 501 0 dataSize input [].

(** [Serial.println(value, HEX)]. *)
Definition hex_digit (d : Z) : Ascii.ascii :=
  Ascii.ascii_of_nat (Z.to_nat (if d <? 10 then 48 + d else 55 + d)).

Fixpoint hex_aux (fuel : nat) (z : Z) (acc : string) : string :=
  match fuel with
  | O => acc
  | S f =>
      let acc' := String (hex_digit (z mod 16)) acc in
      if z <? 16 then acc' else hex_aux f (z / 16) acc'
  end.

Definition hex (z : Z) : string := hex_aux 8 z EmptyString.

(** [pagesNeeded = (totalDataBytes + FLASH_PAGE_SIZE - 1) / FLASH_PAGE_SIZE]. *)
Definition pagesNeeded : nat :=
  let totalDataBytes :=
    Z.of_nat LogStore.MAX_DATA_ENTRIES * LogStore.sizeof_TemperatureData in
  Z.to_nat ((totalDataBytes + LogStore.FLASH_PAGE_SIZE - 1)
            / LogStore.FLASH_PAGE_SIZE).

(** The erase loop: the pages erased, and the address of the page whose
    [flash.erase] failed, if any.  [erase_rc] gives [flash.erase]'s result
    per page address. *)
Fixpoint erase_data_pages (erase_rc : Z -> Z) (page : Z) (n : nat)
    (erased : list Z) : list Z * option Z :=
  match n with
  | O => (erased, None)
  | S n' =>
      let pageAddress :=
        LogStore.DATA_START_ADDRESS + page * LogStore.FLASH_PAGE_SIZE in
      if erase_rc pageAddress =? 0
      then erase_data_pages erase_rc (page + 1) n' (erased ++ [pageAddress])
      else (erased, Some pageAddress)
  end.

(** [memset] to 0, [strncpy(personalId, src, 15)], [personalId[15] = 0]. *)
Definition strncpy_id (src : list Z) : list Z :=
  let c := cstr (firstn 15 src) in c ++ repeat 0 (16 - List.length c).

(** The record [initializeDevice] stores, from [initData] after [memcpy]. *)
Definition init_config (packedData : list Z) : ConfigData :=
  {| initialTimestamp := InitCodec.le_decode (firstn 4 packedData);
     wakeupInterval := InitCodec.le_decode (firstn 4 (skipn 4 packedData));
     personalId := strncpy_id (firstn 16 (skipn 8 packedData));
     mode := MODE_IDLE |}.

(** Device state touched by the command: the globals [config],
    [currentIndex] and [currentMode], the config page in flash, and the
    data pages erased so far (in order). *)
Record device := {
  d_config : ConfigData;
  d_currentIndex : Z;
  d_currentMode : Z;
  d_config_page : ConfigData;
  d_erased : list Z
}.

(** Results of the flash calls made by [initializeDevice]. *)
Record init_env := {
  data_erase_rc : Z -> Z;
  config_driver : flash_driver
}.

Definition erase_all (env : init_env) : list Z * option Z :=
  erase_data_pages (data_erase_rc env) 0 pagesNeeded [].

(** [bool initializeDevice(const uint8_t* packedData)]: the lines printed,
    the result, and the device state afterwards. *)
Definition initializeDevice (env : init_env) (packedData : list Z) (dv : device)
    : list string * bool * device :=
  if negb (InitCodec.checksum_ok packedData)
  then (["CHECKSUM_ERROR"%string], false, dv)
  else
    let (erased, failed) := erase_all env in
    match failed with
    | Some pageAddress =>
        ([String.append "ERROR: Failed to erase data page at 0x" (hex pageAddress)],
         false,
         {| d_config := d_config dv; d_currentIndex := d_currentIndex dv;
            d_currentMode := d_currentMode dv;
            d_config_page := d_config_page dv;
            d_erased := d_erased dv ++ erased |})
    | None =>
        let config := init_config packedData in
        let (ok, page) := saveConfig (config_driver env) config in
        ([], ok,
         {| d_config := config; d_currentIndex := 0;
            d_currentMode := d_currentMode dv;
            d_config_page := page;
            d_erased := d_erased dv ++ erased |})
    end.

Inductive power := Running | SystemOff.

(** [case 'i'] of [processSerialCommand]: lines printed, whether
    [NRF_POWER->SYSTEMOFF] was written, and the device state. *)
Definition processSerialCommand_i (env : init_env) (input : serial_input)
    (dv : device) : list string * power * device :=
  match read_packet input with
  | TimedOut => (["READY_FOR_INIT"; "TIMEOUT"]%string, Running, dv)
  | Received packedData =>
      let '(msgs, ok, dv') := initializeDevice env packedData dv in
      if ok then ("READY_FOR_INIT"%string :: msgs ++ ["INITIALIZED"%string],
                  SystemOff, dv')
      else ("READY_FOR_INIT"%string :: msgs ++ ["INIT_FAILED"%string], Running, dv')
  end.

(** The first [n] bytes have all arrived by [millis() - startTime = 5000]. *)
Definition all_by (n : nat) (input : serial_input) : bool :=
  Nat.leb n (List.length input)
  && forallb (fun p => fst p <=? 5000) (firstn n input).

(** Sample inputs: a valid packet (bytes 1..24, checksum 300), sent before
    the handler starts polling; an idle device; flash calls that succeed. *)
Definition packet1 : list Z :=
  [1; 2; 3; 4; 5; 6; 7; 8; 9; 10; 11; 12; 13; 14; 15; 16; 17; 18; 19; 20;
   21; 22; 23; 24; 44; 1; 0; 0].

Definition on_time (packed : list Z) : serial_input :=
  map (fun b => (0, b)) packed.

Definition device0 : device :=
  {| d_config := Config.default_config; d_currentIndex := 0;
     d_currentMode := MODE_IDLE; d_config_page := Config.default_config;
     d_erased := [] |}.

Definition env_ok : init_env :=
  {| data_erase_rc := fun _ => 0;
     config_driver := good_driver (init_config packet1) |}.

End InitCommand.

(** ** Wake-up scheduling of the [MODE_LOGGING] case of [loop]
    ([part_000]). *)
Module Scheduler.

(** The [static uint32_t nextWakeTime] and [millis()] (a [uint32_t]) when
    an iteration of [loop] starts. *)
Record sched := {
  nextWakeTime : Z;
  clock : Z
}.

(** [nextWakeTime] after [if (nextWakeTime == 0) nextWakeTime = millis();]. *)
Definition wake_base (st : sched) : Z :=
  if nextWakeTime st =? 0 then clock st else nextWakeTime st.

(** One logging iteration whose sensor read and flash write take [work] ms
    (the reading is saved; a failed save leaves Logging instead), followed
    by [nextWakeTime += wakeupInterval * 1000UL], [currentTime = millis()]
    and [if (nextWakeTime > currentTime) delay(nextWakeTime - currentTime)]. *)
Definition logging_iteration (wakeupInterval work : Z) (st : sched) : sched :=
  let nextWakeTime0 := wake_base st in
  let nextWakeTime1 := u32 (nextWakeTime0 + u32 (wakeupInterval * 1000)) in
  let currentTime := u32 (clock st + work) in
  let sleepDuration :=
    if currentTime <? nextWakeTime1 then u32 (nextWakeTime1 - currentTime)
    else 0 in
  {| nextWakeTime := nextWakeTime1; clock := u32 (currentTime + sleepDuration) |}.

(** Start times of successive iterations, for the given work durations. *)
Fixpoint iteration_starts (wakeupInterval : Z) (works : list Z) (st : sched)
    : list Z :=
  match works with
  | [] => [clock st]
  | w :: ws => clock st :: iteration_starts wakeupInterval ws
                             (logging_iteration wakeupInterval w st)
  end.

(** State at the first iteration after [setup]: [nextWakeTime] is still 0. *)
Definition first_iteration (start : Z) : sched :=
  {| nextWakeTime := 0; clock := start |}.

End Scheduler.

(* ================================================================== *)

(** ** Serial read-out and the other single-character commands of
    [processSerialCommand] ([part_000], first sketch). *)
Module Readout.
Import F32 LogStore Config.

(** Lines written to the serial port.  [MetaTimestamp], [MetaInterval] and
    [MetaId] are the three metadata lines ([Serial.print(label)] then
    [Serial.println(value)]); [Row] is a data line
    [timestamp,temperature,proximityVal] ([Row2] the two-column line of the
    second sketch and of [part_002]); [ErrorRow i] is [ERROR,i]. *)
Inductive line :=
| Text (s : string)
| MetaTimestamp (v : Z)
| MetaInterval (v : Z)
| MetaId (id : list Z)
| Row (timestamp : Z) (temp : f32) (prox : Z)
| Row2 (timestamp : Z) (temp : f32)
| ErrorRow (i : nat).

(** One pass of the loop of [sendReadableData] for slot [i]. *)
Definition data_row (config : ConfigData) (r : region) (i : nat) : line :=
  match r i with
  | None => ErrorRow i
  | Some data =>
      Row (u32 (initialTimestamp config + elapsedSeconds data))
          (temperature data) (proximityVal data)
  end.

(** [void sendReadableData()]: metadata, column header, slots
    [0 .. findHighestDataIndex() - 1], [END_DATA]. *)
Definition sendReadableData (config : ConfigData) (r : region) : list line :=
  [MetaTimestamp (initialTimestamp config);
   MetaInterval (wakeupInterval config);
   MetaId (cstr (personalId config));
   Text "Timestamp,Temperature,ProximityVal"]
  ++ map (data_row config r) (seq 0 (findHighestDataIndex r))
  ++ [Text "END_DATA"].

(** [processSerialCommand()] for a command byte other than ['i'] (that case
    is [InitCommand.processSerialCommand_i]). *)
Definition processSerialCommand_other (cmd : Z) (config : ConfigData)
    (r : region) : list line :=
  if cmd =? 63 (* '?' *) then [Text "Hello World!"]
  else if cmd =? 33 (* '!' *) then
    [Text (if (0 <? findHighestDataIndex r)%nat then "HAS_DATA"
           else "NEED_CONFIGURATION")]
  else if cmd =? 114 (* 'r' *) then sendReadableData config r
  else [Text "UNKNOWN"].

(** The rows [sendReadableData] prints for the samples appended by a run of
    [saveTemperatureReading]. *)
Definition sample_row (config : ConfigData) (x : sample) : line :=
  Row (u32 (initialTimestamp config + s_elapsed x)) (s_temp x) (s_prox x).

End Readout.

(** ** Index-stamped records of [part_002] (the second sketch of [part_000]
    has the same [saveTemperatureReading], [findHighestDataIndex] and
    [sendReadableData]). *)
Module Log002.
Import F32 LogStore Config Boot Readout.

Definition sizeof_TemperatureData2 : Z := 8.

(** [flash.program] of the record [d] on slot [k], stored as written: what
    the flash holds when the slot was erased (NOR flash only clears bits,
    so programming over a written slot would AND the two records). *)
Definition program_slot2 (r : region2) (k : nat) (d : TemperatureData2) : region2 :=
  fun j => if Nat.eqb j k then Some d else r j.

(** [bool saveTemperatureReading(float temperature)]: result, [currentIndex]
    afterwards and the data region.  [program_ok] is the outcome of
    [flash.program]; as in [LogStore], a successful program stores the
    record as written (exact on an erased slot). *)
Definition saveTemperatureReading2 (g : flash_geometry) (program_ok : bool)
    (currentIndex : Z) (r : region2) (temp : f32) : bool * Z * region2 :=
  let dataOffset := u32 (currentIndex * sizeof_TemperatureData2) in
  let dataAddress := u32 (DATA_START_ADDRESS + dataOffset) in
  if (dataAddress <? flash_start g)
     || (flash_start g + flash_size g <? u32 (dataAddress + sizeof_TemperatureData2))
  then (false, currentIndex, r)
  else
    let data := {| index := currentIndex; temperature2 := temp |} in
    if negb program_ok then (false, currentIndex, r)
    else (true, u32 (currentIndex + 1),
          program_slot2 r (Z.to_nat (dataOffset / sizeof_TemperatureData2)) data).

(** A run of [saveTemperatureReading] calls with [flash.program] succeeding,
    stopping at the first one that returns [false]. *)
Fixpoint append_all2 (g : flash_geometry) (currentIndex : Z) (r : region2)
    (temps : list f32) : bool * Z * region2 :=
  match temps with
  | [] => (true, currentIndex, r)
  | t :: ts =>
      let '(ok, i, r') := saveTemperatureReading2 g true currentIndex r t in
      if ok then append_all2 g i r' ts else (false, i, r')
  end.

(** One pass of the loop of [sendReadableData] for slot [i]:
    [timestamp = initialTimestamp + data.index * wakeupInterval]. *)
Definition data_row2 (config : ConfigData) (r : region2) (i : nat) : line :=
  match r i with
  | None => ErrorRow i
  | Some data =>
      Row2 (u32 (initialTimestamp config + u32 (index data * wakeupInterval config)))
           (temperature2 data)
  end.

Definition sendReadableData2 (config : ConfigData) (r : region2) : list line :=
  [MetaTimestamp (initialTimestamp config);
   MetaInterval (wakeupInterval config);
   MetaId (cstr (personalId config));
   Text "Timestamp,Temperature"]
  ++ map (data_row2 config r) (seq 0 (Z.to_nat (findHighestDataIndex2 r)))
  ++ [Text "END_DATA"].

Definition slot_plausible2 (r : region2) (j : nat) : bool :=
  match r j with
  | Some d => plausible (temperature2 d)
  | None => false
  end.

(** The word at [WDT_RESET_FLAG_ADDRESS].  [bool setWatchdogResetFlag()]:
    erase the page (all ones), then program [RESET_FLAG_VALUE]; programming
    NOR flash clears bits, so the word becomes the AND of old and new.  A
    failed erase leaves the word as it was; a failed program is taken to
    leave the erased word. *)
Definition setWatchdogResetFlag (erase_ok program_ok : bool) (flag : Z) : bool * Z :=
  if negb erase_ok then (false, flag)
  else
    let flag := 0xFFFFFFFF in
    if negb program_ok then (false, flag)
    else (true, Z.land flag RESET_FLAG_VALUE).

(** The flag word after [setup()] of [part_002]: the page is erased when the
    flag was found set. *)
Definition setup_part002_flag (resetFlag : Z) : Z :=
  if resetFlag =? RESET_FLAG_VALUE then 0xFFFFFFFF else resetFlag.

(** [configureWatchdog(timeoutSeconds)]: the value written to
    [NRF_WDT->CRV]. *)
Definition configureWatchdog (timeoutSeconds : Z) : Z :=
  let timeout := if timeoutSeconds >? 512 then 512 else timeoutSeconds in
  u32 (timeout * 32768).

(** Plausible records carry an index below [0xFFFFFFFF] (no wrap of
    [index + 1]). *)
Definition indices_ok (r : region2) (lo hi : nat) : Prop :=
  forall j d, (lo <= j < hi)%nat -> r j = Some d ->
    plausible (temperature2 d) = true -> 0 <= index d < 0xFFFFFFFF.

End Log002.

(** ** Timestamps, the log area and the watchdog cycles of [part_003]. *)
Module Logger003.
Import DateCodec.

Definition FLASH_START_ADDRESS : Z := 0x60000.
Definition FLASH_TOTAL_SIZE : Z := 0x80000.
Definition sizeof_TemperatureLogEntry : Z := 4.
Definition MAX_LOG_ENTRIES : Z :=
  (FLASH_TOTAL_SIZE - FLASH_START_ADDRESS) / sizeof_TemperatureLogEntry.

(** The leap-year test written in both loops of [encodeTimestamp]. *)
Definition is_leap (y : Z) : bool :=
  (y mod 4 =? 0) && (negb (y mod 100 =? 0) || (y mod 400 =? 0)).

(** [for (uint16_t y = 1970; y < year; y++) days += leap ? 366 : 365;] *)
Fixpoint year_days (fuel : nat) (y year days : Z) : Z :=
  match fuel with
  | O => days
  | S f =>
      if y <? year
      then year_days f (u16 (y + 1)) year
             (u32 (days + (if is_leap y then 366 else 365)))
      else days
  end.

Definition days_in_month : list Z := [31; 28; 31; 30; 31; 30; 31; 31; 30; 31; 30; 31].

(** [for (uint8_t m = 1; m < month; m++) { days += days_in_month[m - 1];
    if (m == 2 && leap(year)) days++; }]  (An index past the table, which
    C leaves undefined, reads 0 here; it needs a month above 13.) *)
Fixpoint month_days (fuel : nat) (m month year days : Z) : Z :=
  match fuel with
  | O => days
  | S f =>
      if m <? month
      then
        let days := u32 (days + nth (Z.to_nat (m - 1)) days_in_month 0) in
        let days := if (m =? 2) && is_leap year then u32 (days + 1) else days in
        month_days f (u8 (m + 1)) month year days
      else days
  end.

(** [uint32_t encodeTimestamp(const DateTime &dt)]; each loop runs at most
    its fuel of iterations ([year - 1970] and [month]). *)
Definition encodeTimestamp (date time : Z) : Z :=
  let '(year, month, day) := decodeDate date in
  let '(hour, minute) := decodeTime time in
  let days := year_days (Z.to_nat (year - 1970)) 1970 year 0 in
  let days := month_days (Z.to_nat month) 1 month year days in
  let days := u32 (days + (day - 1)) in
  u32 (u32 (u32 (days * 24) * 3600) + hour * 3600 + minute * 60).

(** The POSIX formula for seconds since the Epoch of a UTC broken-down
    time (IEEE Std 1003.1, Base Definitions 4.16), with the day of the year
    [tm_yday] counted from the month and day of the month. *)
Definition cumulative_days : list Z := [0; 31; 59; 90; 120; 151; 181; 212; 243; 273; 304; 334].

Definition posix_seconds (year mon mday hour min : Z) : Z :=
  let tm_year := year - 1900 in
  let tm_yday := nth (Z.to_nat (mon - 1)) cumulative_days 0
                 + (if is_leap year && (2 <? mon) then 1 else 0) + mday - 1 in
  min * 60 + hour * 3600 + tm_yday * 86400 + (tm_year - 70) * 31536000
  + ((tm_year - 69) / 4) * 86400 - ((tm_year - 1) / 100) * 86400
  + ((tm_year + 299) / 400) * 86400.

(** The log area: the 32-bit word of each 4-byte slot from
    [FLASH_START_ADDRESS].  [struct TemperatureLogEntry { uint16_t index;
    int16_t temperature; }] is little-endian: [index] is the low half of
    the word, the temperature the high half. *)
Definition log_area := nat -> Z.

Definition ALIGN_4 (addr : Z) : Z := u32 (Z.land (addr + 3) (Z.lnot 3)).

Definition erased_log : log_area := fun _ => 0xFFFFFFFF.

Definition entry_index (w : Z) : Z := Z.land w 0xFFFF.

Definition entry_temperature (w : Z) : Z :=
  let t := Z.shiftr w 16 in if t >=? 0x8000 then t - 0x10000 else t.

Definition entry_word (index temperature : Z) : Z :=
  Z.lor (u16 index) (Z.shiftl (u16 temperature) 16).

(** [nrf_nvmc_write_words] of one word: NOR flash only clears bits. *)
Definition write_word (l : log_area) (k : nat) (w : Z) : log_area :=
  fun j => if Nat.eqb j k then Z.land (l j) w else l j.

Inductive DeviceMode := LOGGING | RETRIEVAL.

(** The globals the log functions use. *)
Record logger := {
  current_mode : DeviceMode;
  initial_timestamp : Z;
  log_index : Z;
  log : log_area
}.

(** [recoverLastLogIndex()]: the loop from slot [i] with [fuel] slots left. *)
Fixpoint recover_from (l : log_area) (i : nat) (fuel : nat) (log_index : Z) : Z :=
  match fuel with
  | O => log_index
  | S f =>
      if entry_index (l i) =? 0xFFFF then Z.of_nat i
      else recover_from l (S i) f log_index
  end.

Definition recoverLastLogIndex (st : logger) : logger :=
  {| current_mode := current_mode st; initial_timestamp := initial_timestamp st;
     log_index := recover_from (log st) 0 (Z.to_nat MAX_LOG_ENTRIES) (log_index st);
     log := log st |}.

Definition isFlashFull (st : logger) : bool :=
  MAX_LOG_ENTRIES - 1 <=? log_index st.

(** [writeNewLogEntry()] with [temperature] the value of
    [(int16_t)(HS300x.readTemperature() * 100)]: lines printed and the
    globals afterwards. *)
Definition writeNewLogEntry (st : logger) (temperature : Z) : list string * logger :=
  if isFlashFull st then
    (["[ERROR] Flash is full. Logging halted."%string],
     {| current_mode := RETRIEVAL; initial_timestamp := initial_timestamp st;
        log_index := log_index st; log := log st |})
  else if initial_timestamp st =? 0xFFFFFFFF then
    (["[ERROR] Initial timestamp missing."%string], st)
  else
    let st := recoverLastLogIndex st in
    let newAddress := ALIGN_4 (FLASH_START_ADDRESS + log_index st * sizeof_TemperatureLogEntry) in
    let slot := Z.to_nat ((newAddress - FLASH_START_ADDRESS) / sizeof_TemperatureLogEntry) in
    (["[INFO] New log entry recorded."%string],
     {| current_mode := current_mode st; initial_timestamp := initial_timestamp st;
        log_index := u16 (log_index st + 1);
        log := write_word (log st) slot (entry_word (log_index st) temperature) |}).

(** The globals after a reset: their initial values, the flash kept. *)
Definition after_reset (l : log_area) : logger :=
  {| current_mode := LOGGING; initial_timestamp := 0; log_index := 0; log := l |}.

(** The watchdog branch of [setup()] as far as the log goes:
    [recoverLastLogIndex(); loadWakeupInterval(); writeNewLogEntry();]. *)
Definition wdt_wake (l : log_area) (temperature : Z) : list string * logger :=
  writeNewLogEntry (recoverLastLogIndex (after_reset l)) temperature.

(** Successive watchdog wake-ups, one temperature each. *)
Fixpoint wdt_wakes (l : log_area) (temps : list Z) : log_area :=
  match temps with
  | [] => l
  | t :: ts => wdt_wakes (log (snd (wdt_wake l t))) ts
  end.

(** The loop of [retrieveLogs()]: the [(index, temperature)] pairs printed
    before the first entry whose index reads [0xFFFF]. *)
Fixpoint retrieve_from (l : log_area) (i : nat) (fuel : nat) : list (Z * Z) :=
  match fuel with
  | O => []
  | S f =>
      let w := l i in
      if (entry_index w =? 0xFFFF) || (entry_index w =? 0xFFFFFFFF) then []
      else (entry_index w, entry_temperature w) :: retrieve_from l (S i) f
  end.

Definition retrieveLogs (l : log_area) : list (Z * Z) :=
  retrieve_from l 0 (Z.to_nat MAX_LOG_ENTRIES).

(** [configureWDT()]: [(wdt_timeout_seconds, required_wdt_cycles)]. *)
Definition configureWDT (wakeup_interval : Z) : Z * Z :=
  if wakeup_interval =? 300 then (300, 1)
  else if wakeup_interval =? 600 then (300, 2)
  else if wakeup_interval =? 1800 then (450, 4)
  else if wakeup_interval =? 3600 then (450, 8)
  else (300, 1).

(** The value written to [NRF_WDT->CRV]. *)
Definition wdt_crv (wdt_timeout_seconds : Z) : Z := u32 (wdt_timeout_seconds * 32768 - 1).

(** [saveRequiredWdtCycles(uint16_t cycles)]: one word copied from
    [&cycles]; its upper half is the two bytes after the parameter
    ([stack_hi]).  The word at [REQUIRED_WDT_CYCLES_ADDRESS] is never
    erased by the program, so the write clears bits of what is there. *)
Definition saveRequiredWdtCycles (word cycles stack_hi : Z) : Z :=
  Z.land word (Z.lor (u16 cycles) (Z.shiftl (u16 stack_hi) 16)).

(** [loadRequiredWdtCycles()]: one byte into the [uint8_t] global, then the
    test [== 0xFFFF]. *)
Definition loadRequiredWdtCycles (word : Z) : Z :=
  let required_wdt_cycles := Z.land word 0xFF in
  if required_wdt_cycles =? 0xFFFF then 1 else required_wdt_cycles.

(** [Custom_WDT_IRQHandler()] on a timeout event: [GPREGRET] before and
    after, and whether the wake-up branch ([wdt_cycle_count >=
    required_wdt_cycles]) was taken. *)
Definition wdt_irq (word : Z) (gpregret : Z) : bool * Z :=
  let required_wdt_cycles := loadRequiredWdtCycles word in
  let wdt_cycle_count := u8 (gpregret + 1) in
  if required_wdt_cycles <=? wdt_cycle_count then (true, 0)
  else (false, wdt_cycle_count).

(** The wake-up decisions of successive timeouts. *)
Fixpoint wdt_irqs (word : Z) (gpregret : Z) (n : nat) : list bool :=
  match n with
  | O => []
  | S n' =>
      let '(wake, g) := wdt_irq word gpregret in wake :: wdt_irqs word g n'
  end.

(** [loadWakeupInterval()] and [loadPersonalID()]: a [uint16_t] read, with
    their defaults for [0xFFFF]. *)
Definition loadWakeupInterval (word : Z) : Z :=
  let wakeup_interval := Z.land word 0xFFFF in
  if wakeup_interval =? 0xFFFF then 60 else wakeup_interval.

Definition loadPersonalID (word : Z) : Z :=
  let personal_id := Z.land word 0xFFFF in
  if personal_id =? 0xFFFF then 0 else personal_id.

(** [saveWakeupInterval] / [savePersonalID]: like [saveRequiredWdtCycles]. *)
Definition saveHalfWord (word value stack_hi : Z) : Z :=
  Z.land word (Z.lor (u16 value) (Z.shiftl (u16 stack_hi) 16)).

(** The day count of [encodeTimestamp] at the first of a month. *)
Definition month_base (year month : Z) : Z :=
  month_days (Z.to_nat month) 1 month year (year_days (Z.to_nat (year - 1970)) 1970 year 0).

Definition month_base_posix (y m : Z) : bool :=
  let b := month_base (2000 + y) m in
  (0 <=? b) && (b * 86400 =? posix_seconds (2000 + y) m 1 0 0)
  && ((b + 31) * 86400 <? 2 ^ 32).

(** The values of [int16_t]. *)
Definition int16_range (t : Z) : Prop := -32768 <= t < 32768.

(** A log area holding the entries [0 .. length ts - 1] with the
    temperatures [ts], and erased after them. *)
Definition log_of (ts : list Z) : log_area :=
  fun j => match nth_error ts j with
           | Some t => entry_word (Z.of_nat j) t
           | None => 0xFFFFFFFF
           end.

(** The word at [REQUIRED_WDT_CYCLES_ADDRESS] after successive
    [configureWDT] calls, each with its wake-up interval and the stack bytes
    after the parameter of [saveRequiredWdtCycles]. *)
Definition configure_sessions (word : Z) (sessions : list (Z * Z)) : Z :=
  fold_left (fun w '(interval, stack_hi) =>
               saveRequiredWdtCycles w (snd (configureWDT interval)) stack_hi)
            sessions word.

End Logger003.

(** ** The ring of readings and the data transfer of
    [collect_temperature_new.ino]. *)
Module NewFw.
Import F32 Boot.

Definition FLASH_PAGE_SIZE : Z := 4096.
Definition DATA_START_ADDRESS : Z := 0x81000.
Definition MAX_DATA_ENTRIES : Z := 1000.
Definition sizeof_TemperatureData : Z := 8.
Definition MODE_IDLE : Z := 0.
Definition MODE_LOGGING : Z := 1.
Definition MODE_DATA_RETRIEVAL : Z := 2.

(** A data slot ([struct TemperatureData] at [DATA_START_ADDRESS + 8 * j]):
    erased; holding a record written on the erased slot; [Programmed old i t],
    the bitwise AND of the earlier contents [old] and the record [(i, t)]
    that a program over a slot that was not erased leaves (NOR flash only
    clears bits); or [Unknown], contents this model leaves open (after a
    failed program, or at power-on). *)
Inductive cell :=
| Erased
| Written (index : Z) (temperature : f32)
| Programmed (old : cell) (index : Z) (temperature : f32)
| Unknown.

Definition region := nat -> cell.

Definition slot_address (j : nat) : Z :=
  DATA_START_ADDRESS + Z.of_nat j * sizeof_TemperatureData.

(** [flash.erase(pageAddress, FLASH_PAGE_SIZE)] on the data slots. *)
Definition erase_page (r : region) (pageAddress : Z) : region :=
  fun j => if (pageAddress <=? slot_address j)
              && (slot_address j <? pageAddress + FLASH_PAGE_SIZE)
           then Erased else r j.

(** [flash.program(&data, dataAddress, 8)] on slot [k]; [ok] is whether it
    returned 0. *)
Definition program_slot (ok : bool) (r : region) (k : nat) (index : Z)
    (temperature : f32) : region :=
  fun j => if Nat.eqb j k
           then (if ok then match r j with
                            | Erased => Written index temperature
                            | c => Programmed c index temperature
                            end
                 else Unknown)
           else r j.

(** Return codes of the flash calls of one operation ([true] for 0): the
    data page erase and program of [saveTemperatureReading], and the config
    page erase and program of [saveConfig]. *)
Record flash_ops := {
  data_erase_ok : bool;
  data_program_ok : bool;
  cfg_erase_ok : bool;
  cfg_program_ok : bool
}.

Definition all_ok : flash_ops :=
  {| data_erase_ok := true; data_program_ok := true;
     cfg_erase_ok := true; cfg_program_ok := true |}.

(** The globals [config] and [currentMode], the data slots and the config
    page ([None] when it holds no complete record: erased, or left by a
    failed erase or program). *)
Record device := {
  config : ConfigDataNew;
  currentMode : Z;
  data : region;
  config_page : option ConfigDataNew
}.

Definition set_mode (c : ConfigDataNew) (m : Z) : ConfigDataNew :=
  {| n_initialTimestamp := n_initialTimestamp c; n_wakeupInterval := n_wakeupInterval c;
     n_personalId := n_personalId c; n_currentDataIndex := n_currentDataIndex c;
     n_mode := m; n_magicNumber := n_magicNumber c |}.

Definition set_magic (c : ConfigDataNew) (v : Z) : ConfigDataNew :=
  {| n_initialTimestamp := n_initialTimestamp c; n_wakeupInterval := n_wakeupInterval c;
     n_personalId := n_personalId c; n_currentDataIndex := n_currentDataIndex c;
     n_mode := n_mode c; n_magicNumber := v |}.

Definition set_index (c : ConfigDataNew) (v : Z) : ConfigDataNew :=
  {| n_initialTimestamp := n_initialTimestamp c; n_wakeupInterval := n_wakeupInterval c;
     n_personalId := n_personalId c; n_currentDataIndex := v;
     n_mode := n_mode c; n_magicNumber := n_magicNumber c |}.

Definition with_config (st : device) (c : ConfigDataNew) : device :=
  {| config := c; currentMode := currentMode st; data := data st;
     config_page := config_page st |}.

Definition with_mode (st : device) (m : Z) : device :=
  {| config := config st; currentMode := m; data := data st;
     config_page := config_page st |}.

Definition with_data (st : device) (r : region) : device :=
  {| config := config st; currentMode := currentMode st; data := r;
     config_page := config_page st |}.

Definition with_page (st : device) (p : option ConfigDataNew) : device :=
  {| config := config st; currentMode := currentMode st; data := data st;
     config_page := p |}.

(** [bool saveConfig()]. *)
Definition saveConfig (ops : flash_ops) (st : device) : bool * device :=
  let c := set_magic (set_mode (config st) (currentMode st)) 0xABCD1234 in
  let st := with_config st c in
  if negb (cfg_erase_ok ops) then (false, with_page st None)
  else if negb (cfg_program_ok ops) then (false, with_page st None)
  else (true, with_page st (Some c)).

(** [bool saveTemperatureReading(float temperature)]. *)
Definition saveTemperatureReading (ops : flash_ops) (st : device)
    (temperature : f32) : bool * device :=
  let idx := n_currentDataIndex (config st) in
  let dataAddress :=
    u32 (DATA_START_ADDRESS + (idx mod MAX_DATA_ENTRIES) * sizeof_TemperatureData) in
  let slot := Z.to_nat ((dataAddress - DATA_START_ADDRESS) / sizeof_TemperatureData) in
  let erase_step :=
    if idx mod (FLASH_PAGE_SIZE / sizeof_TemperatureData) =? 0 then
      let pageAddress := Z.land dataAddress (Z.lnot (FLASH_PAGE_SIZE - 1)) in
      if negb (data_erase_ok ops) then None
      else Some (erase_page (data st) pageAddress)
    else Some (data st) in
  match erase_step with
  | None => (false, st)
  | Some r =>
      if negb (data_program_ok ops) then
        (false, with_data st (program_slot false r slot idx temperature))
      else
        let st := with_data st (program_slot true r slot idx temperature) in
        let st := with_config st (set_index (config st) (u32 (idx + 1))) in
        saveConfig ops st
  end.

(** Successive readings, each with its flash return codes: the results
    and the final state. *)
Fixpoint save_all (st : device) (readings : list (flash_ops * f32))
    : list bool * device :=
  match readings with
  | [] => ([], st)
  | (ops, t) :: rest =>
      let '(ok, st1) := saveTemperatureReading ops st t in
      let '(oks, st2) := save_all st1 rest in
      (ok :: oks, st2)
  end.

(** Lines written to the serial port by the data transfer. *)
Inductive out_line :=
| Text (s : string)
| Number (label : string) (v : Z)
| Str (label : string) (bytes : list Z)
| DataRow (c : cell).

Definition sendResponse (prefix type : string) (data : option string) : out_line :=
  match data with
  | Some d => Text (prefix ++ type ++ ";" ++ d)
  | None => Text (prefix ++ type ++ ";")
  end.

(** [void sendDataToHost()]: the lines printed and the state afterwards.
    [flash.read] of an in-range data slot returns 0. *)
Definition sendDataToHost (ops : flash_ops) (st : device) : list out_line * device :=
  let c := config st in
  let header :=
    [Number "Initial Timestamp:" (n_initialTimestamp c);
     Number "Wake-up Interval:" (n_wakeupInterval c);
     Str "Personal ID:" (Config.cstr (n_personalId c));
     Number "Total Readings:" (n_currentDataIndex c)] in
  if n_currentDataIndex c =? 0 then
    (header ++ [sendResponse "DATA:" "BEGIN" None; Text "No data available.";
                sendResponse "DATA:" "END" None],
     snd (saveConfig ops (with_mode st MODE_IDLE)))
  else
    let numEntries := Z.min (n_currentDataIndex c) MAX_DATA_ENTRIES in
    (header ++ [sendResponse "DATA:" "BEGIN" None]
       ++ map (fun i => DataRow (data st i)) (seq 0 (Z.to_nat numEntries))
       ++ [sendResponse "DATA:" "END" None],
     snd (saveConfig ops (with_mode st MODE_IDLE))).

(** [void handleRetrieveRequest()]; [ops1] and [ops2] are the outcomes of
    its own [saveConfig] and of the one in [sendDataToHost]. *)
Definition handleRetrieveRequest (ops1 ops2 : flash_ops) (st : device)
    : list out_line * device :=
  if n_currentDataIndex (config st) =? 0 then
    ([sendResponse "RESP:" "ERROR" (Some "NO_DATA"%string)], st)
  else
    let st := snd (saveConfig ops1 (with_mode st MODE_DATA_RETRIEVAL)) in
    let '(lines, st) := sendDataToHost ops2 st in
    (sendResponse "RESP:" "OK" (Some "SENDING_DATA"%string) :: lines, st).

(** [void handleStatusRequest()]. *)
Definition handleStatusRequest (st : device) : out_line :=
  if currentMode st =? MODE_LOGGING then sendResponse "RESP:" "OK" (Some "LOGGING"%string)
  else if 0 <? n_currentDataIndex (config st) then sendResponse "RESP:" "OK" (Some "HAS_DATA"%string)
  else if 0 <? n_initialTimestamp (config st) then sendResponse "RESP:" "OK" (Some "CONFIGURED"%string)
  else sendResponse "RESP:" "OK" (Some "NOT_CONFIGURED"%string).

(** The power-on values of the globals [config] and [currentMode]; the
    flash contents are left open ([Unknown] slots, and a config page that
    holds no complete record). *)
Definition DEFAULT_WAKEUP_INTERVAL : Z := 300.

Definition default_config : ConfigDataNew :=
  {| n_initialTimestamp := 0; n_wakeupInterval := DEFAULT_WAKEUP_INTERVAL;
     n_personalId := Config.char16 "DEFAULT_ID"; n_currentDataIndex := 0;
     n_mode := MODE_IDLE; n_magicNumber := 0xABCD1234 |}.

Definition power_on_device : device :=
  {| config := default_config; currentMode := MODE_IDLE;
     data := fun _ => Unknown; config_page := None |}.

(** The first slot index past the pages erased by the first [k] calls. *)
Definition erased_frontier (k : Z) : Z := 512 * ((k + 511) / 512).

(** The state after [k] readings [ws] from index 0: slots below [k] hold
    them, slots from [k] to the end of the last erased page are erased. *)
Definition ring_inv (st : device) (ws : list f32) : Prop :=
  n_currentDataIndex (config st) = Z.of_nat (List.length ws)
  /\ (forall j t, nth_error ws j = Some t -> data st j = Written (Z.of_nat j) t)
  /\ (forall j, (List.length ws <= j)%nat ->
        Z.of_nat j < erased_frontier (Z.of_nat (List.length ws)) -> data st j = Erased).

End NewFw.

(** ** Serial commands of [collect_temperature_new.ino]: line framing,
    [processCommand] and the packet parser of [initializeDevice].  C strings
    are their bytes up to the terminating NUL. *)
Module NewFwSerial.
Import Config Boot NewFw.

Definition MAX_BUFFER_SIZE : nat := 128.

(** [strchr(s, c)] on a C string: the bytes before the first [c] and those
    after it. *)
Fixpoint strchr_split (c : Z) (s : list Z) : option (list Z * list Z) :=
  match s with
  | [] => None
  | x :: s' =>
      if x =? c then Some ([], s')
      else match strchr_split c s' with
           | Some (a, b) => Some (x :: a, b)
           | None => None
           end
  end.

(** [strtok(s, ",")] of newlib: skip leading commas; [None] at the end of
    the string; else the token up to the next comma and the bytes after that
    comma (nothing when the token ends the string). *)
Fixpoint skip_commas (s : list Z) : list Z :=
  match s with
  | c :: s' => if c =? 44 then skip_commas s' else s
  | [] => []
  end.

Definition strtok (s : list Z) : option (list Z * list Z) :=
  match skip_commas s with
  | [] => None
  | s' => match strchr_split 44 s' with
          | Some (tok, rest) => Some (tok, rest)
          | None => Some (s', [])
          end
  end.

(** [strtoul(s, NULL, 10)] of newlib, [unsigned long] being 32 bits: skip
    white space, an optional sign, then the decimal digits; a value above
    [ULONG_MAX] gives [ULONG_MAX], a minus sign negates modulo 2^32. *)
Definition ULONG_MAX : Z := 2 ^ 32 - 1.

Definition isspace (c : Z) : bool := (c =? 32) || ((9 <=? c) && (c <=? 13)).

Definition isdigit (c : Z) : bool := (48 <=? c) && (c <=? 57).

Fixpoint skip_spaces (s : list Z) : list Z :=
  match s with
  | c :: s' => if isspace c then skip_spaces s' else s
  | [] => []
  end.

Fixpoint digits_value (s : list Z) (acc : Z) : Z :=
  match s with
  | c :: s' => if isdigit c then digits_value s' (acc * 10 + (c - 48)) else acc
  | [] => acc
  end.

Definition strtoul (s : list Z) : Z :=
  let s := skip_spaces s in
  let '(neg, s) := match s with
                   | c :: s' => if c =? 45 then (true, s')
                                else if c =? 43 then (false, s') else (false, s)
                   | [] => (false, s)
                   end in
  let v := digits_value s 0 in
  if ULONG_MAX <? v then ULONG_MAX
  else if neg then u32 (- v) else v.

Definition set_timestamp (c : ConfigDataNew) (v : Z) : ConfigDataNew :=
  {| n_initialTimestamp := v; n_wakeupInterval := n_wakeupInterval c;
     n_personalId := n_personalId c; n_currentDataIndex := n_currentDataIndex c;
     n_mode := n_mode c; n_magicNumber := n_magicNumber c |}.

Definition set_id (c : ConfigDataNew) (v : list Z) : ConfigDataNew :=
  {| n_initialTimestamp := n_initialTimestamp c; n_wakeupInterval := n_wakeupInterval c;
     n_personalId := v; n_currentDataIndex := n_currentDataIndex c;
     n_mode := n_mode c; n_magicNumber := n_magicNumber c |}.

Definition set_interval (c : ConfigDataNew) (v : Z) : ConfigDataNew :=
  {| n_initialTimestamp := n_initialTimestamp c; n_wakeupInterval := v;
     n_personalId := n_personalId c; n_currentDataIndex := n_currentDataIndex c;
     n_mode := n_mode c; n_magicNumber := n_magicNumber c |}.

(** [bool initializeDevice(const char* packet)]: lines printed, result and
    state.  The fields of the global [config] are assigned as they are
    parsed, before a later token is found missing. *)
Definition initializeDevice (ops : flash_ops) (packet : list Z) (st : device)
    : list out_line * bool * device :=
  let buffer := firstn 63 packet in
  let buffer :=
    match buffer with
    | c :: b =>
        if c =? 60 (* '<' *) then
          match strchr_split 62 (* '>' *) b with
          | Some (b', _) => b'
          | None => b
          end
        else buffer
    | [] => buffer
    end in
  match strtok buffer with
  | None => ([Text "[ERROR] Missing timestamp"], false, st)
  | Some (token, rest) =>
      let st := with_config st (set_timestamp (config st) (u32 (strtoul token))) in
      match strtok rest with
      | None => ([Text "[ERROR] Missing personal ID"], false, st)
      | Some (token, rest) =>
          let st := with_config st (set_id (config st) (InitCommand.strncpy_id token)) in
          match strtok rest with
          | None => ([Text "[ERROR] Missing wake-up interval"], false, st)
          | Some (token, _) =>
              let st := with_config st (set_interval (config st) (u32 (strtoul token))) in
              let st := with_config st (set_index (config st) 0) in
              let '(ok, st) := saveConfig ops st in
              ([], ok, st)
          end
      end
  end.

(** [void prepareForLogging()]: its confirmation line.  The serial input it
    then discards is never read again, as [SYSTEMOFF] follows. *)
Definition prepareForLogging : list out_line :=
  [sendResponse "RESP:" "OK" (Some "INITIALIZED"%string)].

(** [void enterSleep()] as far as the globals go: in Logging mode it sets
    [config.wakeupInterval = 30] before arming the wake-up timer. *)
Definition enterSleep (st : device) : device :=
  if negb (currentMode st =? MODE_LOGGING) then st
  else with_config st (set_interval (config st) 30).

Definition eq_bytes (a : list Z) (lit : string) : bool :=
  if list_eq_dec Z.eq_dec a (bytes_of lit) then true else false.

(** [void processCommand(char* buffer)]: lines printed, whether
    [NRF_POWER->SYSTEMOFF] was written, and the state.  [ops1] and [ops2]
    are the outcomes of the first and second [saveConfig] of the handler. *)
Definition processCommand (ops1 ops2 : flash_ops) (buffer : list Z) (st : device)
    : list out_line * InitCommand.power * device :=
  if eq_bytes (firstn 4 buffer) "CMD:" then
    match strchr_split 59 (* ';' *) (skipn 4 buffer) with
    | None =>
        ([sendResponse "RESP:" "ERROR" (Some "Invalid command format"%string)],
         InitCommand.Running, st)
    | Some (cmdStart, cmdEnd) =>
        if eq_bytes cmdStart "STATUS" then
          ([handleStatusRequest st], InitCommand.Running, st)
        else if eq_bytes cmdStart "INIT" then
          match cmdEnd with
          | _ :: _ =>
              let '(msgs, ok, st) := initializeDevice ops1 cmdEnd st in
              if ok then (msgs ++ prepareForLogging, InitCommand.SystemOff, st)
              else (msgs ++ [Text "[ERROR] Failed to initialize device";
                             sendResponse "RESP:" "ERROR" (Some "INIT_FAILED"%string)],
                    InitCommand.Running, st)
          | [] =>
              ([sendResponse "RESP:" "OK" (Some "READY_FOR_INIT"%string)],
               InitCommand.Running, st)
          end
        else if eq_bytes cmdStart "RETRIEVE" then
          let '(lines, st) := handleRetrieveRequest ops1 ops2 st in
          (lines, InitCommand.Running, st)
        else
          ([sendResponse "RESP:" "ERROR" (Some "Unknown command"%string)],
           InitCommand.Running, st)
    end
  else
    ([sendResponse "RESP:" "ERROR" (Some "Invalid command format"%string)],
     InitCommand.Running, st).

(** [void processSerialInput()] over the bytes [serial.getc()] returns,
    every flash call of the commands having the outcomes [ops]: lines
    printed, power state, [cmdBuffer[0 .. cmdIndex - 1]] afterwards and the
    state.  Nothing runs after [SYSTEMOFF]. *)
Fixpoint processSerialInput (ops : flash_ops) (cmdBuffer : list Z)
    (input : list Z) (st : device)
    : list out_line * InitCommand.power * list Z * device :=
  match input with
  | [] => ([], InitCommand.Running, cmdBuffer, st)
  | c :: input' =>
      if (c =? 10) || (c =? 13) then
        if (0 <? List.length cmdBuffer)%nat then
          let '(out1, p, st) := processCommand ops ops (cstr cmdBuffer) st in
          match p with
          | InitCommand.SystemOff => (out1, InitCommand.SystemOff, [], st)
          | InitCommand.Running =>
              let '(out2, p, buf, st) := processSerialInput ops [] input' st in
              (out1 ++ out2, p, buf, st)
          end
        else processSerialInput ops cmdBuffer input' st
      else if (List.length cmdBuffer <? MAX_BUFFER_SIZE - 1)%nat then
        processSerialInput ops (cmdBuffer ++ [c]) input' st
      else
        let '(out2, p, buf, st) := processSerialInput ops [] input' st in
        (sendResponse "RESP:" "ERROR" (Some "Command too long"%string) :: out2,
         p, buf, st)
  end.

(** [void checkSerialCommands()]. *)
Definition checkSerialCommands (ops : flash_ops) (cmdBuffer input : list Z)
    (st : device) : list out_line * InitCommand.power * list Z * device :=
  if negb (currentMode st =? MODE_LOGGING) then processSerialInput ops cmdBuffer input st
  else ([], InitCommand.Running, cmdBuffer, st).

(** One pass of the [while (true)] loop of [main()]: [temperature] is what
    [HS300x.readTemperature()] returns after [enterSleep()], [input] the
    bytes [serial] holds, [ops] the outcomes of the flash calls. *)
Definition main_iteration (ops : flash_ops) (temperature : F32.f32) (input : list Z)
    (cmdBuffer : list Z) (st : device)
    : list out_line * InitCommand.power * list Z * device :=
  if currentMode st =? MODE_LOGGING then
    let st := enterSleep st in
    let '(_, st) := saveTemperatureReading ops st temperature in
    ([], InitCommand.Running, cmdBuffer, st)
  else if currentMode st =? MODE_DATA_RETRIEVAL then
    let '(lines, st) := sendDataToHost ops st in
    (lines, InitCommand.Running, cmdBuffer, st)
  else checkSerialCommands ops cmdBuffer input st.

(** Successive passes of the loop, each with its own inputs, until
    [SYSTEMOFF]. *)
Fixpoint main_loop (passes : list (flash_ops * F32.f32 * list Z)) (cmdBuffer : list Z)
    (st : device) : list out_line * InitCommand.power * list Z * device :=
  match passes with
  | [] => ([], InitCommand.Running, cmdBuffer, st)
  | (ops, t, input) :: passes' =>
      let '(out1, p, cmdBuffer, st) := main_iteration ops t input cmdBuffer st in
      match p with
      | InitCommand.SystemOff => (out1, p, cmdBuffer, st)
      | InitCommand.Running =>
          let '(out2, p, cmdBuffer, st) := main_loop passes' cmdBuffer st in
          (out1 ++ out2, p, cmdBuffer, st)
      end
  end.

(** A decimal numeral: its digit values, most significant first, and the
    number they denote. *)
Definition decimal (ds : list Z) : Z := fold_left (fun acc d => acc * 10 + d) ds 0.

Definition numeral (ds : list Z) : list Z := map (fun d => 48 + d) ds.

Definition digit (d : Z) : Prop := 0 <= d <= 9.

(** A byte that does not end a command line. *)
Definition not_eol (c : Z) : Prop := c <> 10 /\ c <> 13.

End NewFwSerial.

(** * Proofs *)

Module LogStoreFacts.
Import LogStore.

Lemma Qltb_spec (a b : Q) : Qltb a b = true <-> (a < b)%Q.
Proof.
  unfold Qltb. rewrite negb_true_iff. split.
  - intro H. apply Qnot_le_lt. intro Hle. apply Qle_bool_iff in Hle. congruence.
  - intro H. destruct (Qle_bool b a) eqn:E; [|reflexivity].
    apply Qle_bool_iff in E. exfalso. apply (Qlt_not_le a b H E).
Qed.

Lemma plausible_spec (t : f32) :
  plausible t = true <-> exists q, t = Fin q /\ (inject_Z (-100) < q)%Q /\ (q < inject_Z 200)%Q.
Proof.
  unfold plausible, of_int. destruct t as [q|[|]|]; simpl.
  - rewrite andb_true_iff, !Qltb_spec. split.
    + intros [H1 H2]. exists q. auto.
    + intros [q' [Hq [H1 H2]]]. inversion Hq; subst. auto.
  - split; [discriminate|]. intros [q [Hq _]]. discriminate.
  - split; [discriminate|]. intros [q [Hq _]]. discriminate.
  - split; [discriminate|]. intros [q [Hq _]]. discriminate.
Qed.

(** Characterisation of the scan loop: the result is the start value when
    no slot is plausible, and otherwise one past the last plausible slot. *)
Lemma scan_from_spec (r : region) (fuel : nat) : forall i h,
  (forall j, (i <= j < i + fuel)%nat -> r j <> None) ->
  (h <= i)%nat ->
  (scan_from r i fuel h = h /\
     forall j, (i <= j < i + fuel)%nat -> slot_plausible r j = false)
  \/ ((i < scan_from r i fuel h <= i + fuel)%nat
      /\ slot_plausible r (scan_from r i fuel h - 1)%nat = true
      /\ forall j, (scan_from r i fuel h <= j < i + fuel)%nat ->
                   slot_plausible r j = false).
Proof.
  induction fuel as [|fuel IH]; intros i h Hread Hh; simpl.
  - left. split; [reflexivity|]. intros j Hj. lia.
  - destruct (r i) as [d|] eqn:Eri.
    2: { exfalso. apply (Hread i); [lia|exact Eri]. }
    assert (Hread' : forall j, (S i <= j < S i + fuel)%nat -> r j <> None).
    { intros j Hj. apply Hread. lia. }
    destruct (plausible (temperature d)) eqn:Ep.
    + destruct (IH (S i) (S i) Hread' (le_n _)) as [[E Hall] | [Hlt [Hp Hall]]].
      * right. rewrite E. repeat split; try lia.
        -- unfold slot_plausible. replace (S i - 1)%nat with i by lia.
           rewrite Eri. exact Ep.
        -- intros j Hj. apply Hall. lia.
      * right. repeat split; try lia; auto.
        intros j Hj. apply Hall. lia.
    + destruct (IH (S i) h Hread' ltac:(lia)) as [[E Hall] | [Hlt [Hp Hall]]].
      * left. split; [exact E|]. intros j Hj.
        destruct (Nat.eq_dec j i) as [->|Hne].
        -- unfold slot_plausible. rewrite Eri. exact Ep.
        -- apply Hall. lia.
      * right. repeat split; try lia; auto.
        intros j Hj. apply Hall. lia.
Qed.

(** Extensionality: the scan reads only the slots it visits. *)
Lemma scan_from_ext (r1 r2 : region) (fuel : nat) : forall i h,
  (forall j, (i <= j < i + fuel)%nat -> r1 j = r2 j) ->
  scan_from r1 i fuel h = scan_from r2 i fuel h.
Proof.
  induction fuel as [|fuel IH]; intros i h Heq; simpl; [reflexivity|].
  rewrite (Heq i) by lia. destruct (r2 i); [|reflexivity].
  apply IH. intros j Hj. apply Heq. lia.
Qed.

Lemma scan_from_stop (r1 r2 : region) (fuel : nat) : forall i h j,
  (i <= j < i + fuel)%nat -> r1 j = None -> r2 j = None ->
  (forall k, (i <= k < j)%nat -> r1 k = r2 k) ->
  scan_from r1 i fuel h = scan_from r2 i fuel h.
Proof.
  induction fuel as [|fuel IH]; intros i h j Hj E1 E2 Heq; simpl; [reflexivity|].
  destruct (Nat.eq_dec i j) as [->|Hne].
  - rewrite E1, E2. reflexivity.
  - rewrite (Heq i) by lia. destruct (r2 i); [|reflexivity].
    apply (IH _ _ j); try assumption; try lia.
    intros k Hk. apply Heq. lia.
Qed.

Lemma save_step (g : flash_geometry) (s : store) (k : nat) (t : f32) (p e : Z) :
  flash_start g <= DATA_START_ADDRESS ->
  DATA_START_ADDRESS + (Z.of_nat k + 1) * sizeof_TemperatureData
    <= flash_start g + flash_size g ->
  flash_start g + flash_size g < 2 ^ 32 ->
  currentIndex s = Z.of_nat k ->
  saveTemperatureReading g true s t p e =
    (true, {| currentIndex := Z.of_nat k + 1;
              data := program_slot (data s) k
                        {| elapsedSeconds := e; temperature := t;
                           proximityVal := p |} |}).
Proof.
  intros H1 H2 H3 Hk.
  unfold saveTemperatureReading, u32, sizeof_TemperatureData, DATA_START_ADDRESS in *.
  rewrite Hk.
  rewrite (Z.mod_small (Z.of_nat k * 12)) by lia.
  rewrite (Z.mod_small (524288 + Z.of_nat k * 12)) by lia.
  rewrite (Z.mod_small (524288 + Z.of_nat k * 12 + 12)) by lia.
  rewrite (proj2 (Z.ltb_ge _ _)) by lia.
  rewrite (proj2 (Z.ltb_ge _ _)) by lia. simpl.
  rewrite Z.div_mul by lia. rewrite Nat2Z.id.
  rewrite (Z.mod_small (Z.of_nat k + 1)) by lia. reflexivity.
Qed.

Lemma append_all_spec (g : flash_geometry) (xs : list sample) : forall k s,
  flash_start g <= DATA_START_ADDRESS ->
  DATA_START_ADDRESS + Z.of_nat (k + List.length xs) * sizeof_TemperatureData
    <= flash_start g + flash_size g ->
  flash_start g + flash_size g < 2 ^ 32 ->
  currentIndex s = Z.of_nat k ->
  exists s', append_all g s xs = (true, s')
    /\ currentIndex s' = Z.of_nat (k + List.length xs)
    /\ (forall j, (j < k \/ k + List.length xs <= j)%nat -> data s' j = data s j)
    /\ (forall j, (k <= j < k + List.length xs)%nat ->
          exists x, In x xs /\ data s' j = Some (stored x)).
Proof.
  induction xs as [|x xs IH]; intros k s H1 H2 H3 Hk; cbn [List.length append_all] in *.
  - exists s. rewrite Nat.add_0_r. repeat split; auto.
    intros j Hj. lia.
  - unfold sizeof_TemperatureData, DATA_START_ADDRESS in *.
    rewrite (save_step g s k) by (unfold sizeof_TemperatureData, DATA_START_ADDRESS; lia).
    set (s1 := {| currentIndex := Z.of_nat k + 1; data := _ |}).
    destruct (IH (S k) s1) as [s' [Ha [Hi [Hout Hin]]]];
      unfold sizeof_TemperatureData, DATA_START_ADDRESS; try lia.
    { simpl. lia. }
    exists s'. split; [exact Ha|]. split; [rewrite Hi; f_equal; lia|]. split.
    + intros j Hj. rewrite Hout by lia. simpl. unfold program_slot.
      destruct (Nat.eqb_spec j k); [lia|reflexivity].
    + intros j Hj. destruct (Nat.eq_dec j k) as [->|Hne].
      * exists x. split; [left; reflexivity|].
        rewrite Hout by lia. simpl. unfold program_slot.
        rewrite Nat.eqb_refl. reflexivity.
      * destruct (Hin j ltac:(lia)) as [y [Hy Hd]].
        exists y. split; [right; exact Hy|exact Hd].
Qed.

End LogStoreFacts.

Module LogStoreClaims.
Import LogStore LogStoreFacts.

Lemma find_prefix (r : region) (n : nat) :
  (n <= MAX_DATA_ENTRIES)%nat ->
  (forall j, (j < MAX_DATA_ENTRIES)%nat -> r j <> None) ->
  (forall j, (j < MAX_DATA_ENTRIES)%nat -> slot_plausible r j = Nat.ltb j n) ->
  findHighestDataIndex r = n.
Proof.
  intros Hn Hread Hp. unfold findHighestDataIndex.
  destruct (scan_from_spec r MAX_DATA_ENTRIES 0 0 (fun j Hj => Hread j ltac:(lia)) (le_n 0))
    as [[E Hall] | [Hlt [Hlast Hall]]].
  - rewrite E. destruct n as [|n]; [reflexivity|].
    specialize (Hall 0%nat ltac:(lia)). rewrite Hp in Hall by lia. discriminate.
  - set (m := scan_from r 0 MAX_DATA_ENTRIES 0) in *.
    rewrite Hp in Hlast by lia. apply Nat.ltb_lt in Hlast.
    destruct (Nat.lt_ge_cases m n) as [Hmn|Hmn]; [|lia].
    specialize (Hall (n - 1)%nat ltac:(lia)). rewrite Hp in Hall by lia.
    apply Nat.ltb_ge in Hall. lia.
Qed.

Lemma erased_not_plausible : plausible (temperature erased_record) = false.
Proof. reflexivity. Qed.

(** C1 as stated is refuted: a region reachable by three appends, the middle
    one of an implausible reading, has one valid leading record, yet the scan
    does not stop at the implausible slot and reports 3. *)
Lemma recover_index_not_leading_count :
  let r := data (snd (append_all nrf52840_flash fresh_store c1_samples)) in
  fst (append_all nrf52840_flash fresh_store c1_samples) = true
  /\ findHighestDataIndex r = 3%nat
  /\ spec_recover_index r = 1%nat
  /\ findHighestDataIndex r <> spec_recover_index r.
Proof. vm_compute. repeat split; discriminate. Qed.

(** C1 (amended).  [findHighestDataIndex] of [part_000] visits the slots
    from the lowest address up to capacity and ends early only at a failed
    flash read.  When every read succeeds it returns one past the last
    plausible slot (0 when none is plausible); slots after a failed read and
    slots past capacity are never looked at, so an unmodified region always
    scans to the same index; and after [N <= capacity] appends of plausible
    readings to a freshly erased region it returns exactly [N]. *)
Theorem findHighestDataIndex_characterised :
  (forall r : region,
     (forall j, (j < MAX_DATA_ENTRIES)%nat -> r j <> None) ->
     (findHighestDataIndex r = 0%nat /\
        forall j, (j < MAX_DATA_ENTRIES)%nat -> slot_plausible r j = false)
     \/ ((0 < findHighestDataIndex r <= MAX_DATA_ENTRIES)%nat
         /\ slot_plausible r (findHighestDataIndex r - 1)%nat = true
         /\ forall j, (findHighestDataIndex r <= j < MAX_DATA_ENTRIES)%nat ->
                      slot_plausible r j = false))
  /\ (forall (r1 r2 : region) (j : nat),
        (j < MAX_DATA_ENTRIES)%nat -> r1 j = None -> r2 j = None ->
        (forall k, (k < j)%nat -> r1 k = r2 k) ->
        findHighestDataIndex r1 = findHighestDataIndex r2)
  /\ (forall r1 r2 : region,
        (forall j, (j < MAX_DATA_ENTRIES)%nat -> r1 j = r2 j) ->
        findHighestDataIndex r1 = findHighestDataIndex r2)
  /\ (forall (g : flash_geometry) (xs : list sample),
        flash_start g <= DATA_START_ADDRESS ->
        DATA_START_ADDRESS + Z.of_nat MAX_DATA_ENTRIES * sizeof_TemperatureData
          <= flash_start g + flash_size g ->
        flash_start g + flash_size g < 2 ^ 32 ->
        (List.length xs <= MAX_DATA_ENTRIES)%nat ->
        all_plausible xs ->
        exists s', append_all g fresh_store xs = (true, s')
          /\ currentIndex s' = Z.of_nat (List.length xs)
          /\ findHighestDataIndex (data s') = List.length xs).
Proof.
  split; [|split; [|split]].
  - intros r Hread. unfold findHighestDataIndex.
    destruct (scan_from_spec r MAX_DATA_ENTRIES 0 0
                (fun j Hj => Hread j ltac:(lia)) (le_n 0)) as [[E H]|[E H]].
    + left. split; [exact E|]. intros j Hj. apply H. lia.
    + right. destruct H as [H1 H2]. split; [exact E|]. split; [exact H1|].
      intros j Hj. apply H2. lia.
  - intros r1 r2 j Hj E1 E2 Heq. unfold findHighestDataIndex.
    apply (scan_from_stop r1 r2 MAX_DATA_ENTRIES 0 0 j); auto; try lia.
    intros k Hk. apply Heq. lia.
  - intros r1 r2 Heq. unfold findHighestDataIndex. apply scan_from_ext.
    intros j Hj. apply Heq. lia.
  - intros g xs H1 H2 H3 Hlen Hpl.
    destruct (append_all_spec g xs 0 fresh_store H1) as [s' [Ha [Hi [Hout Hin]]]];
      [unfold sizeof_TemperatureData in *; lia | exact H3 | reflexivity |].
    exists s'. split; [exact Ha|]. split; [exact Hi|].
    apply find_prefix; [exact Hlen| |].
    + intros j Hj. destruct (Nat.lt_ge_cases j (List.length xs)) as [Hl|Hl].
      * destruct (Hin j ltac:(lia)) as [x [_ E]]. rewrite E. discriminate.
      * rewrite Hout by lia. discriminate.
    + intros j Hj. unfold slot_plausible.
      destruct (Nat.lt_ge_cases j (List.length xs)) as [Hl|Hl].
      * destruct (Hin j ltac:(lia)) as [x [Hx E]]. rewrite E. simpl.
        rewrite (proj2 (Nat.ltb_lt _ _) Hl).
        unfold all_plausible in Hpl. rewrite Forall_forall in Hpl.
        exact (Hpl x Hx).
      * rewrite Hout by lia. rewrite (proj2 (Nat.ltb_ge _ _) Hl). reflexivity.
Qed.

Lemma findHighestDataIndex_characterised_witness :
  exists s', append_all nrf52840_flash fresh_store
               [mk_sample 20; mk_sample 21; mk_sample 22] = (true, s')
    /\ currentIndex s' = 3
    /\ findHighestDataIndex (data s') = 3%nat.
Proof.
  destruct findHighestDataIndex_characterised as [_ [_ [_ H]]].
  apply (H nrf52840_flash [mk_sample 20; mk_sample 21; mk_sample 22]); try (vm_compute; reflexivity);
    try (vm_compute; discriminate).
  - apply Nat.leb_le. vm_compute. reflexivity.
  - unfold all_plausible. repeat constructor.
Defined.

(** C8.  The plausibility check used by [findHighestDataIndex] accepts a
    stored temperature exactly when it is a finite value strictly between
    -100 and 200 (NaN, the erased pattern, and infinities are rejected);
    -100 and 200 themselves are rejected, while -99.99 and 199.99 (as
    decimals and as their nearest single-precision values) are accepted. *)
Theorem plausible_range_boundaries :
  (forall t : f32, plausible t = true <->
     exists q, t = Fin q /\ (inject_Z (-100) < q)%Q /\ (q < inject_Z 200)%Q)
  /\ plausible (of_int (-100)) = false
  /\ plausible (of_int 200) = false
  /\ plausible (Fin (Qmake (-9999) 100)) = true
  /\ plausible (Fin (Qmake 19999 100)) = true
  /\ plausible m99_99 = true
  /\ plausible p199_99 = true.
Proof.
  split; [exact plausible_spec|].
  repeat split; reflexivity.
Qed.

(** C2 (code_bug).  [saveTemperatureReading] only checks the address against
    the whole flash device, never against [MAX_DATA_ENTRIES]: on any flash
    that extends one record past the data region (the nRF52840's 1 MB does),
    [capacity + 1] consecutive appends from a fresh store all succeed, the
    index ends at [capacity + 1], and the last record lands in slot
    [capacity], outside the region the scan reads. *)
Theorem saveTemperatureReading_passes_capacity (g : flash_geometry) (xs : list sample) :
  flash_start g <= DATA_START_ADDRESS ->
  DATA_START_ADDRESS + Z.of_nat (S MAX_DATA_ENTRIES) * sizeof_TemperatureData
    <= flash_start g + flash_size g ->
  flash_start g + flash_size g < 2 ^ 32 ->
  List.length xs = S MAX_DATA_ENTRIES ->
  exists s', append_all g fresh_store xs = (true, s')
    /\ currentIndex s' = Z.of_nat MAX_DATA_ENTRIES + 1
    /\ exists x, In x xs /\ data s' MAX_DATA_ENTRIES = Some (stored x).
Proof.
  intros H1 H2 H3 Hlen.
  destruct (append_all_spec g xs 0 fresh_store H1) as [s' [Ha [Hi [_ Hin]]]];
    [rewrite Hlen; exact H2 | exact H3 | reflexivity |].
  exists s'. split; [exact Ha|]. split.
  - rewrite Hi, Hlen. lia.
  - apply Hin. rewrite Hlen. lia.
Qed.

Lemma saveTemperatureReading_passes_capacity_witness :
  exists s', append_all nrf52840_flash fresh_store
               (repeat (mk_sample 20) (S MAX_DATA_ENTRIES)) = (true, s')
    /\ currentIndex s' = Z.of_nat MAX_DATA_ENTRIES + 1
    /\ exists x, In x (repeat (mk_sample 20) (S MAX_DATA_ENTRIES))
                 /\ data s' MAX_DATA_ENTRIES = Some (stored x).
Proof.
  apply saveTemperatureReading_passes_capacity.
  - vm_compute. discriminate.
  - vm_compute. discriminate.
  - vm_compute. reflexivity.
  - apply repeat_length.
Defined.

(** The [capacity + 1]-th call, evaluated: from index [MAX_DATA_ENTRIES] it
    returns [true] and advances the index to 15001. *)
Lemma save_at_capacity_eval :
  let '(ok, s') := saveTemperatureReading nrf52840_flash true
                     {| currentIndex := Z.of_nat MAX_DATA_ENTRIES;
                        data := erased_region |} (of_int 20) 0 0 in
  ok = true /\ currentIndex s' = 15001
  /\ findHighestDataIndex (data s') = 0%nat.
Proof. vm_compute. repeat split. Qed.

End LogStoreClaims.

Module InitCodecFacts.
Import InitCodec.

Lemma fold_add_byte (l : list Z) : forall a,
  0 <= a < 2 ^ 32 -> fold_left add_byte l a = u32 (a + sum_bytes l).
Proof.
  induction l as [|x l IH]; intros a Ha; simpl.
  - unfold u32. rewrite Z.add_0_r, Z.mod_small; auto.
  - rewrite IH by (unfold add_byte, u32; apply Z.mod_pos_bound; lia).
    unfold add_byte, u32. rewrite Zplus_mod_idemp_l. f_equal. lia.
Qed.

Lemma calculatedChecksum_sum (p : list Z) :
  calculatedChecksum p = u32 (sum_bytes (firstn 24 p)).
Proof.
  unfold calculatedChecksum.
  change (sizeof_InitializationData - sizeof_uint32)%nat with 24%nat.
  rewrite fold_add_byte by lia.
  change 0xFFFFFFFF with (Z.ones 32). rewrite Z.land_ones by lia.
  unfold u32. rewrite Z.mod_mod by lia. reflexivity.
Qed.

Lemma sum_app (l1 l2 : list Z) : sum_bytes (l1 ++ l2) = sum_bytes l1 + sum_bytes l2.
Proof.
  induction l1 as [|x l1 IH]; simpl; [reflexivity|].
  unfold sum_bytes in *. simpl. rewrite IH. lia.
Qed.

Lemma sum_cons (y : Z) (l : list Z) : sum_bytes (y :: l) = y + sum_bytes l.
Proof. reflexivity. Qed.

Lemma sum_bytes_bound (l : list Z) :
  Forall (fun b => 0 <= b < 256) l ->
  0 <= sum_bytes l <= 255 * Z.of_nat (List.length l).
Proof.
  induction 1 as [|x l Hx _ IH]; simpl; [lia|].
  unfold sum_bytes in *. simpl. lia.
Qed.

Lemma Forall_firstn' (P : Z -> Prop) (n : nat) (l : list Z) :
  Forall P l -> Forall P (firstn n l).
Proof.
  revert l. induction n as [|n IH]; intros l Hl; [constructor|].
  destruct Hl as [|x l Hx Hl]; simpl; constructor; auto.
Qed.

Lemma split_at (l : list Z) (i : nat) :
  (i < List.length l)%nat -> l = firstn i l ++ nth i l 0 :: skipn (S i) l.
Proof.
  revert i. induction l as [|x l IH]; intros [|i] Hi; simpl in *; try lia.
  - reflexivity.
  - f_equal. apply IH. lia.
Qed.

Lemma stored_checksum_mid (pre post : list Z) (y y' : Z) :
  (List.length pre < 24)%nat ->
  stored_checksum (pre ++ y :: post) = stored_checksum (pre ++ y' :: post).
Proof.
  intros Hl. unfold stored_checksum.
  change (sizeof_InitializationData - sizeof_uint32)%nat with 24%nat.
  rewrite !skipn_app.
  replace (24 - List.length pre)%nat with (S (23 - List.length pre)) by lia.
  reflexivity.
Qed.

Lemma calculatedChecksum_mid (pre post : list Z) (y : Z) :
  (List.length pre < 24)%nat ->
  calculatedChecksum (pre ++ y :: post)
  = u32 (sum_bytes pre + y + sum_bytes (firstn (23 - List.length pre) post)).
Proof.
  intros Hl. rewrite calculatedChecksum_sum, firstn_app.
  rewrite firstn_all2 by lia.
  replace (24 - List.length pre)%nat with (S (23 - List.length pre)) by lia.
  rewrite firstn_cons, sum_app, sum_cons. f_equal. lia.
Qed.

End InitCodecFacts.

Module InitCodecClaims.
Import InitCodec InitCodecFacts.

(** C3.  On every well-formed 28-byte [InitializationData] packet the
    checksum test of [initializeDevice] accepts exactly when the stored
    checksum field equals the sum of the 24 payload bytes (all bytes but the
    trailing checksum field) truncated to 32 bits; and changing any single
    payload byte of an accepted packet to a different byte value makes the
    test reject it. *)
Theorem checksum_accepts_iff_sum_matches :
  (forall p : list Z, packet_wf p ->
     checksum_ok p = true <-> spec_checksum p = stored_checksum p)
  /\ (forall (p : list Z) (i : nat) (b : Z),
        packet_wf p -> checksum_ok p = true ->
        (i < sizeof_InitializationData - sizeof_uint32)%nat ->
        0 <= b < 256 -> b <> nth i p 0 ->
        checksum_ok (set_byte p i b) = false).
Proof.
  split.
  - intros p [Hlen _]. unfold checksum_ok, spec_checksum.
    rewrite calculatedChecksum_sum, Hlen. apply Z.eqb_eq.
  - intros p i b [Hlen Hbytes] Hok Hi Hb Hne.
    change (sizeof_InitializationData - sizeof_uint32)%nat with 24%nat in Hi.
    unfold sizeof_InitializationData in Hlen.
    assert (Hsplit := split_at p i ltac:(lia)).
    set (pre := firstn i p) in *. set (post := skipn (S i) p) in *.
    set (x := nth i p 0) in *.
    assert (Hpre : List.length pre = i) by (apply firstn_length_le; lia).
    rewrite Hsplit in Hbytes. apply Forall_app in Hbytes as [Fpre Fpost].
    apply Forall_cons_iff in Fpost as [Hx Fpost'].
    unfold set_byte. fold pre post.
    unfold checksum_ok in *. rewrite Hsplit in Hok.
    apply Z.eqb_eq in Hok. apply Z.eqb_neq.
    rewrite (stored_checksum_mid pre post b x) by lia.
    rewrite calculatedChecksum_mid in * by lia.
    rewrite <- Hok.
    assert (B1 := sum_bytes_bound pre Fpre).
    assert (B2 := sum_bytes_bound (firstn (23 - List.length pre) post)
                    (Forall_firstn' _ _ _ Fpost')).
    rewrite length_firstn in B2.
    unfold u32. rewrite !Z.mod_small by lia. lia.
Qed.

Lemma checksum_accepts_iff_sum_matches_witness :
  let p := [1; 2; 3; 4; 5; 6; 7; 8; 9; 10; 11; 12; 13; 14; 15; 16;
            17; 18; 19; 20; 21; 22; 23; 24; 44; 1; 0; 0] in
  checksum_ok p = true /\ spec_checksum p = stored_checksum p
  /\ checksum_ok (set_byte p 5%nat 200) = false.
Proof.
  intro p. split; [|split].
  - vm_compute. reflexivity.
  - apply (proj1 checksum_accepts_iff_sum_matches p).
    + split; [reflexivity|]. repeat constructor; lia.
    + vm_compute. reflexivity.
  - apply (proj2 checksum_accepts_iff_sum_matches p 5%nat 200).
    + split; [reflexivity|]. repeat constructor; lia.
    + vm_compute. reflexivity.
    + apply Nat.ltb_lt. reflexivity.
    + lia.
    + vm_compute. discriminate.
Defined.

End InitCodecClaims.

Module DateCodecClaims.
Import DateCodec.

Lemma zrange_In (lo hi x : Z) : lo <= x <= hi -> In x (zrange lo hi).
Proof.
  intros Hx. unfold zrange. apply in_map_iff.
  exists (Z.to_nat (x - lo)). split.
  - rewrite Z2Nat.id; lia.
  - apply in_seq. lia.
Qed.

Lemma encodeDate_year_mod (y m d : Z) : encodeDate (y mod 100) m d = encodeDate y m d.
Proof. unfold encodeDate. rewrite Z.mod_mod by lia. reflexivity. Qed.

(** Exhaustive check over the two-digit years, months and days. *)
Lemma all_dates_roundtrip :
  forallb (fun y => forallb (fun m => forallb (fun d => date_roundtrips y m d)
                                         (zrange 1 31))
                            (zrange 1 12))
          (zrange 0 99) = true.
Proof. vm_compute. reflexivity. Qed.

Lemma all_times_roundtrip :
  forallb (fun h => forallb (fun mi => time_roundtrips h mi) (zrange 0 59))
          (zrange 0 23) = true.
Proof. vm_compute. reflexivity. Qed.

(** C10.  For every [uint16_t] year, month 1..12, day 1..31, hour 0..23 and
    minute 0..59, [decodeDate (encodeDate y m d) = (2000 + y % 100, m, d)]
    and [decodeTime (encodeTime h mi) = (h, mi)]. *)
Theorem date_time_codec_roundtrip (y m d h mi : Z) :
  0 <= y < 2 ^ 16 -> 1 <= m <= 12 -> 1 <= d <= 31 ->
  0 <= h <= 23 -> 0 <= mi <= 59 ->
  decodeDate (encodeDate y m d) = (2000 + y mod 100, m, d)
  /\ decodeTime (encodeTime h mi) = (h, mi).
Proof.
  intros Hy Hm Hd Hh Hmi. split.
  - assert (Hr : date_roundtrips (y mod 100) m d = true).
    { assert (A := all_dates_roundtrip).
      assert (Hy' : 0 <= y mod 100 <= 99).
      { pose proof (Z.mod_pos_bound y 100). lia. }
      rewrite forallb_forall in A.
      specialize (A (y mod 100) (zrange_In 0 99 _ Hy')).
      rewrite forallb_forall in A. specialize (A m (zrange_In 1 12 _ Hm)).
      rewrite forallb_forall in A. exact (A d (zrange_In 1 31 _ Hd)). }
    unfold date_roundtrips in Hr. rewrite encodeDate_year_mod in Hr.
    destruct (decodeDate (encodeDate y m d)) as [[y' m'] d'].
    rewrite !andb_true_iff, !Z.eqb_eq in Hr. destruct Hr as [[-> ->] ->].
    rewrite Z.mod_mod by lia. reflexivity.
  - assert (Hr : time_roundtrips h mi = true).
    { assert (A := all_times_roundtrip).
      rewrite forallb_forall in A. specialize (A h (zrange_In 0 23 _ Hh)).
      rewrite forallb_forall in A. exact (A mi (zrange_In 0 59 _ Hmi)). }
    unfold time_roundtrips in Hr.
    destruct (decodeTime (encodeTime h mi)) as [h' mi'].
    rewrite andb_true_iff, !Z.eqb_eq in Hr. destruct Hr as [-> ->]. reflexivity.
Qed.

Lemma date_time_codec_roundtrip_witness :
  decodeDate (encodeDate 2025 3 14) = (2025, 3, 14)
  /\ decodeTime (encodeTime 9 30) = (9, 30).
Proof.
  apply (date_time_codec_roundtrip 2025 3 14 9 30); lia.
Defined.

End DateCodecClaims.

Module BootClaims.
Import Config Boot.

Lemma of_nat_eqb_0 (n : nat) : (Z.of_nat n =? 0) = Nat.eqb n 0.
Proof. destruct n; reflexivity. Qed.

(** C4.  [part_002]: when the persisted mode is Logging and the flash comes
    up, boot stays in Logging exactly when the [DOG] reset-cause bit is set
    and the planned-reset word equals [0xDEADBEEF]; it then keeps the stored
    config untouched (no re-initialization) and resumes at the recovered
    index.  In every other case it ends in Idle, with Idle persisted.
    [part_000], which has no planned-reset detection, always turns a
    persisted Logging into Idle. *)
Theorem setup_keeps_logging_only_after_planned_reset :
  (forall (flash_init_ok dog_reset : bool) (resetFlag : Z) (page : ConfigData)
          (r : region2),
     mode page = MODE_LOGGING ->
     let b := setup_part002 flash_init_ok dog_reset resetFlag page r in
     (currentMode b = MODE_LOGGING <->
        flash_init_ok = true /\ dog_reset = true /\ resetFlag = RESET_FLAG_VALUE)
     /\ (currentMode b = MODE_LOGGING ->
           b_config b = page /\ b_saved b = None
           /\ b_currentIndex b = findHighestDataIndex2 r)
     /\ (currentMode b <> MODE_LOGGING ->
           currentMode b = MODE_IDLE /\ mode (b_config b) = MODE_IDLE
           /\ b_saved b = Some (b_config b)))
  /\ (forall (flash_init_ok : bool) (page : ConfigData) (r : LogStore.region),
     mode page = MODE_LOGGING ->
     let b := setup_part000 flash_init_ok page r in
     currentMode b = MODE_IDLE /\ mode (b_config b) = MODE_IDLE
     /\ b_saved b = Some (b_config b)).
Proof.
  split.
  - intros init dog flag page r Hm. cbv zeta. unfold setup_part002.
    rewrite Hm.
    destruct init; cbn -[findHighestDataIndex2].
    2: { unfold MODE_IDLE, MODE_LOGGING. intuition discriminate. }
    destruct dog, (Z.eqb_spec flag RESET_FLAG_VALUE); cbn -[findHighestDataIndex2];
      unfold MODE_IDLE, MODE_LOGGING in *; intuition (try congruence; try discriminate).
  - intros init page r Hm. cbv zeta. unfold setup_part000.
    rewrite Hm.
    destruct init; cbn -[LogStore.findHighestDataIndex]; auto.
Qed.

Lemma setup_keeps_logging_only_after_planned_reset_witness :
  currentMode (setup_part002 true true RESET_FLAG_VALUE logging_page erased_region2)
    = MODE_LOGGING
  /\ currentMode (setup_part002 true false RESET_FLAG_VALUE logging_page erased_region2)
    = MODE_IDLE
  /\ currentMode (setup_part000 true logging_page LogStore.erased_region) = MODE_IDLE.
Proof.
  destruct setup_keeps_logging_only_after_planned_reset as [A B].
  split; [| split].
  - apply (A true true RESET_FLAG_VALUE logging_page erased_region2); [reflexivity |].
    auto.
  - apply (A true false RESET_FLAG_VALUE logging_page erased_region2 eq_refl).
    intros H. apply (A true false RESET_FLAG_VALUE logging_page erased_region2 eq_refl)
      in H as [_ [Hd _]]. discriminate.
  - apply (B true logging_page LogStore.erased_region eq_refl).
Defined.

(** C5 (counterexample).  In [part_000] the power-on default config
    (initial epoch 0, label ["DEFAULT_ID"], mode Idle) on a device whose data
    region is erased boots into Logging, although it is not populated; so does
    [part_002]. *)
Lemma unpopulated_config_boots_into_logging :
  initialTimestamp default_config = 0
  /\ cstr (personalId default_config) = bytes_of "DEFAULT_ID"
  /\ mode default_config = MODE_IDLE
  /\ currentMode (setup_part000 true default_config LogStore.erased_region)
       = MODE_LOGGING
  /\ currentMode (setup_part002 true false 0 default_config2 erased_region2)
       = MODE_LOGGING.
Proof. vm_compute. repeat split. Qed.

(** C5 (amended).  With persisted mode Idle, [part_000] and [part_002] switch
    to Logging exactly when the recovered index is 0, whatever the stored
    timestamp and label; [collect_temperature_new] (which ignores the stored
    mode) boots into Logging exactly when the flash comes up, the config read
    succeeds, the magic number matches, the initial epoch is non-zero, the
    label is non-empty and differs from ["DEFAULT_ID"], and the stored entry
    count is 0; in every other case it boots into Idle. *)
Theorem boot_idle_to_logging :
  (forall (page : ConfigData) (r : LogStore.region),
     mode page = MODE_IDLE ->
     currentMode (setup_part000 true page r)
       = if Nat.eqb (LogStore.findHighestDataIndex r) 0
         then MODE_LOGGING else MODE_IDLE)
  /\ (forall (dog_reset : bool) (resetFlag : Z) (page : ConfigData) (r : region2),
     mode page = MODE_IDLE ->
     currentMode (setup_part002 true dog_reset resetFlag page r)
       = if findHighestDataIndex2 r =? 0 then MODE_LOGGING else MODE_IDLE)
  /\ (forall (flash_init_ok read_ok : bool) (config : ConfigDataNew),
     0 <= n_currentDataIndex config ->
     (setup_new flash_init_ok read_ok config = MODE_LOGGING <->
        flash_init_ok = true /\ read_ok = true
        /\ n_magicNumber config = MAGIC
        /\ n_initialTimestamp config <> 0
        /\ (0 < strlen (n_personalId config))%nat
        /\ cstr (n_personalId config) <> bytes_of "DEFAULT_ID"
        /\ n_currentDataIndex config = 0)
     /\ (setup_new flash_init_ok read_ok config <> MODE_LOGGING ->
         setup_new flash_init_ok read_ok config = MODE_IDLE)).
Proof.
  split; [| split].
  - intros page r Hm. unfold setup_part000. rewrite Hm, of_nat_eqb_0.
    cbn -[LogStore.findHighestDataIndex].
    destruct (Nat.eqb (LogStore.findHighestDataIndex r) 0); reflexivity.
  - intros dog flag page r Hm. unfold setup_part002. rewrite Hm.
    cbn -[findHighestDataIndex2].
    destruct (findHighestDataIndex2 r =? 0); reflexivity.
  - intros init rd config Hidx. unfold setup_new, strcmp_ne.
    destruct init, rd; cbn [negb andb];
      [| unfold MODE_IDLE, MODE_LOGGING; intuition discriminate ..].
    destruct (Z.eqb_spec (n_magicNumber config) MAGIC),
             (Z.eqb_spec (n_initialTimestamp config) 0),
             (Nat.ltb_spec 0 (strlen (n_personalId config))),
             (list_eq_dec Z.eq_dec (cstr (n_personalId config)) (bytes_of "DEFAULT_ID")),
             (Z.ltb_spec 0 (n_currentDataIndex config));
      cbn [negb andb]; unfold MODE_IDLE, MODE_LOGGING;
      intuition (try lia; try congruence).
Qed.

Lemma boot_idle_to_logging_witness :
  currentMode (setup_part000 true populated_page LogStore.erased_region)
    = (if Nat.eqb (LogStore.findHighestDataIndex LogStore.erased_region) 0
       then MODE_LOGGING else MODE_IDLE)
  /\ currentMode (setup_part002 true true RESET_FLAG_VALUE populated_page erased_region2)
    = (if findHighestDataIndex2 erased_region2 =? 0 then MODE_LOGGING else MODE_IDLE)
  /\ setup_new true true populated_new = MODE_LOGGING.
Proof.
  destruct boot_idle_to_logging as [A [B C]].
  split; [| split].
  - apply A. reflexivity.
  - apply B. reflexivity.
  - apply (C true true populated_new ltac:(vm_compute; discriminate)).
    vm_compute. repeat split; try discriminate; try reflexivity.
    apply Nat.ltb_lt. reflexivity.
Defined.




End BootClaims.

Module InitCommandFacts.
Import Config InitCommand.

Lemma all_by_spec (n : nat) (input : serial_input) :
  all_by n input = true <->
  (n <= List.length input)%nat /\ Forall (fun p => fst p <= 5000) (firstn n input).
Proof.
  unfold all_by. rewrite andb_true_iff, Nat.leb_le, forallb_forall, Forall_forall.
  split; intros [A B]; split; auto; intros x Hx; specialize (B x Hx);
    [apply Z.leb_le | apply Z.leb_le in B]; exact B.
Qed.

Lemma read_loop_unfold (ticks : nat) (now : Z) (need : nat)
    (input : serial_input) (packed : list Z) :
  read_loop ticks now need input packed =
  match need with
  | O => Received (rev packed)
  | S need' =>
      if now >? 5000 then TimedOut
      else
        match input with
        | (t, b) :: input' =>
            if t <=? now then read_loop ticks now need' input' (b :: packed)
            else match ticks with
                 | O => TimedOut
                 | S ticks' => read_loop ticks' (now + 10) need input packed
                 end
        | [] =>
            match ticks with
            | O => TimedOut
            | S ticks' => read_loop ticks' (now + 10) need input packed
            end
        end
  end.
Proof. destruct ticks, need; reflexivity. Qed.

Lemma read_loop_late (need : nat) (input : serial_input) (packed : list Z) :
  read_loop 0 5010 (S need) input packed = TimedOut.
Proof. rewrite read_loop_unfold. reflexivity. Qed.

(** With [k + 1] delays left (so [now = 5000 - 10 k]), the loop receives
    the next [need] bytes exactly when they have all arrived by 5000 ms. *)
Lemma read_loop_spec (k : nat) : forall need input packed,
  read_loop (S k) (5000 - 10 * Z.of_nat k) need input packed =
  if all_by need input
  then Received (rev packed ++ map snd (firstn need input))
  else TimedOut.
Proof.
  induction k as [| k IHk]; intros need;
    induction need as [| n IHn]; intros input packed;
    rewrite read_loop_unfold;
    try (cbn; rewrite app_nil_r; reflexivity).
  - replace (5000 - 10 * Z.of_nat 0 >? 5000) with false by reflexivity.
    destruct input as [| [t b] input'].
    + cbn -[read_loop]. apply read_loop_late.
    + destruct (Z.leb_spec t (5000 - 10 * Z.of_nat 0)) as [Ht | Ht].
      * rewrite IHn. unfold all_by. cbn [List.length firstn forallb fst map].
        replace (t <=? 5000) with true by (symmetry; apply Z.leb_le; lia).
        cbn [andb Nat.leb]. destruct (_ && _); [| reflexivity].
        cbn [rev]. rewrite <- app_assoc. reflexivity.
      * replace (5000 - 10 * Z.of_nat 0 + 10) with 5010 by reflexivity.
        rewrite read_loop_late. unfold all_by. cbn [firstn forallb fst].
        replace (t <=? 5000) with false by (symmetry; apply Z.leb_gt; lia).
        rewrite andb_false_r. reflexivity.
  - replace (5000 - 10 * Z.of_nat (S k) >? 5000) with false
      by (symmetry; rewrite Z.gtb_ltb; apply Z.ltb_ge; lia).
    replace (5000 - 10 * Z.of_nat (S k) + 10) with (5000 - 10 * Z.of_nat k) by lia.
    destruct input as [| [t b] input'].
    + apply IHk.
    + destruct (Z.leb_spec t (5000 - 10 * Z.of_nat (S k))) as [Ht | Ht].
      * rewrite IHn. unfold all_by. cbn [List.length firstn forallb fst map].
        replace (t <=? 5000) with true by (symmetry; apply Z.leb_le; lia).
        cbn [andb Nat.leb]. destruct (_ && _); [| reflexivity].
        cbn [rev]. rewrite <- app_assoc. reflexivity.
      * apply IHk.
Qed.

Lemma read_packet_spec (input : serial_input) :
  read_packet input =
  if all_by dataSize input then Received (map snd (firstn dataSize input))
  else TimedOut.
Proof.
  unfold read_packet. apply (read_loop_spec 500).
Qed.

Lemma processSerialCommand_i_timedout (env : init_env) (input : serial_input)
    (dv : device) :
  read_packet input = TimedOut ->
  processSerialCommand_i env input dv
    = (["READY_FOR_INIT"; "TIMEOUT"]%string, Running, dv).
Proof. intros E. unfold processSerialCommand_i. rewrite E. reflexivity. Qed.

Lemma processSerialCommand_i_received (env : init_env) (input : serial_input)
    (dv : device) (packedData : list Z) :
  read_packet input = Received packedData ->
  processSerialCommand_i env input dv =
    (let '(msgs, ok, dv') := initializeDevice env packedData dv in
     if ok then ("READY_FOR_INIT"%string :: msgs ++ ["INITIALIZED"%string],
                 SystemOff, dv')
     else ("READY_FOR_INIT"%string :: msgs ++ ["INIT_FAILED"%string],
           Running, dv')).
Proof. intros E. unfold processSerialCommand_i. rewrite E. reflexivity. Qed.

End InitCommandFacts.

Module InitCommandClaims.
Import Config InitCommand InitCommandFacts.

(** C9.  The ['i'] handler first prints [READY_FOR_INIT]; it receives
    exactly the first [sizeof(InitializationData)] bytes, and it times out
    exactly when they have not all arrived within 5000 ms, in which case it
    prints [TIMEOUT] and leaves the device untouched.  A checksum mismatch
    prints [CHECKSUM_ERROR] then [INIT_FAILED] and leaves the device
    untouched.  It powers the device off after [INITIALIZED] exactly when
    the checksum matches, every data-page erase succeeds and [saveConfig]
    succeeds; otherwise the last line is [TIMEOUT] or [INIT_FAILED] and
    [currentMode] is unchanged, the last line being [INIT_FAILED] whenever
    the packet was received (a checksum mismatch, a failed erase or a failed
    [saveConfig]). *)
Theorem init_command_behaviour (env : init_env) (input : serial_input)
    (dv : device) (out : list string) (pw : power) (dv' : device) :
  processSerialCommand_i env input dv = (out, pw, dv') ->
  (exists rest, out = "READY_FOR_INIT"%string :: rest)
  /\ (read_packet input = TimedOut <->
        ~ ((dataSize <= List.length input)%nat
           /\ Forall (fun p => fst p <= 5000) (firstn dataSize input)))
  /\ (forall packed, read_packet input = Received packed ->
        packed = map snd (firstn dataSize input)
        /\ List.length packed = dataSize)
  /\ (read_packet input = TimedOut ->
        out = ["READY_FOR_INIT"; "TIMEOUT"]%string /\ pw = Running /\ dv' = dv)
  /\ (forall packed, read_packet input = Received packed ->
        InitCodec.checksum_ok packed = false ->
        out = ["READY_FOR_INIT"; "CHECKSUM_ERROR"; "INIT_FAILED"]%string
        /\ pw = Running /\ dv' = dv)
  /\ (pw = SystemOff <->
        exists packed, read_packet input = Received packed
          /\ InitCodec.checksum_ok packed = true
          /\ snd (erase_all env) = None
          /\ fst (saveConfig (config_driver env) (init_config packed)) = true)
  /\ (pw = SystemOff -> out = ["READY_FOR_INIT"; "INITIALIZED"]%string)
  /\ (pw = Running ->
        d_currentMode dv' = d_currentMode dv
        /\ (last out EmptyString = "TIMEOUT"%string
            \/ last out EmptyString = "INIT_FAILED"%string))
  /\ (forall packed, read_packet input = Received packed -> pw = Running ->
        last out EmptyString = "INIT_FAILED"%string).
Proof.
  intros H.
  destruct (all_by dataSize input) eqn:Hall.
  - assert (Hrp : read_packet input = Received (map snd (firstn dataSize input)))
      by (rewrite read_packet_spec, Hall; reflexivity).
    rewrite (processSerialCommand_i_received env input dv _ Hrp) in H.
    rewrite Hrp.
    apply all_by_spec in Hall as [Hlen Hfor].
    remember (map snd (firstn dataSize input)) as packed0 eqn:Hp.
    assert (Hrecv : forall packed,
               Received packed0 = Received packed ->
               packed = packed0 /\ List.length packed = dataSize).
    { intros packed E.
      assert (Ep : packed = packed0) by congruence.
      subst packed packed0. split; [reflexivity |].
      rewrite length_map, length_firstn. lia. }
    clear Hp.
    unfold initializeDevice in H.
    destruct (InitCodec.checksum_ok packed0) eqn:Hc; cbn [negb] in H.
    + destruct (erase_all env) as [erased [addr |]] eqn:He.
      * injection H as <- <- <-.
        split; [eexists; reflexivity |].
        split; [split; [discriminate | tauto] |].
        split; [exact Hrecv |].
        split; [discriminate |].
        split; [intros packed E Hc2;
                  assert (packed = packed0) by congruence; subst; congruence |].
        split.
        { split; [discriminate |].
          intros (packed & E & _ & Hn & _). discriminate Hn. }
        split; [discriminate |].
        split; [intros _; split; [reflexivity | right; reflexivity] | intros; reflexivity].
      * destruct (saveConfig (config_driver env) (init_config packed0))
          as [ok page] eqn:Hs.
        destruct ok; injection H as <- <- <-.
        -- split; [eexists; reflexivity |].
           split; [split; [discriminate | tauto] |].
           split; [exact Hrecv |].
           split; [discriminate |].
           split; [intros packed E Hc2;
                  assert (packed = packed0) by congruence; subst; congruence |].
           split.
           { split; [intros _ | reflexivity].
             exists packed0.
             rewrite Hs. repeat split; assumption. }
           split; [reflexivity |]. split; [discriminate | intros ? ? E; discriminate E].
        -- split; [eexists; reflexivity |].
           split; [split; [discriminate | tauto] |].
           split; [exact Hrecv |].
           split; [discriminate |].
           split; [intros packed E Hc2;
                  assert (packed = packed0) by congruence; subst; congruence |].
           split.
           { split; [discriminate |].
             intros (packed & E & _ & _ & Hok).
             assert (packed = packed0) by congruence.
             subst packed. rewrite Hs in Hok. discriminate. }
           split; [discriminate |].
           split; [intros _; split; [reflexivity | right; reflexivity] | intros; reflexivity].
    + injection H as <- <- <-.
      split; [eexists; reflexivity |].
      split; [split; [discriminate | tauto] |].
      split; [exact Hrecv |].
      split; [discriminate |].
      split; [intros packed E _; assert (packed = packed0) by congruence; subst packed; auto |].
      split.
      { split; [discriminate |].
        intros (packed & E & Hc' & _).
        assert (packed = packed0) by congruence.
        subst packed. congruence. }
      split; [discriminate |].
      split; [intros _; split; [reflexivity | right; reflexivity] | intros; reflexivity].
  - assert (Hrp : read_packet input = TimedOut)
      by (rewrite read_packet_spec, Hall; reflexivity).
    rewrite (processSerialCommand_i_timedout env input dv Hrp) in H.
    rewrite Hrp.
    injection H as <- <- <-.
    split; [eexists; reflexivity |].
    split.
    { split; [intros _ [A B] | reflexivity].
      assert (T : all_by dataSize input = true) by (apply all_by_spec; auto).
      congruence. }
    split; [discriminate |].
    split; [auto |].
    split; [discriminate |].
    split.
    { split; [discriminate |]. intros (packed & E & _). discriminate. }
    split; [discriminate |].
    split; [intros _; split; [reflexivity | left; reflexivity] | intros packed E; discriminate E].
Qed.

Lemma init_command_behaviour_witness :
  fst (fst (processSerialCommand_i env_ok (on_time packet1) device0))
    = ["READY_FOR_INIT"; "INITIALIZED"]%string
  /\ fst (fst (processSerialCommand_i env_ok
                 (on_time (firstn 27 packet1) ++ [(6000, 0)]) device0))
    = ["READY_FOR_INIT"; "TIMEOUT"]%string.
Proof.
  split.
  - destruct (processSerialCommand_i env_ok (on_time packet1) device0)
      as [[out pw] dv'] eqn:E.
    destruct (init_command_behaviour env_ok (on_time packet1) device0
                out pw dv' E) as (_ & _ & _ & _ & _ & [_ Hoff] & Hinit & _).
    apply Hinit, Hoff.
    exists packet1. split; [vm_compute; reflexivity |].
    split; [vm_compute; reflexivity |].
    split; vm_compute; reflexivity.
  - destruct (processSerialCommand_i env_ok
                (on_time (firstn 27 packet1) ++ [(6000, 0)]) device0)
      as [[out pw] dv'] eqn:E.
    destruct (init_command_behaviour env_ok
                (on_time (firstn 27 packet1) ++ [(6000, 0)]) device0
                out pw dv' E) as (_ & [_ Hto] & _ & Ht & _).
    apply Ht, Hto. intros [_ F].
    apply Forall_forall with (x := (6000, 0)) in F; [cbn in F; lia |].
    vm_compute. right. do 26 right. left. reflexivity.
Defined.

End InitCommandClaims.

Module SchedulerClaims.
Import Scheduler.

Lemma u32_small (z : Z) : 0 <= z < 2 ^ 32 -> u32 z = z.
Proof. intros H. unfold u32. apply Z.mod_small. exact H. Qed.

(** C7 (counterexample).  With a 1 s interval, an iteration whose work
    takes 2 s is followed at once by a second iteration (no sleep at all),
    so consecutive iterations start 2000 ms and then 0 ms apart. *)
Lemma overrun_breaks_fixed_interval :
  iteration_starts 1 [2000; 0; 0] (first_iteration 1) = [1; 2001; 2001; 3001].
Proof. vm_compute. reflexivity. Qed.

Lemma logging_iteration_no_wrap (I w : Z) (st : sched) :
  0 <= I -> 0 <= w -> 0 <= clock st -> 0 <= wake_base st ->
  wake_base st + I * 1000 < 2 ^ 32 -> clock st + w < 2 ^ 32 ->
  nextWakeTime (logging_iteration I w st) = wake_base st + I * 1000
  /\ clock (logging_iteration I w st)
       = Z.max (wake_base st + I * 1000) (clock st + w).
Proof.
  intros HI Hw Hc Hb Hn Hcw. unfold logging_iteration. cbn [nextWakeTime clock].
  rewrite (u32_small (I * 1000)) by lia.
  rewrite (u32_small (wake_base st + I * 1000)) by lia.
  rewrite (u32_small (clock st + w)) by lia.
  split; [reflexivity |].
  destruct (Z.ltb_spec (clock st + w) (wake_base st + I * 1000)).
  - rewrite (u32_small (wake_base st + I * 1000 - (clock st + w))) by lia.
    rewrite u32_small by lia. lia.
  - rewrite Z.add_0_r, u32_small by lia. lia.
Qed.

(** C7 (amended).  Each logging iteration advances the absolute
    [nextWakeTime] by the interval and starts the next iteration at the
    later of that point and the end of its own work (it never sleeps when
    the work overran).  Hence, as long as every iteration's work fits in the
    interval and [millis()] does not wrap, the [k]-th iteration starts
    exactly [k] intervals after the first. *)
Theorem logging_schedule_absolute :
  (forall (wakeupInterval work : Z) (st : sched),
     0 <= wakeupInterval -> 0 <= work -> 0 <= clock st -> 0 <= wake_base st ->
     wake_base st + wakeupInterval * 1000 < 2 ^ 32 ->
     clock st + work < 2 ^ 32 ->
     nextWakeTime (logging_iteration wakeupInterval work st)
       = wake_base st + wakeupInterval * 1000
     /\ clock (logging_iteration wakeupInterval work st)
       = Z.max (wake_base st + wakeupInterval * 1000) (clock st + work))
  /\ (forall (wakeupInterval start : Z) (works : list Z) (k : nat),
     0 < wakeupInterval -> 0 <= start ->
     Forall (fun w => 0 <= w <= wakeupInterval * 1000) works ->
     start + Z.of_nat (List.length works) * (wakeupInterval * 1000) < 2 ^ 32 ->
     (k <= List.length works)%nat ->
     nth k (iteration_starts wakeupInterval works (first_iteration start)) 0
       = start + Z.of_nat k * (wakeupInterval * 1000)).
Proof.
  split.
  - intros I w st. apply logging_iteration_no_wrap.
  - intros I start works k HI Hs Hw Hnw Hk.
    assert (Hb : wake_base (first_iteration start) = start).
    { unfold wake_base. cbn. destruct (Z.eqb_spec 0 0); [reflexivity | lia]. }
    assert (Hc : clock (first_iteration start) = start) by reflexivity.
    revert Hb Hc Hs Hnw Hk.
    generalize (first_iteration start) as st.
    generalize start as t. revert k.
    induction works as [| w ws IH]; intros k t st Hb Hc Hs Hnw Hk.
    + cbn in Hk. assert (k = 0%nat) by lia. subst k. cbn. lia.
    + apply Forall_cons_iff in Hw as [[Hw0 HwI] Hws].
      cbn [List.length] in Hnw, Hk. rewrite Nat2Z.inj_succ in Hnw.
      destruct k as [| k].
      * cbn. lia.
      * cbn [iteration_starts nth].
        destruct (logging_iteration_no_wrap I w st) as [Hn' Hc'];
          [lia | lia | lia | lia | lia | lia |].
        rewrite IH with (t := t + I * 1000); [lia | exact Hws | | | lia | lia | lia].
        -- unfold wake_base. rewrite Hn'.
           destruct (Z.eqb_spec (wake_base st + I * 1000) 0); lia.
        -- rewrite Hc'. lia.
Qed.

Lemma logging_schedule_absolute_witness :
  clock (logging_iteration 1 300 (first_iteration 5))
    = Z.max (wake_base (first_iteration 5) + 1 * 1000)
            (clock (first_iteration 5) + 300)
  /\ nth 3 (iteration_starts 60 [120; 5000; 60000; 0] (first_iteration 5)) 0
       = 5 + Z.of_nat 3 * (60 * 1000).
Proof.
  destruct logging_schedule_absolute as [A B].
  split.
  - apply (A 1 300 (first_iteration 5)); vm_compute; congruence.
  - apply (B 60 5 [120; 5000; 60000; 0] 3%nat).
    + lia.
    + lia.
    + repeat constructor; lia.
    + cbn [List.length]. lia.
    + cbn [List.length]. lia.
Defined.

End SchedulerClaims.

Module ReadoutFacts.
Import F32 LogStore Config Readout LogStoreFacts.

Lemma findHighestDataIndex_eq (r : region) :
  findHighestDataIndex r = scan_from r 0 MAX_DATA_ENTRIES 0.
Proof. reflexivity. Qed.

(** Every slot below the scan result was read successfully. *)
Lemma scan_from_readable (r : region) (fuel : nat) : forall i h,
  (forall j, (j < i)%nat -> r j <> None) -> (h <= i)%nat ->
  forall j, (j < scan_from r i fuel h)%nat -> r j <> None.
Proof.
  induction fuel as [|fuel IH]; intros i h Hr Hh j Hj; simpl in Hj.
  - apply Hr. lia.
  - destruct (r i) as [d|] eqn:E.
    + eapply IH; [| |exact Hj].
      * intros k Hk. destruct (Nat.eq_dec k i) as [->|Hne].
        -- rewrite E. discriminate.
        -- apply Hr. lia.
      * destruct (plausible (temperature d)); lia.
    + apply Hr. lia.
Qed.

(** The scan moves away from its start value exactly when it meets a
    plausible slot before its first failed read. *)
Lemma scan_from_moves (r : region) (fuel : nat) : forall i h,
  (h <= i)%nat ->
  scan_from r i fuel h <> h <->
  exists j, (i <= j < i + fuel)%nat
    /\ (forall k, (i <= k <= j)%nat -> r k <> None)
    /\ slot_plausible r j = true.
Proof.
  induction fuel as [|fuel IH]; intros i h Hh; simpl.
  - split; [intro H; congruence|]. intros [j [Hj _]]. lia.
  - destruct (r i) as [d|] eqn:E.
    + destruct (plausible (temperature d)) eqn:Ep.
      * split; intros _.
        -- exists i. split; [lia|]. split.
           ++ intros k Hk. replace k with i by lia. rewrite E. discriminate.
           ++ unfold slot_plausible. rewrite E. exact Ep.
        -- assert (Hge : forall fuel' i' h', (h' <= i')%nat ->
                     (h' <= scan_from r i' fuel' h')%nat).
           { clear. induction fuel' as [|f IHf]; intros i' h' H; simpl; [lia|].
             destruct (r i'); [|lia].
             destruct (plausible (temperature t)).
             - specialize (IHf (S i') (S i') (le_n _)). lia.
             - apply IHf. lia. }
           specialize (Hge fuel (S i) (S i) (le_n _)). lia.
      * rewrite (IH (S i) h ltac:(lia)). split.
        -- intros [j [Hj [Hr Hp]]]. exists j. split; [lia|]. split; [|exact Hp].
           intros k Hk. destruct (Nat.eq_dec k i) as [->|Hne].
           ++ rewrite E. discriminate.
           ++ apply Hr. lia.
        -- intros [j [Hj [Hr Hp]]].
           destruct (Nat.eq_dec j i) as [->|Hne].
           ++ unfold slot_plausible in Hp. rewrite E, Ep in Hp. discriminate.
           ++ exists j. split; [lia|]. split; [|exact Hp].
              intros k Hk. apply Hr. lia.
    + split; [intro H; congruence|]. intros [j [Hj [Hr _]]].
      exfalso. apply (Hr i); [lia|exact E].
Qed.

(** [append_all] writes the [j]-th sample to slot [k + j]. *)
Lemma append_all_nth (g : flash_geometry) (xs : list sample) (x0 : sample) :
  forall k s,
  flash_start g <= DATA_START_ADDRESS ->
  DATA_START_ADDRESS + Z.of_nat (k + List.length xs) * sizeof_TemperatureData
    <= flash_start g + flash_size g ->
  flash_start g + flash_size g < 2 ^ 32 ->
  currentIndex s = Z.of_nat k ->
  exists s', append_all g s xs = (true, s')
    /\ currentIndex s' = Z.of_nat (k + List.length xs)
    /\ (forall j, (j < k \/ k + List.length xs <= j)%nat -> data s' j = data s j)
    /\ (forall j, (j < List.length xs)%nat ->
          data s' (k + j)%nat = Some (stored (nth j xs x0))).
Proof.
  induction xs as [|x xs IH]; intros k s H1 H2 H3 Hk; cbn [List.length append_all] in *.
  - exists s. rewrite Nat.add_0_r. repeat split; auto.
    intros j Hj. lia.
  - unfold sizeof_TemperatureData, DATA_START_ADDRESS in *.
    rewrite (save_step g s k) by (unfold sizeof_TemperatureData, DATA_START_ADDRESS; lia).
    set (s1 := {| currentIndex := Z.of_nat k + 1; data := _ |}).
    destruct (IH (S k) s1) as [s' [Ha [Hi [Hout Hin]]]];
      unfold sizeof_TemperatureData, DATA_START_ADDRESS; try lia.
    { simpl. lia. }
    exists s'. split; [exact Ha|]. split; [rewrite Hi; f_equal; lia|]. split.
    + intros j Hj. rewrite Hout by lia. simpl. unfold program_slot.
      destruct (Nat.eqb_spec j k); [lia|reflexivity].
    + intros j Hj. destruct j as [|j].
      * rewrite Nat.add_0_r. rewrite Hout by lia. simpl. unfold program_slot.
        rewrite Nat.eqb_refl. reflexivity.
      * replace (k + S j)%nat with (S k + j)%nat by lia.
        rewrite Hin by lia. reflexivity.
Qed.

Lemma map_seq_nth {A B : Type} (f : nat -> B) (g : A -> B) (d : A) (xs : list A) :
  forall k, (forall j, (j < List.length xs)%nat -> f (k + j)%nat = g (nth j xs d)) ->
  map f (seq k (List.length xs)) = map g xs.
Proof.
  induction xs as [|x xs IH]; intros k H; simpl; [reflexivity|].
  f_equal.
  - specialize (H 0%nat ltac:(simpl; lia)). rewrite Nat.add_0_r in H. exact H.
  - apply IH. intros j Hj. replace (S k + j)%nat with (k + S j)%nat by lia.
    apply (H (S j)). simpl. lia.
Qed.

End ReadoutFacts.

Module ReadoutProps.
Import F32 LogStore Config Readout LogStoreFacts ReadoutFacts.

(** [sendReadableData] never prints an [ERROR,i] line: the slots it reads
    are those below [findHighestDataIndex], which stops at the first failed
    read.  It prints the four header lines, one row per slot below
    [findHighestDataIndex], and [END_DATA]. *)
Theorem sendReadableData_no_error_rows (config : ConfigData) (r : region) :
  (forall i, ~ In (ErrorRow i) (sendReadableData config r))
  /\ List.length (sendReadableData config r) = (findHighestDataIndex r + 5)%nat.
Proof.
  split.
  - intros i Hin. unfold sendReadableData in Hin.
    apply in_app_or in Hin as [Hin|Hin]; [simpl in Hin; intuition discriminate|].
    apply in_app_or in Hin as [Hin|Hin]; [|simpl in Hin; intuition discriminate].
    apply in_map_iff in Hin as [j [Hj Hs]]. apply in_seq in Hs.
    unfold data_row in Hj.
    destruct (r j) eqn:E; [discriminate|].
    destruct Hs as [_ Hs]. rewrite Nat.add_0_l, findHighestDataIndex_eq in Hs.
    revert E. exact (scan_from_readable r MAX_DATA_ENTRIES 0 0 ltac:(intros; lia) (le_n 0) j Hs).
  - unfold sendReadableData. rewrite !length_app, length_map, length_seq.
    simpl. lia.
Qed.

(** After [initializeDevice] has erased the data region, a run of appends of
    plausible readings ([N] of them, within capacity and within the flash)
    followed by the ['r'] command prints the metadata, then exactly one row
    per reading in the order written, with timestamp
    [initialTimestamp + elapsedSeconds] (modulo 2^32), temperature and
    proximity value, then [END_DATA]. *)
Theorem readout_after_logging (g : flash_geometry) (xs : list sample)
    (config : ConfigData) :
  flash_start g <= DATA_START_ADDRESS ->
  DATA_START_ADDRESS + Z.of_nat MAX_DATA_ENTRIES * sizeof_TemperatureData
    <= flash_start g + flash_size g ->
  flash_start g + flash_size g < 2 ^ 32 ->
  (List.length xs <= MAX_DATA_ENTRIES)%nat ->
  all_plausible xs ->
  exists s', append_all g fresh_store xs = (true, s')
    /\ processSerialCommand_other 114 config (data s') =
       [MetaTimestamp (initialTimestamp config);
        MetaInterval (wakeupInterval config);
        MetaId (cstr (personalId config));
        Text "Timestamp,Temperature,ProximityVal"]
       ++ map (sample_row config) xs ++ [Text "END_DATA"].
Proof.
  intros H1 H2 H3 Hlen Hpl.
  destruct xs as [|x0 xs0] eqn:Exs.
  { exists fresh_store. split; [reflexivity|]. vm_compute. reflexivity. }
  rewrite <- Exs in *.
  destruct (append_all_nth g xs x0 0 fresh_store H1) as [s' [Ha [Hi [Hout Hin]]]];
    [unfold sizeof_TemperatureData in *; lia | exact H3 | reflexivity |].
  exists s'. split; [exact Ha|].
  cbn [Nat.add] in Hin.
  assert (Hf : findHighestDataIndex (data s') = List.length xs).
  { apply LogStoreClaims.find_prefix; [exact Hlen| |].
    - intros j Hj. destruct (Nat.lt_ge_cases j (List.length xs)) as [Hl|Hl].
      + rewrite (Hin j Hl). discriminate.
      + rewrite Hout by lia. discriminate.
    - intros j Hj. unfold slot_plausible.
      destruct (Nat.lt_ge_cases j (List.length xs)) as [Hl|Hl].
      + rewrite (Hin j Hl). simpl.
        rewrite (proj2 (Nat.ltb_lt _ _) Hl).
        unfold all_plausible in Hpl. rewrite Forall_forall in Hpl.
        apply Hpl. apply nth_In. exact Hl.
      + rewrite Hout by lia. rewrite (proj2 (Nat.ltb_ge _ _) Hl). reflexivity. }
  unfold processSerialCommand_other. simpl (114 =? 63). simpl (114 =? 33).
  simpl (114 =? 114). cbv iota.
  unfold sendReadableData. rewrite Hf. f_equal. f_equal.
  apply (map_seq_nth _ _ x0). intros j Hj. simpl.
  unfold data_row. rewrite (Hin j Hj). reflexivity.
Qed.

Lemma readout_after_logging_witness :
  exists s', append_all nrf52840_flash fresh_store [mk_sample 20; mk_sample 21] = (true, s')
    /\ processSerialCommand_other 114 Boot.logging_page (data s') =
       [MetaTimestamp 1700000000; MetaInterval 60;
        MetaId (cstr (char16 "P01"));
        Text "Timestamp,Temperature,ProximityVal";
        sample_row Boot.logging_page (mk_sample 20);
        sample_row Boot.logging_page (mk_sample 21);
        Text "END_DATA"].
Proof.
  apply (readout_after_logging nrf52840_flash [mk_sample 20; mk_sample 21] Boot.logging_page).
  - vm_compute. discriminate.
  - vm_compute. discriminate.
  - vm_compute. reflexivity.
  - apply Nat.leb_le. vm_compute. reflexivity.
  - unfold all_plausible. repeat constructor.
Defined.

(** The ['!'] command answers [HAS_DATA] exactly when some slot before the
    first failed read (and below capacity) holds a plausible reading, and
    [NEED_CONFIGURATION] otherwise. *)
Theorem status_has_data_iff (config : ConfigData) (r : region) :
  processSerialCommand_other 33 config r = [Text "HAS_DATA"]
  <-> exists j, (j < MAX_DATA_ENTRIES)%nat
        /\ (forall k, (k <= j)%nat -> r k <> None)
        /\ slot_plausible r j = true.
Proof.
  unfold processSerialCommand_other. simpl (33 =? 63). simpl (33 =? 33). cbv iota.
  rewrite findHighestDataIndex_eq.
  pose proof (scan_from_moves r MAX_DATA_ENTRIES 0 0 (le_n 0)) as H.
  destruct (Nat.ltb_spec 0 (scan_from r 0 MAX_DATA_ENTRIES 0)) as [Hl|Hl].
  - split; [intros _|reflexivity].
    destruct (proj1 H ltac:(lia)) as [j [Hj [Hr Hp]]].
    exists j. split; [lia|]. split; [|exact Hp]. intros k Hk. apply Hr. lia.
  - split; [intro E; inversion E|].
    intros [j [Hj [Hr Hp]]]. exfalso.
    assert (Hz : scan_from r 0 MAX_DATA_ENTRIES 0 = 0%nat) by lia.
    apply (proj2 H); [|exact Hz].
    exists j. split; [lia|]. split; [|exact Hp]. intros k Hk. apply Hr. lia.
Qed.

End ReadoutProps.

Module Log002Facts.
Import F32 LogStore Config Boot Readout Log002 ReadoutFacts.

(** Loop invariant of the [part_002] scan: the running value is the larger
    of its start and one past every plausible index seen. *)
Lemma scan2_from_max (r : region2) (fuel : nat) : forall i h,
  (forall j, (i <= j < i + fuel)%nat -> r j <> None) ->
  indices_ok r i (i + fuel) -> 0 <= h ->
  h <= scan2_from r i fuel h
  /\ (forall j d, (i <= j < i + fuel)%nat -> r j = Some d ->
        plausible (temperature2 d) = true -> index d + 1 <= scan2_from r i fuel h)
  /\ (scan2_from r i fuel h = h
      \/ exists j d, (i <= j < i + fuel)%nat /\ r j = Some d
         /\ plausible (temperature2 d) = true
         /\ index d + 1 = scan2_from r i fuel h).
Proof.
  induction fuel as [|fuel IH]; intros i h Hr Hok Hh; simpl.
  - split; [lia|]. split; [intros; lia|]. left; reflexivity.
  - destruct (r i) as [d|] eqn:E.
    2: { exfalso. apply (Hr i); [lia|exact E]. }
    assert (Hr' : forall j, (S i <= j < S i + fuel)%nat -> r j <> None)
      by (intros j Hj; apply Hr; lia).
    assert (Hok' : indices_ok r (S i) (S i + fuel))
      by (intros j d' Hj; apply Hok; lia).
    set (h' := if plausible (temperature2 d)
               then (if h <=? index d then u32 (index d + 1) else h) else h).
    assert (Hh' : h' = h \/ (plausible (temperature2 d) = true
                              /\ h <= index d /\ h' = index d + 1)).
    { unfold h'. destruct (plausible (temperature2 d)) eqn:Ep; [|left; reflexivity].
      destruct (Z.leb_spec h (index d)); [|left; reflexivity].
      right. split; [reflexivity|]. split; [lia|].
      pose proof (Hok i d ltac:(lia) E Ep). unfold u32. apply Z.mod_small. lia. }
    assert (Hmax : plausible (temperature2 d) = true -> index d + 1 <= h').
    { intro Ep. unfold h'. rewrite Ep.
      pose proof (Hok i d ltac:(lia) E Ep).
      destruct (Z.leb_spec h (index d)); [|lia].
      unfold u32. rewrite Z.mod_small; lia. }
    assert (Hh'0 : 0 <= h') by (destruct Hh' as [->|[_ [? ->]]]; lia).
    assert (Hhh' : h <= h') by (destruct Hh' as [->|[_ [? ->]]]; lia).
    destruct (IH (S i) h' Hr' Hok' Hh'0) as [Hge [Hall Hex]].
    split; [lia|]. split.
    + intros j d' Hj Ej Ep. destruct (Nat.eq_dec j i) as [->|Hne].
      * rewrite E in Ej. injection Ej as <-. specialize (Hmax Ep). lia.
      * apply (Hall j d'); auto. lia.
    + destruct Hex as [Hex|[j [d' [Hj [Ej [Ep Hd]]]]]].
      * rewrite Hex. destruct Hh' as [Hh'|[Ep [_ Hh']]]; [left; exact Hh'|].
        right. exists i, d. repeat split; auto; lia.
      * right. exists j, d'. repeat split; auto; lia.
Qed.

(** The scan does not look past a failed read. *)
Lemma scan2_from_stop (r : region2) (fuel : nat) : forall i h m,
  (i <= m)%nat -> (m < i + fuel)%nat -> r m = None ->
  scan2_from r i fuel h = scan2_from r i (m - i) h.
Proof.
  induction fuel as [|fuel IH]; intros i h m Hi Hm E; [lia|].
  destruct (Nat.eq_dec i m) as [->|Hne].
  - rewrite Nat.sub_diag. simpl. rewrite E. reflexivity.
  - replace (m - i)%nat with (S (m - S i)) by lia. simpl.
    destruct (r i); [|reflexivity]. apply IH; [lia|lia|exact E].
Qed.

Lemma MAX_DATA_ENTRIES_Z : Z.of_nat MAX_DATA_ENTRIES = 15000.
Proof. reflexivity. Qed.

Lemma u32_id (z : Z) : 0 <= z < 2 ^ 32 -> u32 z = z.
Proof. intro H. unfold u32. apply Z.mod_small. exact H. Qed.

Lemma save2_step (g : flash_geometry) (k : nat) (r : region2) (t : f32) :
  flash_start g <= DATA_START_ADDRESS ->
  DATA_START_ADDRESS + (Z.of_nat k + 1) * sizeof_TemperatureData2
    <= flash_start g + flash_size g ->
  flash_start g + flash_size g < 2 ^ 32 ->
  saveTemperatureReading2 g true (Z.of_nat k) r t =
    (true, Z.of_nat k + 1,
     program_slot2 r k {| index := Z.of_nat k; temperature2 := t |}).
Proof.
  intros H1 H2 H3.
  unfold saveTemperatureReading2, sizeof_TemperatureData2, DATA_START_ADDRESS in *.
  rewrite (u32_id (Z.of_nat k * 8)) by lia.
  rewrite (u32_id (524288 + Z.of_nat k * 8)) by lia.
  rewrite (u32_id (524288 + Z.of_nat k * 8 + 8)) by lia.
  rewrite (proj2 (Z.ltb_ge _ _)) by lia.
  rewrite (proj2 (Z.ltb_ge _ _)) by lia. simpl.
  rewrite Z.div_mul by lia. rewrite Nat2Z.id.
  rewrite (u32_id (Z.of_nat k + 1)) by lia. reflexivity.
Qed.

(** [append_all2] writes the [j]-th temperature to slot [k + j], stamped with
    index [k + j]. *)
Lemma append_all2_nth (g : flash_geometry) (ts : list f32) : forall k r,
  flash_start g <= DATA_START_ADDRESS ->
  DATA_START_ADDRESS + Z.of_nat (k + List.length ts) * sizeof_TemperatureData2
    <= flash_start g + flash_size g ->
  flash_start g + flash_size g < 2 ^ 32 ->
  exists r', append_all2 g (Z.of_nat k) r ts
               = (true, Z.of_nat (k + List.length ts), r')
    /\ (forall j, (j < k \/ k + List.length ts <= j)%nat -> r' j = r j)
    /\ (forall j, (j < List.length ts)%nat ->
          r' (k + j)%nat = Some {| index := Z.of_nat (k + j);
                                   temperature2 := nth j ts NaN |}).
Proof.
  induction ts as [|t ts IH]; intros k r H1 H2 H3; cbn [List.length append_all2] in *.
  - exists r. rewrite Nat.add_0_r. repeat split; auto. intros j Hj. lia.
  - unfold sizeof_TemperatureData2, DATA_START_ADDRESS in *.
    rewrite (save2_step g k) by (unfold sizeof_TemperatureData2, DATA_START_ADDRESS; lia).
    replace (Z.of_nat k + 1) with (Z.of_nat (S k)) by lia.
    destruct (IH (S k) (program_slot2 r k {| index := Z.of_nat k; temperature2 := t |}))
      as [r' [Ha [Hout Hin]]];
      unfold sizeof_TemperatureData2, DATA_START_ADDRESS; try lia.
    exists r'. split; [rewrite Ha; do 2 f_equal; lia|]. split.
    + intros j Hj. rewrite Hout by lia. unfold program_slot2.
      destruct (Nat.eqb_spec j k); [lia|reflexivity].
    + intros j Hj. destruct j as [|j].
      * rewrite Nat.add_0_r. rewrite Hout by lia. unfold program_slot2.
        rewrite Nat.eqb_refl. reflexivity.
      * replace (k + S j)%nat with (S k + j)%nat by lia.
        rewrite Hin by lia. reflexivity.
Qed.

(** Maximum characterisation of the [part_002] scan. *)
Lemma findHighest2_max (r : region2) (m : nat) :
  (m <= MAX_DATA_ENTRIES)%nat ->
  (forall j, (j < m)%nat -> r j <> None) ->
  (m = MAX_DATA_ENTRIES \/ r m = None) ->
  indices_ok r 0 m ->
  (forall j d, (j < m)%nat -> r j = Some d -> plausible (temperature2 d) = true ->
     index d + 1 <= findHighestDataIndex2 r)
  /\ ((findHighestDataIndex2 r = 0 /\ forall j, (j < m)%nat -> slot_plausible2 r j = false)
      \/ exists j d, (j < m)%nat /\ r j = Some d
           /\ plausible (temperature2 d) = true
           /\ index d + 1 = findHighestDataIndex2 r).
Proof.
  intros Hm Hr Hend Hok.
  assert (E : findHighestDataIndex2 r = scan2_from r 0 m 0).
  { unfold findHighestDataIndex2. destruct Hend as [->|Hn]; [reflexivity|].
    destruct (Nat.eq_dec m MAX_DATA_ENTRIES) as [->|Hne]; [reflexivity|].
    rewrite (scan2_from_stop r MAX_DATA_ENTRIES 0 0 m); [|lia|lia|exact Hn].
    rewrite Nat.sub_0_r. reflexivity. }
  rewrite E.
  destruct (scan2_from_max r m 0 0 (fun j Hj => Hr j ltac:(lia)) Hok (Z.le_refl 0))
    as [Hge [Hall Hex]].
  split; [intros j d Hj; apply Hall; lia|].
  destruct Hex as [Hz|[j [d [Hj [Ej [Ep Hd]]]]]].
  - left. split; [exact Hz|]. intros j Hj. unfold slot_plausible2.
    destruct (r j) as [d|] eqn:Ej; [|reflexivity].
    destruct (plausible (temperature2 d)) eqn:Ep; [|reflexivity].
    pose proof (Hall j d ltac:(lia) Ej Ep). pose proof (Hok j d ltac:(lia) Ej Ep). lia.
  - right. exists j, d. repeat split; auto. lia.
Qed.

End Log002Facts.

Module Log002Props.
Import F32 LogStore Config Boot Readout Log002 ReadoutFacts Log002Facts.

(** [findHighestDataIndex] of [part_002] returns one past the largest index
    stored in a plausible record among the slots it reads (those before the
    first failed read, up to capacity), and 0 when there is none; where the
    records sit does not matter.  Indices are assumed below [0xFFFFFFFF]. *)
Theorem findHighestDataIndex2_max (r : region2) (m : nat) :
  (m <= MAX_DATA_ENTRIES)%nat ->
  (forall j, (j < m)%nat -> r j <> None) ->
  (m = MAX_DATA_ENTRIES \/ r m = None) ->
  indices_ok r 0 m ->
  (forall j d, (j < m)%nat -> r j = Some d -> plausible (temperature2 d) = true ->
     index d + 1 <= findHighestDataIndex2 r)
  /\ ((findHighestDataIndex2 r = 0 /\ forall j, (j < m)%nat -> slot_plausible2 r j = false)
      \/ exists j d, (j < m)%nat /\ r j = Some d
           /\ plausible (temperature2 d) = true
           /\ index d + 1 = findHighestDataIndex2 r).
Proof. exact (findHighest2_max r m). Qed.

Lemma findHighestDataIndex2_max_witness :
  let r : region2 := fun j =>
    match j with
    | 0%nat => Some {| index := 7; temperature2 := of_int 20 |}
    | 1%nat => Some {| index := 3; temperature2 := of_int 21 |}
    | _ => None
    end in
  (forall j d, (j < 2)%nat -> r j = Some d -> plausible (temperature2 d) = true ->
     index d + 1 <= findHighestDataIndex2 r)
  /\ ((findHighestDataIndex2 r = 0 /\ forall j, (j < 2)%nat -> slot_plausible2 r j = false)
      \/ exists j d, (j < 2)%nat /\ r j = Some d
           /\ plausible (temperature2 d) = true
           /\ index d + 1 = findHighestDataIndex2 r).
Proof.
  intro r.
  apply (findHighestDataIndex2_max r 2).
  - apply Nat.leb_le. vm_compute. reflexivity.
  - intros j Hj. unfold r. destruct j as [|[|j]]; [discriminate|discriminate|lia].
  - right. reflexivity.
  - intros j d Hj E _. unfold r in E.
    destruct j as [|[|j]]; cbn in E; [injection E as <-|injection E as <-|lia]; cbn; lia.
Defined.

(** After [initializeDevice] has erased the data region, [N] appends
    (within capacity and within the flash) followed by the ['r'] command
    print one row per reading, in order, with timestamp
    [initialTimestamp + i * wakeupInterval] (modulo 2^32) for the [i]-th
    reading, provided every reading is plausible. *)
Theorem readout2_after_logging (g : flash_geometry) (ts : list f32)
    (config : ConfigData) :
  flash_start g <= DATA_START_ADDRESS ->
  DATA_START_ADDRESS + Z.of_nat MAX_DATA_ENTRIES * sizeof_TemperatureData2
    <= flash_start g + flash_size g ->
  flash_start g + flash_size g < 2 ^ 32 ->
  (List.length ts <= MAX_DATA_ENTRIES)%nat ->
  Forall (fun t => plausible t = true) ts ->
  exists r', append_all2 g 0 erased_region2 ts
               = (true, Z.of_nat (List.length ts), r')
    /\ findHighestDataIndex2 r' = Z.of_nat (List.length ts)
    /\ sendReadableData2 config r' =
       [MetaTimestamp (initialTimestamp config);
        MetaInterval (wakeupInterval config);
        MetaId (cstr (personalId config));
        Text "Timestamp,Temperature"]
       ++ map (fun p => Row2 (u32 (initialTimestamp config
                                   + u32 (Z.of_nat (fst p) * wakeupInterval config)))
                             (snd p))
              (combine (seq 0 (List.length ts)) ts)
       ++ [Text "END_DATA"].
Proof.
  intros H1 H2 H3 Hlen Hpl.
  destruct (append_all2_nth g ts 0 erased_region2 H1) as [r' [Ha [Hout Hin]]];
    [unfold sizeof_TemperatureData2 in *; lia | exact H3 |].
  cbn [Nat.add] in Hin.
  exists r'. split; [exact Ha|].
  assert (Hf : findHighestDataIndex2 r' = Z.of_nat (List.length ts)).
  { assert (Hread : forall j, (j < MAX_DATA_ENTRIES)%nat -> r' j <> None).
    { intros j Hj. destruct (Nat.lt_ge_cases j (List.length ts)) as [Hl|Hl].
      - rewrite (Hin j Hl). discriminate.
      - rewrite Hout by lia. discriminate. }
    assert (Hok : indices_ok r' 0 MAX_DATA_ENTRIES).
    { intros j d Hj Ej Ep. destruct (Nat.lt_ge_cases j (List.length ts)) as [Hl|Hl].
      - rewrite (Hin j Hl) in Ej. injection Ej as <-. simpl.
        pose proof MAX_DATA_ENTRIES_Z. lia.
      - rewrite Hout in Ej by lia. injection Ej as <-. discriminate. }
    destruct (findHighest2_max r' MAX_DATA_ENTRIES (le_n _) Hread
                (or_introl eq_refl) Hok) as [Hall [[Hz Hnone]|[j [d [Hj [Ej [Ep Hd]]]]]]].
    - destruct ts as [|t ts']; [exact Hz|].
      specialize (Hnone 0%nat ltac:(pose proof MAX_DATA_ENTRIES_Z; lia)).
      unfold slot_plausible2 in Hnone. rewrite (Hin 0%nat ltac:(simpl; lia)) in Hnone.
      simpl in Hnone. inversion Hpl; subst. congruence.
    - destruct (Nat.lt_ge_cases j (List.length ts)) as [Hl|Hl].
      + rewrite (Hin j Hl) in Ej. injection Ej as <-. cbn [index] in Hd.
        assert (Hlast : (List.length ts - 1 < List.length ts)%nat) by lia.
        assert (Hp : plausible (nth (List.length ts - 1) ts NaN) = true).
        { rewrite Forall_forall in Hpl. apply Hpl. apply nth_In. exact Hlast. }
        specialize (Hall (List.length ts - 1)%nat _ ltac:(pose proof MAX_DATA_ENTRIES_Z; lia) (Hin _ Hlast) Hp).
        cbn [index] in Hall. lia.
      + rewrite Hout in Ej by lia. injection Ej as <-. discriminate. }
  split; [exact Hf|].
  unfold sendReadableData2. rewrite Hf, Nat2Z.id. f_equal. f_equal.
  assert (Hc : forall (l : list f32) k,
    (forall j, (j < List.length l)%nat ->
       r' (k + j)%nat = Some {| index := Z.of_nat (k + j); temperature2 := nth j l NaN |}) ->
    map (data_row2 config r') (seq k (List.length l))
    = map (fun p => Row2 (u32 (initialTimestamp config
                               + u32 (Z.of_nat (fst p) * wakeupInterval config)))
                         (snd p))
          (combine (seq k (List.length l)) l)).
  { induction l as [|t l IH]; intros k H; simpl; [reflexivity|].
    f_equal.
    - unfold data_row2. specialize (H 0%nat ltac:(simpl; lia)).
      rewrite Nat.add_0_r in H. rewrite H. reflexivity.
    - apply IH. intros j Hj. replace (S k + j)%nat with (k + S j)%nat by lia.
      apply (H (S j)). simpl. lia. }
  apply Hc. exact Hin.
Qed.

Lemma readout2_after_logging_witness :
  exists r', append_all2 nrf52840_flash 0 erased_region2 [of_int 20; of_int 21]
               = (true, 2, r')
    /\ findHighestDataIndex2 r' = 2
    /\ sendReadableData2 Boot.logging_page r' =
       [MetaTimestamp 1700000000; MetaInterval 60;
        MetaId (cstr (char16 "P01"));
        Text "Timestamp,Temperature";
        Row2 1700000000 (of_int 20); Row2 1700000060 (of_int 21);
        Text "END_DATA"].
Proof.
  apply (readout2_after_logging nrf52840_flash [of_int 20; of_int 21] Boot.logging_page).
  - vm_compute. discriminate.
  - vm_compute. discriminate.
  - vm_compute. reflexivity.
  - apply Nat.leb_le. vm_compute. reflexivity.
  - repeat constructor.
Defined.

(** One planned watchdog cycle of [part_002] keeps the logging invariant:
    with the config page in Logging mode, the reset flag set by the previous
    [enterSleep], and a data region whose scan yields [n] (every slot
    readable, indices below [0xFFFFFFFF]) and whose slot [n] is erased (so
    that programming it stores the record as written), [setup] after the
    watchdog reset
    stays in Logging with [currentIndex = n] and saves nothing; the reading
    of the next [loop] pass goes to slot [n] with index [n]; the scan of the
    new region yields [n + 1]; and [setWatchdogResetFlag] re-arms the flag
    that [setup] cleared. *)
Theorem planned_wake_cycle (g : flash_geometry) (page : ConfigData)
    (r : region2) (n : nat) (t : f32) :
  flash_start g <= DATA_START_ADDRESS ->
  DATA_START_ADDRESS + Z.of_nat MAX_DATA_ENTRIES * sizeof_TemperatureData2
    <= flash_start g + flash_size g ->
  flash_start g + flash_size g < 2 ^ 32 ->
  mode page = MODE_LOGGING ->
  (forall j, (j < MAX_DATA_ENTRIES)%nat -> r j <> None) ->
  indices_ok r 0 MAX_DATA_ENTRIES ->
  findHighestDataIndex2 r = Z.of_nat n ->
  r n = Some {| index := 0xFFFFFFFF; temperature2 := erased_float |} ->
  (n < MAX_DATA_ENTRIES)%nat ->
  plausible t = true ->
  let b := setup_part002 true true RESET_FLAG_VALUE page r in
  currentMode b = MODE_LOGGING /\ b_currentIndex b = Z.of_nat n
  /\ b_saved b = None /\ b_config b = page
  /\ setup_part002_flag RESET_FLAG_VALUE = 0xFFFFFFFF
  /\ exists r', saveTemperatureReading2 g true (b_currentIndex b) r t
                = (true, Z.of_nat n + 1, r')
     /\ r' n = Some {| index := Z.of_nat n; temperature2 := t |}
     /\ findHighestDataIndex2 r' = Z.of_nat n + 1
     /\ setWatchdogResetFlag true true (setup_part002_flag RESET_FLAG_VALUE)
        = (true, RESET_FLAG_VALUE).
Proof.
  intros H1 H2 H3 Hmode Hread Hok Hn Herased Hcap Ht b.
  assert (Hb : b = {| b_config := page; currentMode := mode page;
                      b_currentIndex := Z.of_nat n; b_saved := None |}).
  { unfold b, setup_part002. simpl negb. cbv iota.
    rewrite Hn, Hmode. unfold MODE_LOGGING, MODE_IDLE, RESET_FLAG_VALUE.
    simpl. reflexivity. }
  rewrite Hb. simpl. rewrite Hmode.
  split; [reflexivity|]. split; [reflexivity|]. split; [reflexivity|].
  split; [reflexivity|]. split; [reflexivity|].
  rewrite (save2_step g n) by (unfold sizeof_TemperatureData2 in *; pose proof MAX_DATA_ENTRIES_Z; lia).
  eexists. split; [reflexivity|]. split.
  { unfold program_slot2. rewrite Nat.eqb_refl. reflexivity. }
  split; [|reflexivity].
  set (r' := program_slot2 r n {| index := Z.of_nat n; temperature2 := t |}).
  assert (Hread' : forall j, (j < MAX_DATA_ENTRIES)%nat -> r' j <> None).
  { intros j Hj. unfold r', program_slot2. destruct (Nat.eqb j n); [discriminate|].
    apply Hread. exact Hj. }
  assert (Hok' : indices_ok r' 0 MAX_DATA_ENTRIES).
  { intros j d Hj Ej Ep. unfold r', program_slot2 in Ej.
    destruct (Nat.eqb_spec j n).
    - injection Ej as <-. simpl. pose proof MAX_DATA_ENTRIES_Z. lia.
    - exact (Hok j d Hj Ej Ep). }
  destruct (findHighest2_max r MAX_DATA_ENTRIES (le_n _) Hread
              (or_introl eq_refl) Hok) as [Hall _].
  destruct (findHighest2_max r' MAX_DATA_ENTRIES (le_n _) Hread'
              (or_introl eq_refl) Hok') as [Hall' [[Hz _]|[j [d [Hj [Ej [Ep Hd]]]]]]].
  - exfalso. assert (E : r' n = Some {| index := Z.of_nat n; temperature2 := t |}).
    { unfold r', program_slot2. rewrite Nat.eqb_refl. reflexivity. }
    specialize (Hall' n _ Hcap E Ht). simpl in Hall'. lia.
  - assert (E : r' n = Some {| index := Z.of_nat n; temperature2 := t |}).
    { unfold r', program_slot2. rewrite Nat.eqb_refl. reflexivity. }
    specialize (Hall' n _ Hcap E Ht). simpl in Hall'.
    unfold r', program_slot2 in Ej. destruct (Nat.eqb_spec j n).
    + injection Ej as <-. simpl in Hd. lia.
    + specialize (Hall j d Hj Ej Ep). lia.
Qed.

Lemma planned_wake_cycle_witness :
  let b := setup_part002 true true RESET_FLAG_VALUE logging_page erased_region2 in
  currentMode b = MODE_LOGGING /\ b_currentIndex b = 0
  /\ b_saved b = None /\ b_config b = logging_page
  /\ setup_part002_flag RESET_FLAG_VALUE = 0xFFFFFFFF
  /\ exists r', saveTemperatureReading2 nrf52840_flash true (b_currentIndex b)
                  erased_region2 (of_int 20)
                = (true, 0 + 1, r')
     /\ r' 0%nat = Some {| index := 0; temperature2 := of_int 20 |}
     /\ findHighestDataIndex2 r' = 0 + 1
     /\ setWatchdogResetFlag true true (setup_part002_flag RESET_FLAG_VALUE)
        = (true, RESET_FLAG_VALUE).
Proof.
  apply (planned_wake_cycle nrf52840_flash logging_page erased_region2 0 (of_int 20)).
  - vm_compute. discriminate.
  - vm_compute. discriminate.
  - vm_compute. reflexivity.
  - reflexivity.
  - intros j _. discriminate.
  - intros j d _ E P. injection E as <-. vm_compute in P. discriminate.
  - vm_compute. reflexivity.
  - reflexivity.
  - apply Nat.leb_le. vm_compute. reflexivity.
  - vm_compute. reflexivity.
Defined.

(** [configureWatchdog] caps the timeout at 512 s: the reload value is
    [32768 * min(timeoutSeconds, 512)] ticks of the 32.768 kHz clock, at
    most [2^24], so a longer wake-up interval is cut to 512 s and the
    multiplication never wraps. *)
Theorem configureWatchdog_caps (t : Z) :
  0 <= t < 2 ^ 32 ->
  configureWatchdog t = 32768 * Z.min t 512 /\ configureWatchdog t <= 2 ^ 24.
Proof.
  intros Ht. unfold configureWatchdog.
  destruct (Z.gtb_spec t 512).
  - rewrite Z.min_r by lia. change (u32 (512 * 32768)) with 16777216. lia.
  - rewrite Z.min_l by lia. rewrite u32_id by lia. lia.
Qed.

Lemma configureWatchdog_caps_witness :
  configureWatchdog 600 = 32768 * Z.min 600 512 /\ configureWatchdog 600 <= 2 ^ 24.
Proof. apply configureWatchdog_caps. lia. Defined.

End Log002Props.

Module Logger003Facts.
Import DateCodec Logger003.

Lemma all_month_base_posix :
  forallb (fun y => forallb (fun m => month_base_posix y m) (zrange 1 12))
          (zrange 0 99) = true.
Proof. vm_compute. reflexivity. Qed.

Lemma encodeTimestamp_base (date time : Z) :
  encodeTimestamp date time =
  let '(year, month, day) := decodeDate date in
  u32 (u32 (u32 (u32 (month_base year month + (day - 1)) * 24) * 3600)
       + fst (decodeTime time) * 3600 + snd (decodeTime time) * 60).
Proof.
  unfold encodeTimestamp, month_base.
  destruct (decodeDate date) as [[year month] day].
  destruct (decodeTime time) as [hour minute]. reflexivity.
Qed.

Lemma decodeTime_encodeTime (h mi : Z) :
  0 <= h <= 23 -> 0 <= mi <= 59 -> decodeTime (encodeTime h mi) = (h, mi).
Proof.
  intros Hh Hmi.
  assert (A := DateCodecClaims.all_times_roundtrip).
  rewrite forallb_forall in A. specialize (A h (DateCodecClaims.zrange_In 0 23 _ Hh)).
  rewrite forallb_forall in A. specialize (A mi (DateCodecClaims.zrange_In 0 59 _ Hmi)).
  unfold time_roundtrips in A.
  destruct (decodeTime (encodeTime h mi)) as [h' mi'].
  apply andb_prop in A as [A1 A2]. apply Z.eqb_eq in A1, A2. subst. reflexivity.
Qed.

Lemma decodeDate_encodeDate (y m d : Z) :
  0 <= y <= 99 -> 1 <= m <= 12 -> 1 <= d <= 31 ->
  decodeDate (encodeDate y m d) = (2000 + y, m, d).
Proof.
  intros Hy Hm Hd.
  assert (A := DateCodecClaims.all_dates_roundtrip).
  rewrite forallb_forall in A. specialize (A y (DateCodecClaims.zrange_In 0 99 _ Hy)).
  rewrite forallb_forall in A. specialize (A m (DateCodecClaims.zrange_In 1 12 _ Hm)).
  rewrite forallb_forall in A. specialize (A d (DateCodecClaims.zrange_In 1 31 _ Hd)).
  unfold date_roundtrips in A.
  destruct (decodeDate (encodeDate y m d)) as [[y' m'] d'].
  apply andb_prop in A as [A A3]. apply andb_prop in A as [A1 A2].
  apply Z.eqb_eq in A1, A2, A3. subst. rewrite Z.mod_small by lia. reflexivity.
Qed.

Lemma posix_seconds_linear (year m d h mi : Z) :
  posix_seconds year m d h mi
  = posix_seconds year m 1 0 0 + (d - 1) * 86400 + h * 3600 + mi * 60.
Proof. unfold posix_seconds. lia. Qed.

End Logger003Facts.

Module Logger003Props.
Import DateCodec Logger003 Logger003Facts.

(** [encodeTimestamp] of a date and time built by [encodeDate] and
    [encodeTime] from a valid month ([1..12]), day ([1..31]), hour and minute
    is the POSIX count of seconds since 1970-01-01 00:00 UTC of that time in
    the year [2000 + year mod 100]; a day past the end of its month counts
    on into the next month, as in POSIX. *)
Theorem encodeTimestamp_posix (y m d h mi : Z) :
  0 <= y -> 1 <= m <= 12 -> 1 <= d <= 31 -> 0 <= h <= 23 -> 0 <= mi <= 59 ->
  encodeTimestamp (encodeDate y m d) (encodeTime h mi)
  = posix_seconds (2000 + y mod 100) m d h mi.
Proof.
  intros Hy Hm Hd Hh Hmi.
  assert (Hy' : 0 <= y mod 100 <= 99) by (pose proof (Z.mod_pos_bound y 100); lia).
  rewrite <- DateCodecClaims.encodeDate_year_mod.
  rewrite encodeTimestamp_base, decodeDate_encodeDate, decodeTime_encodeTime by assumption.
  cbn [fst snd].
  assert (A := all_month_base_posix).
  rewrite forallb_forall in A. specialize (A _ (DateCodecClaims.zrange_In 0 99 _ Hy')).
  rewrite forallb_forall in A. specialize (A m (DateCodecClaims.zrange_In 1 12 _ Hm)).
  unfold month_base_posix in A.
  apply andb_prop in A as [A A3]. apply andb_prop in A as [A1 A2].
  apply Z.leb_le in A1. apply Z.eqb_eq in A2. apply Z.ltb_lt in A3.
  rewrite posix_seconds_linear, <- A2.
  set (b := month_base (2000 + y mod 100) m) in *.
  unfold u32. rewrite (Z.mod_small (b + (d - 1))) by lia.
  rewrite (Z.mod_small ((b + (d - 1)) * 24)) by lia.
  rewrite (Z.mod_small ((b + (d - 1)) * 24 * 3600)) by lia.
  rewrite Z.mod_small by lia. lia.
Qed.

Lemma encodeTimestamp_posix_witness :
  encodeTimestamp (encodeDate 25 3 14) (encodeTime 9 30)
  = posix_seconds (2000 + 25 mod 100) 3 14 9 30.
Proof. apply encodeTimestamp_posix; lia. Defined.

End Logger003Props.

Module LogAreaFacts.
Import DateCodec Logger003.

Lemma MAX_LOG_ENTRIES_val : MAX_LOG_ENTRIES = 32768.
Proof. reflexivity. Qed.

Lemma lor_shiftl16 (a b : Z) :
  0 <= a < 2 ^ 16 -> 0 <= b -> Z.lor a (Z.shiftl b 16) = a + b * 2 ^ 16.
Proof.
  intros Ha Hb. rewrite Z.shiftl_mul_pow2 by lia.
  assert (H0 : Z.land a (b * 2 ^ 16) = 0).
  { apply Z.bits_inj'. intros n Hn. rewrite Z.land_spec, Z.bits_0.
    destruct (Z.lt_ge_cases n 16).
    - rewrite Z.mul_pow2_bits_low by lia. apply andb_false_r.
    - rewrite <- (Z.mod_small a (2 ^ 16)) by lia.
      rewrite Z.mod_pow2_bits_high by lia. reflexivity. }
  rewrite <- Z.lxor_lor by exact H0. rewrite <- Z.add_nocarry_lxor by exact H0.
  reflexivity.
Qed.

Lemma entry_word_eq (j t : Z) :
  entry_word j t = u16 j + u16 t * 2 ^ 16.
Proof.
  unfold entry_word, u16. apply lor_shiftl16.
  - apply Z.mod_pos_bound. lia.
  - apply Z.mod_pos_bound. lia.
Qed.

Lemma entry_word_range (j t : Z) : 0 <= entry_word j t < 2 ^ 32.
Proof.
  rewrite entry_word_eq. unfold u16.
  pose proof (Z.mod_pos_bound j (2 ^ 16)). pose proof (Z.mod_pos_bound t (2 ^ 16)).
  lia.
Qed.

Lemma entry_index_word (j t : Z) :
  0 <= j < 2 ^ 16 -> entry_index (entry_word j t) = j.
Proof.
  intros Hj. unfold entry_index. change 0xFFFF with (Z.ones 16).
  rewrite Z.land_ones by lia. rewrite entry_word_eq. unfold u16.
  rewrite Z.mod_add by lia. rewrite Z.mod_mod by lia. apply Z.mod_small. exact Hj.
Qed.

Lemma entry_temperature_word (j t : Z) :
  0 <= j < 2 ^ 16 -> int16_range t -> entry_temperature (entry_word j t) = t.
Proof.
  unfold int16_range. intros Hj Ht. unfold entry_temperature.
  rewrite entry_word_eq. rewrite Z.shiftr_div_pow2 by lia.
  unfold u16. rewrite (Z.mod_small j) by exact Hj.
  rewrite Z.div_add by lia. rewrite Z.div_small by exact Hj. rewrite Z.add_0_l.
  destruct (Z.ltb_spec t 0) as [Hn|Hn].
  - rewrite <- (Z.mod_unique t (2 ^ 16) (-1) (t + 2 ^ 16)) by lia.
    destruct (Z.geb_spec (t + 2 ^ 16) 0x8000); lia.
  - rewrite Z.mod_small by lia. destruct (Z.geb_spec t 0x8000); lia.
Qed.

Lemma erased_index : entry_index 0xFFFFFFFF = 0xFFFF.
Proof. reflexivity. Qed.

Lemma ALIGN_4_slot (k : Z) :
  0 <= k < 2 ^ 16 ->
  ALIGN_4 (FLASH_START_ADDRESS + k * sizeof_TemperatureLogEntry)
  = FLASH_START_ADDRESS + k * sizeof_TemperatureLogEntry.
Proof.
  intros Hk. unfold ALIGN_4, FLASH_START_ADDRESS, sizeof_TemperatureLogEntry.
  change 3 with (Z.ones 2) at 2. rewrite <- Z.ldiff_land.
  rewrite Z.ldiff_ones_r by lia. rewrite Z.shiftl_mul_pow2, Z.shiftr_div_pow2 by lia.
  replace ((0x60000 + k * 4 + 3) / 2 ^ 2) with (0x18000 + k).
  - unfold u32. rewrite Z.mod_small by lia. lia.
  - apply (Z.div_unique _ _ _ 3); lia.
Qed.

Lemma log_of_lt (ts : list Z) (j : nat) :
  (j < List.length ts)%nat -> log_of ts j = entry_word (Z.of_nat j) (nth j ts 0).
Proof.
  intros Hj. unfold log_of.
  rewrite (nth_error_nth' ts 0 Hj). reflexivity.
Qed.

Lemma log_of_ge (ts : list Z) (j : nat) :
  (List.length ts <= j)%nat -> log_of ts j = 0xFFFFFFFF.
Proof.
  intros Hj. unfold log_of. rewrite (proj2 (nth_error_None ts j) Hj). reflexivity.
Qed.

Lemma nth_in_range (ts : list Z) (j : nat) :
  Forall int16_range ts -> int16_range (nth j ts 0).
Proof.
  intros H. destruct (Nat.lt_ge_cases j (List.length ts)) as [Hj|Hj].
  - rewrite Forall_forall in H. apply H. apply nth_In. exact Hj.
  - rewrite nth_overflow by exact Hj. unfold int16_range. lia.
Qed.

(** [recoverLastLogIndex] finds the first erased slot of [log_of ts]. *)
Lemma recover_from_log_of (ts : list Z) (li : Z) (fuel : nat) : forall i,
  (Z.of_nat (List.length ts) < 0xFFFF) ->
  (i <= List.length ts < i + fuel)%nat ->
  recover_from (log_of ts) i fuel li = Z.of_nat (List.length ts).
Proof.
  induction fuel as [|fuel IH]; intros i Hn Hi; [lia|].
  cbn [recover_from].
  destruct (Nat.eq_dec i (List.length ts)) as [->|Hne].
  - rewrite log_of_ge by lia. rewrite erased_index. reflexivity.
  - rewrite log_of_lt by lia. rewrite entry_index_word by lia.
    destruct (Z.eqb_spec (Z.of_nat i) 0xFFFF) as [E|E]; [lia|].
    apply IH; lia.
Qed.

Lemma recover_from_ext (l l' : log_area) :
  (forall j, l j = l' j) ->
  forall fuel i li, recover_from l i fuel li = recover_from l' i fuel li.
Proof.
  intros H. induction fuel as [|fuel IH]; intros i li; cbn [recover_from]; [reflexivity|].
  rewrite H, IH. reflexivity.
Qed.

Lemma retrieve_from_ext (l l' : log_area) :
  (forall j, l j = l' j) ->
  forall fuel i, retrieve_from l i fuel = retrieve_from l' i fuel.
Proof.
  intros H. induction fuel as [|fuel IH]; intros i; cbn [retrieve_from]; [reflexivity|].
  rewrite H, IH. reflexivity.
Qed.

Lemma wdt_wake_ext (l l' : log_area) (t : Z) :
  (forall j, l j = l' j) ->
  fst (wdt_wake l t) = fst (wdt_wake l' t)
  /\ current_mode (snd (wdt_wake l t)) = current_mode (snd (wdt_wake l' t))
  /\ forall j, log (snd (wdt_wake l t)) j = log (snd (wdt_wake l' t)) j.
Proof.
  intros H. unfold wdt_wake, writeNewLogEntry, isFlashFull, recoverLastLogIndex, after_reset.
  cbn [log log_index current_mode initial_timestamp].
  rewrite !(recover_from_ext l l' H).
  generalize (recover_from l' 0 (Z.to_nat MAX_LOG_ENTRIES) 0). intros r.
  destruct (_ <=? _); [cbn; auto|].
  generalize (recover_from l' 0 (Z.to_nat MAX_LOG_ENTRIES) r). intros r2.
  change (0 =? 4294967295) with false. cbn [fst snd log current_mode].
  split; [reflexivity|]. split; [reflexivity|].
  intros j. unfold write_word. rewrite H. reflexivity.
Qed.

Lemma wdt_wakes_ext (temps : list Z) : forall (l l' : log_area),
  (forall j, l j = l' j) -> forall j, wdt_wakes l temps j = wdt_wakes l' temps j.
Proof.
  induction temps as [|t temps IH]; intros l l' H j; cbn [wdt_wakes]; [apply H|].
  apply IH. apply (wdt_wake_ext l l' t H).
Qed.

Lemma skipn_cons_nth (ts : list Z) (i : nat) :
  (i < List.length ts)%nat -> skipn i ts = nth i ts 0 :: skipn (S i) ts.
Proof.
  revert i. induction ts as [|x ts IH]; intros i Hi; cbn [List.length] in Hi; [lia|].
  destruct i as [|i]; [reflexivity|].
  cbn [skipn nth]. apply IH. lia.
Qed.

Lemma retrieve_from_log_of (ts : list Z) (fuel : nat) : forall i,
  Forall int16_range ts ->
  (Z.of_nat (List.length ts) < 0xFFFF) ->
  (i <= List.length ts < i + fuel)%nat ->
  retrieve_from (log_of ts) i fuel
  = combine (map Z.of_nat (seq i (List.length ts - i))) (skipn i ts).
Proof.
  induction fuel as [|fuel IH]; intros i Hts Hn Hi; [lia|].
  cbn [retrieve_from].
  destruct (Nat.eq_dec i (List.length ts)) as [->|Hne].
  - rewrite log_of_ge by lia. rewrite erased_index. rewrite Nat.sub_diag. reflexivity.
  - rewrite log_of_lt by lia. rewrite entry_index_word by lia.
    rewrite entry_temperature_word by (try apply nth_in_range; auto; lia).
    destruct (Z.eqb_spec (Z.of_nat i) 0xFFFF) as [E|E]; [lia|].
    destruct (Z.eqb_spec (Z.of_nat i) 0xFFFFFFFF) as [E'|E']; [lia|].
    cbn [orb]. rewrite IH by (auto; lia).
    replace (List.length ts - i)%nat with (S (List.length ts - S i)) by lia.
    rewrite (skipn_cons_nth ts i) by lia. reflexivity.
Qed.

(** One watchdog wake on a log holding [ts]. *)
Lemma wdt_wake_log_of (ts : list Z) (t : Z) :
  Forall int16_range ts -> int16_range t ->
  Z.of_nat (List.length ts) <= MAX_LOG_ENTRIES - 1 ->
  (Z.of_nat (List.length ts) < MAX_LOG_ENTRIES - 1 ->
     fst (wdt_wake (log_of ts) t) = ["[INFO] New log entry recorded."%string]
     /\ current_mode (snd (wdt_wake (log_of ts) t)) = LOGGING
     /\ forall j, log (snd (wdt_wake (log_of ts) t)) j = log_of (ts ++ [t]) j)
  /\ (Z.of_nat (List.length ts) = MAX_LOG_ENTRIES - 1 ->
     fst (wdt_wake (log_of ts) t) = ["[ERROR] Flash is full. Logging halted."%string]
     /\ current_mode (snd (wdt_wake (log_of ts) t)) = RETRIEVAL
     /\ log (snd (wdt_wake (log_of ts) t)) = log_of ts).
Proof.
  intros Hts Ht Hn. rewrite MAX_LOG_ENTRIES_val in Hn.
  assert (Hr : forall li, recover_from (log_of ts) 0 (Z.to_nat MAX_LOG_ENTRIES) li
                          = Z.of_nat (List.length ts)).
  { intros li. apply recover_from_log_of; [lia|].
    split; [lia|]. rewrite MAX_LOG_ENTRIES_val. lia. }
  unfold wdt_wake, writeNewLogEntry, isFlashFull, recoverLastLogIndex, after_reset.
  cbn [log log_index current_mode initial_timestamp]. rewrite !Hr.
  split; intros Hlt.
  - destruct (Z.leb_spec (MAX_LOG_ENTRIES - 1) (Z.of_nat (List.length ts))) as [Hf|Hf];
      [rewrite MAX_LOG_ENTRIES_val in Hf, Hlt; lia|].
    cbn -[recover_from log_of MAX_LOG_ENTRIES Z.to_nat ALIGN_4 FLASH_START_ADDRESS sizeof_TemperatureLogEntry]. split; [reflexivity|]. split; [reflexivity|].
    rewrite ALIGN_4_slot by lia.
    replace ((FLASH_START_ADDRESS + Z.of_nat (List.length ts) * sizeof_TemperatureLogEntry
              - FLASH_START_ADDRESS) / sizeof_TemperatureLogEntry)
      with (Z.of_nat (List.length ts))
      by (unfold sizeof_TemperatureLogEntry, FLASH_START_ADDRESS;
          replace (0x60000 + Z.of_nat (List.length ts) * 4 - 0x60000)
            with (Z.of_nat (List.length ts) * 4) by ring;
          rewrite Z.div_mul by lia; reflexivity).
    rewrite Nat2Z.id. intros j. unfold write_word.
    destruct (Nat.eqb_spec j (List.length ts)) as [->|Hj].
    + rewrite log_of_ge by lia. rewrite log_of_lt by (rewrite length_app; cbn; lia).
      rewrite app_nth2 by lia. rewrite Nat.sub_diag. cbn [nth].
      pose proof (entry_word_range (Z.of_nat (List.length ts)) t).
      rewrite Z.land_comm. change 0xFFFFFFFF with (Z.ones 32).
      rewrite Z.land_ones by lia. apply Z.mod_small. lia.
    + destruct (Nat.lt_ge_cases j (List.length ts)) as [Hl|Hl].
      * rewrite !log_of_lt by (try rewrite length_app; cbn; lia).
        rewrite app_nth1 by lia. reflexivity.
      * rewrite !log_of_ge by (try rewrite length_app; cbn; lia). reflexivity.
  - destruct (Z.leb_spec (MAX_LOG_ENTRIES - 1) (Z.of_nat (List.length ts))) as [Hf|Hf];
      [|rewrite MAX_LOG_ENTRIES_val in Hf, Hlt; lia].
    cbn. auto.
Qed.

End LogAreaFacts.

Module Logger003Facts2.
Import DateCodec Logger003 LogAreaFacts.

Lemma Forall_firstn_Z (P : Z -> Prop) (n : nat) (l : list Z) :
  Forall P l -> Forall P (firstn n l).
Proof.
  revert l. induction n as [|n IH]; intros l H; [constructor|].
  destruct l as [|x l]; [constructor|]. inversion H; subst.
  cbn [firstn]. constructor; auto.
Qed.

Lemma MAX_LOG_ENTRIES_1_nat : Z.of_nat (Z.to_nat (MAX_LOG_ENTRIES - 1)) = 32767.
Proof. rewrite MAX_LOG_ENTRIES_val. reflexivity. Qed.

Lemma wdt_wakes_log_of (temps : list Z) : forall ts,
  Forall int16_range ts -> Forall int16_range temps ->
  (List.length ts <= Z.to_nat (MAX_LOG_ENTRIES - 1))%nat ->
  forall j, wdt_wakes (log_of ts) temps j
            = log_of (firstn (Z.to_nat (MAX_LOG_ENTRIES - 1)) (ts ++ temps)) j.
Proof.
  pose proof MAX_LOG_ENTRIES_1_nat as HN.
  induction temps as [|t temps IH]; intros ts Hts Htemps Hlen j; cbn [wdt_wakes].
  - rewrite app_nil_r, firstn_all2 by exact Hlen. reflexivity.
  - inversion Htemps as [|? ? Ht Hrest]; subst.
    assert (Hle : Z.of_nat (List.length ts) <= MAX_LOG_ENTRIES - 1)
      by (rewrite MAX_LOG_ENTRIES_val; lia).
    destruct (wdt_wake_log_of ts t Hts Ht Hle) as [Hlt Heq].
    destruct (Nat.lt_ge_cases (List.length ts) (Z.to_nat (MAX_LOG_ENTRIES - 1))) as [L|L].
    + destruct (Hlt ltac:(rewrite MAX_LOG_ENTRIES_val in *; lia)) as [_ [_ Hlog]].
      rewrite (wdt_wakes_ext temps _ _ Hlog j).
      rewrite IH.
      * rewrite <- app_assoc. reflexivity.
      * apply Forall_app. split; [exact Hts|]. constructor; [exact Ht|constructor].
      * exact Hrest.
      * rewrite length_app. cbn. lia.
    + destruct (Heq ltac:(rewrite MAX_LOG_ENTRIES_val in *; lia)) as [_ [_ Hlog]].
      rewrite Hlog. rewrite IH by (auto; lia).
      rewrite !firstn_app. replace (Z.to_nat (MAX_LOG_ENTRIES - 1) - List.length ts)%nat
        with 0%nat by lia. reflexivity.
Qed.

Lemma retrieveLogs_log_of (ts : list Z) :
  Forall int16_range ts ->
  (List.length ts <= Z.to_nat (MAX_LOG_ENTRIES - 1))%nat ->
  retrieveLogs (log_of ts) = combine (map Z.of_nat (seq 0 (List.length ts))) ts.
Proof.
  pose proof MAX_LOG_ENTRIES_1_nat as HN. intros Hts Hlen.
  unfold retrieveLogs. rewrite retrieve_from_log_of.
  - rewrite Nat.sub_0_r. reflexivity.
  - exact Hts.
  - lia.
  - split; [lia|]. rewrite MAX_LOG_ENTRIES_val in *. cbn [Nat.add].
    assert (Z.of_nat (Z.to_nat 32768) = 32768) by reflexivity. lia.
Qed.

Lemma retrieveLogs_ext (l l' : log_area) :
  (forall j, l j = l' j) -> retrieveLogs l = retrieveLogs l'.
Proof. intros H. unfold retrieveLogs. apply retrieve_from_ext. exact H. Qed.

Lemma erased_log_of : forall j, erased_log j = log_of [] j.
Proof. intros j. rewrite log_of_ge by (cbn; lia). reflexivity. Qed.

End Logger003Facts2.

Module WdtFacts.
Import DateCodec Logger003.

Lemma configureWDT_cycles (i : Z) :
  In (snd (configureWDT i)) [1; 2; 4; 8].
Proof.
  unfold configureWDT.
  destruct (i =? 300); [cbn; auto|].
  destruct (i =? 600); [cbn; auto|].
  destruct (i =? 1800); [cbn; auto|].
  destruct (i =? 3600); cbn; auto.
Qed.

Lemma land_shiftl16_low (x : Z) : Z.land (Z.shiftl x 16) 0xFF = 0.
Proof.
  apply Z.bits_inj'. intros n Hn. rewrite Z.land_spec, Z.bits_0.
  destruct (Z.lt_ge_cases n 16).
  - rewrite Z.shiftl_spec_low by lia. reflexivity.
  - change 0xFF with (Z.ones 8). rewrite Z.ones_spec_high by lia. apply andb_false_r.
Qed.

Lemma land_byte (c : Z) : 0 <= c < 256 -> Z.land c 0xFF = c.
Proof.
  intros Hc. change 0xFF with (Z.ones 8). rewrite Z.land_ones by lia.
  apply Z.mod_small. exact Hc.
Qed.

Lemma save_word_low (c x : Z) :
  0 <= c < 256 -> Z.land (Z.lor (u16 c) (Z.shiftl x 16)) 0xFF = c.
Proof.
  intros Hc. rewrite Z.land_lor_distr_l, land_shiftl16_low, Z.lor_0_r.
  unfold u16. rewrite Z.mod_small by lia. apply land_byte. exact Hc.
Qed.

Lemma save_cycles_low (w i h : Z) :
  Z.land (saveRequiredWdtCycles w (snd (configureWDT i)) h) 0xFF
  = Z.land (Z.land w 0xFF) (snd (configureWDT i)).
Proof.
  unfold saveRequiredWdtCycles.
  assert (Hc : 0 <= snd (configureWDT i) < 256).
  { destruct (configureWDT_cycles i) as [E|[E|[E|[E|[]]]]]; rewrite <- E; lia. }
  revert Hc. generalize (snd (configureWDT i)) as c. intros c Hc.
  rewrite <- Z.land_assoc, save_word_low by exact Hc.
  rewrite <- Z.land_assoc, (Z.land_comm 0xFF c), land_byte by exact Hc.
  reflexivity.
Qed.

Lemma loadRequiredWdtCycles_byte (w : Z) : loadRequiredWdtCycles w = Z.land w 0xFF.
Proof.
  unfold loadRequiredWdtCycles.
  change 0xFF with (Z.ones 8). rewrite Z.land_ones by lia.
  pose proof (Z.mod_pos_bound w (2 ^ 8)).
  destruct (Z.eqb_spec (w mod 2 ^ 8) 0xFFFF); [lia|reflexivity].
Qed.

Lemma configure_sessions_low (sessions : list (Z * Z)) : forall w,
  Z.land (configure_sessions w sessions) 0xFF
  = fold_left (fun c '(interval, _) => Z.land c (snd (configureWDT interval)))
              sessions (Z.land w 0xFF).
Proof.
  unfold configure_sessions.
  induction sessions as [|[i h] sessions IH]; intros w; cbn [fold_left]; [reflexivity|].
  rewrite IH, save_cycles_low. reflexivity.
Qed.

Lemma configure_sessions_load (sessions : list (Z * Z)) :
  loadRequiredWdtCycles (configure_sessions 0xFFFFFFFF sessions)
  = fold_left (fun c '(interval, _) => Z.land c (snd (configureWDT interval)))
              sessions 0xFF.
Proof.
  rewrite loadRequiredWdtCycles_byte, configure_sessions_low. reflexivity.
Qed.

(** The handler's decisions from a cycle count [g] below the period. *)
Lemma wdt_irqs_from (word : Z) (n : nat) : forall g,
  0 <= g < Z.max 1 (Z.land word 0xFF) ->
  forall k, (k < n)%nat ->
  nth k (wdt_irqs word g n) false
  = ((g + Z.of_nat (S k)) mod Z.max 1 (Z.land word 0xFF) =? 0).
Proof.
  set (M := Z.max 1 (Z.land word 0xFF)).
  assert (Hc : 0 <= Z.land word 0xFF < 256).
  { change 0xFF with (Z.ones 8). rewrite Z.land_ones by lia.
    apply Z.mod_pos_bound. lia. }
  assert (HM : 1 <= M <= 255) by (unfold M; lia).
  induction n as [|n IH]; intros g Hg k Hk; [lia|].
  cbn [wdt_irqs]. unfold wdt_irq at 1.
  rewrite loadRequiredWdtCycles_byte.
  assert (Hu : u8 (g + 1) = g + 1) by (unfold u8; apply Z.mod_small; lia).
  rewrite Hu.
  destruct (Z.leb_spec (Z.land word 0xFF) (g + 1)) as [Hw|Hw]; cbv beta iota.
  - assert (Eg : g + 1 = M) by (unfold M in *; lia).
    destruct k as [|k].
    + cbn [nth]. replace (g + Z.of_nat 1) with M by lia. rewrite Z.mod_same by lia. reflexivity.
    + cbn [nth]. rewrite IH by lia.
      replace (g + Z.of_nat (S (S k))) with (Z.of_nat (S k) + 1 * M) by lia.
      rewrite Z.mod_add by lia. rewrite Z.add_0_l. reflexivity.
  - assert (Eg : g + 1 < M) by (unfold M in *; lia).
    destruct k as [|k].
    + cbn [nth]. replace (g + Z.of_nat 1) with (g + 1) by lia. rewrite Z.mod_small by lia.
      symmetry. apply Z.eqb_neq. lia.
    + cbn [nth]. rewrite IH by lia. f_equal. f_equal. lia.
Qed.

End WdtFacts.

Module Logger003Props2.
Import DateCodec Logger003 LogAreaFacts Logger003Facts2 WdtFacts.

(** One watchdog wake-up of [part_003] on a log area holding the entries
    [0 .. n - 1] (temperatures [ts]) and erased after them: if [n] is below
    [MAX_LOG_ENTRIES - 1], it reports a new entry, stays in [LOGGING] and
    writes entry [n] with the new temperature to slot [n], leaving every other
    slot as it was; if [n] is [MAX_LOG_ENTRIES - 1] it reports that the flash
    is full, switches to [RETRIEVAL] and leaves the log area unchanged. *)
Theorem wdt_wake_appends (ts : list Z) (t : Z) :
  Forall int16_range ts -> int16_range t ->
  Z.of_nat (List.length ts) <= MAX_LOG_ENTRIES - 1 ->
  (Z.of_nat (List.length ts) < MAX_LOG_ENTRIES - 1 ->
     fst (wdt_wake (log_of ts) t) = ["[INFO] New log entry recorded."%string]
     /\ current_mode (snd (wdt_wake (log_of ts) t)) = LOGGING
     /\ forall j, log (snd (wdt_wake (log_of ts) t)) j = log_of (ts ++ [t]) j)
  /\ (Z.of_nat (List.length ts) = MAX_LOG_ENTRIES - 1 ->
     fst (wdt_wake (log_of ts) t) = ["[ERROR] Flash is full. Logging halted."%string]
     /\ current_mode (snd (wdt_wake (log_of ts) t)) = RETRIEVAL
     /\ log (snd (wdt_wake (log_of ts) t)) = log_of ts).
Proof. exact (wdt_wake_log_of ts t). Qed.

Lemma wdt_wake_appends_witness :
  (Forall int16_range [2150; -512] /\ int16_range 1999
   /\ Z.of_nat (List.length [2150; -512]) <= MAX_LOG_ENTRIES - 1)
  /\ fst (wdt_wake (log_of [2150; -512]) 1999) = ["[INFO] New log entry recorded."%string].
Proof.
  assert (H : Forall int16_range [2150; -512] /\ int16_range 1999
              /\ Z.of_nat (List.length [2150; -512]) <= MAX_LOG_ENTRIES - 1).
  { unfold int16_range. split; [repeat constructor; lia|]. split; [lia|].
    rewrite MAX_LOG_ENTRIES_val. cbn. lia. }
  split; [exact H|].
  destruct H as [H1 [H2 H3]].
  apply (proj1 (wdt_wake_appends [2150; -512] 1999 H1 H2 H3)).
  rewrite MAX_LOG_ENTRIES_val. cbn. lia.
Defined.

(** From an erased log area (as [eraseFlashLogs] leaves it), a sequence of
    watchdog wake-ups with [int16_t] temperatures [temps] is read back by
    [retrieveLogs] as the pairs [(i, temps[i])] for the first
    [MAX_LOG_ENTRIES - 1] readings, in order; readings after those are
    dropped. *)
Theorem wdt_wakes_retrieveLogs (temps : list Z) :
  Forall int16_range temps ->
  retrieveLogs (wdt_wakes erased_log temps)
  = let kept := firstn (Z.to_nat (MAX_LOG_ENTRIES - 1)) temps in
    combine (map Z.of_nat (seq 0 (List.length kept))) kept.
Proof.
  intros Ht. cbv zeta.
  rewrite (retrieveLogs_ext _ (log_of (firstn (Z.to_nat (MAX_LOG_ENTRIES - 1)) temps))).
  - apply retrieveLogs_log_of.
    + apply Forall_firstn_Z. exact Ht.
    + apply firstn_le_length.
  - intros j. rewrite (wdt_wakes_ext temps _ _ erased_log_of j).
    rewrite wdt_wakes_log_of by (auto; apply Nat.le_0_l). reflexivity.
Qed.

Lemma wdt_wakes_retrieveLogs_witness :
  Forall int16_range [2150; -512; 1999]
  /\ retrieveLogs (wdt_wakes erased_log [2150; -512; 1999])
     = let kept := firstn (Z.to_nat (MAX_LOG_ENTRIES - 1)) [2150; -512; 1999] in
       combine (map Z.of_nat (seq 0 (List.length kept))) kept.
Proof.
  assert (H : Forall int16_range [2150; -512; 1999])
    by (unfold int16_range; repeat constructor; lia).
  split; [exact H|]. apply (wdt_wakes_retrieveLogs _ H).
Defined.

(** The byte [loadRequiredWdtCycles] reads is never compared successfully
    with [0xFFFF], so its default is never used; since the program never
    erases that word and each [configureWDT] programs its cycle count there,
    the loaded value after a series of [configureWDT] calls on the erased
    word is [0xFF] AND-ed with every cycle count written. *)
Theorem loadRequiredWdtCycles_after_sessions (sessions : list (Z * Z)) :
  loadRequiredWdtCycles (configure_sessions 0xFFFFFFFF sessions)
  = fold_left (fun c '(interval, _) => Z.land c (snd (configureWDT interval)))
              sessions 0xFF.
Proof. exact (configure_sessions_load sessions). Qed.

(** With [GPREGRET] starting at 0, the watchdog handler takes its wake-up
    branch on the [k]-th timeout ([k >= 1]) exactly when [k] is a multiple of
    the loaded cycle count, or on every timeout when that count is 0. *)
Theorem wdt_irqs_period (word : Z) (n k : nat) :
  (k < n)%nat ->
  nth k (wdt_irqs word 0 n) false
  = (Z.of_nat (S k) mod Z.max 1 (loadRequiredWdtCycles word) =? 0).
Proof.
  intros Hk. rewrite loadRequiredWdtCycles_byte.
  rewrite wdt_irqs_from by (first [exact Hk | split; [lia|];
    assert (0 <= Z.land word 0xFF) by (apply Z.land_nonneg; lia); lia]).
  reflexivity.
Qed.

Lemma wdt_irqs_period_witness :
  (5 < 6)%nat /\
  nth 5 (wdt_irqs 0xFFFFFF02 0 6) false
  = (Z.of_nat 6 mod Z.max 1 (loadRequiredWdtCycles 0xFFFFFF02) =? 0).
Proof. split; [lia|]. apply (wdt_irqs_period 0xFFFFFF02 6 5). lia. Defined.

(** On a cycles word that was erased before it, one [configureWDT] call for
    the wake-up interval [i] makes the handler wake on the [k]-th timeout
    exactly when [k] timeouts of [wdt_timeout_seconds] are a multiple of
    [wdt_timeout_seconds * required_wdt_cycles] seconds, which is [i] for
    300, 600, 1800 and 3600 and 300 for any other interval; [CRV] is
    [wdt_timeout_seconds * 32768 - 1]. *)
Theorem configureWDT_wake_period (i h : Z) (n k : nat) :
  (k < n)%nat ->
  let '(t, c) := configureWDT i in
  nth k (wdt_irqs (configure_sessions 0xFFFFFFFF [(i, h)]) 0 n) false
    = ((Z.of_nat (S k) * t) mod (t * c) =? 0)
  /\ wdt_crv t = t * 32768 - 1
  /\ t * c = (if (i =? 300) || (i =? 600) || (i =? 1800) || (i =? 3600) then i else 300).
Proof.
  intros Hk.
  assert (Hw : Z.land (configure_sessions 0xFFFFFFFF [(i, h)]) 0xFF = snd (configureWDT i)).
  { rewrite configure_sessions_low. cbn [fold_left].
    destruct (configureWDT_cycles i) as [E|[E|[E|[E|[]]]]]; rewrite <- E; reflexivity. }
  pose proof (configureWDT_cycles i) as Hc.
  rewrite wdt_irqs_from.
  2:{ split; [lia|]. rewrite Hw.
      destruct Hc as [E|[E|[E|[E|[]]]]]; rewrite <- E; lia. }
  2:{ exact Hk. }
  rewrite Hw, Z.add_0_l.
  assert (Hcases :
    ((fst (configureWDT i) = 300 /\ snd (configureWDT i) = 1)
     \/ (fst (configureWDT i) = 300 /\ snd (configureWDT i) = 2)
     \/ (fst (configureWDT i) = 450 /\ snd (configureWDT i) = 4)
     \/ (fst (configureWDT i) = 450 /\ snd (configureWDT i) = 8))
    /\ fst (configureWDT i) * snd (configureWDT i)
       = (if (i =? 300) || (i =? 600) || (i =? 1800) || (i =? 3600) then i else 300)).
  { unfold configureWDT.
    destruct (Z.eqb_spec i 300) as [->|N1]; [cbn; split; [auto|reflexivity]|].
    destruct (Z.eqb_spec i 600) as [->|N2]; [cbn; split; [auto|reflexivity]|].
    destruct (Z.eqb_spec i 1800) as [->|N3]; [cbn; split; [auto|reflexivity]|].
    destruct (Z.eqb_spec i 3600) as [->|N4]; [cbn; split; [auto|reflexivity]|].
    cbn [fst snd]. split; [auto|reflexivity]. }
  destruct (configureWDT i) as [t c]. cbn [fst snd] in *.
  destruct Hcases as [Htc Hprod].
  assert (Ht : 300 <= t <= 450 /\ 1 <= c <= 8) by lia.
  split; [|split].
  - rewrite Z.max_r by lia. rewrite (Z.mul_comm t c), Z.mul_mod_distr_r by lia.
    destruct (Z.eqb_spec (Z.of_nat (S k) mod c) 0) as [E|E].
    + rewrite E. reflexivity.
    + symmetry. apply Z.eqb_neq. pose proof (Z.mod_pos_bound (Z.of_nat (S k)) c). nia.
  - unfold wdt_crv, u32. apply Z.mod_small. lia.
  - exact Hprod.
Qed.

Lemma configureWDT_wake_period_witness :
  (3 < 4)%nat /\
  (let '(t, c) := configureWDT 600 in
   nth 3 (wdt_irqs (configure_sessions 0xFFFFFFFF [(600, 0)]) 0 4) false
     = ((Z.of_nat 4 * t) mod (t * c) =? 0)
   /\ wdt_crv t = t * 32768 - 1
   /\ t * c = (if (600 =? 300) || (600 =? 600) || (600 =? 1800) || (600 =? 3600)
               then 600 else 300)).
Proof. split; [lia|]. apply (configureWDT_wake_period 600 0 4 3). lia. Defined.

(** On the erased page that [eraseFlashLogs] leaves, [loadWakeupInterval]
    after [saveWakeupInterval v] returns [v] (as a [uint16_t]), except that
    [0xFFFF] reads back as the default 60; [loadPersonalID] after
    [savePersonalID v] returns [v], except that [0xFFFF] reads back as 0.
    The two stack bytes copied after the parameter make no difference. *)
Theorem load_after_save_erased (v stack_hi : Z) :
  loadWakeupInterval (saveHalfWord 0xFFFFFFFF v stack_hi)
    = (if u16 v =? 0xFFFF then 60 else u16 v)
  /\ loadPersonalID (saveHalfWord 0xFFFFFFFF v stack_hi)
    = (if u16 v =? 0xFFFF then 0 else u16 v).
Proof.
  assert (H : Z.land (saveHalfWord 0xFFFFFFFF v stack_hi) 0xFFFF = u16 v).
  { unfold saveHalfWord.
    assert (Hv : 0 <= u16 v < 2 ^ 16) by (unfold u16; apply Z.mod_pos_bound; lia).
    assert (Hh : 0 <= u16 stack_hi < 2 ^ 16) by (unfold u16; apply Z.mod_pos_bound; lia).
    rewrite lor_shiftl16 by lia.
    rewrite (Z.land_comm 0xFFFFFFFF). change 0xFFFFFFFF with (Z.ones 32).
    rewrite Z.land_ones by lia. rewrite Z.mod_small by lia.
    change 0xFFFF with (Z.ones 16). rewrite Z.land_ones by lia.
    rewrite Z.mod_add by lia. apply Z.mod_small. exact Hv. }
  unfold loadWakeupInterval, loadPersonalID. rewrite H. split; reflexivity.
Qed.

End Logger003Props2.

Module NewFwFacts.
Import F32 Boot NewFw.

Lemma page_align (k : Z) :
  0 <= k -> k mod 512 = 0 ->
  Z.land (DATA_START_ADDRESS + k * sizeof_TemperatureData) (Z.lnot (FLASH_PAGE_SIZE - 1))
  = DATA_START_ADDRESS + k * sizeof_TemperatureData.
Proof.
  intros Hk Hm. unfold DATA_START_ADDRESS, sizeof_TemperatureData, FLASH_PAGE_SIZE.
  change (4096 - 1) with (Z.ones 12). rewrite <- Z.ldiff_land.
  rewrite Z.ldiff_ones_r by lia. rewrite Z.shiftl_mul_pow2, Z.shiftr_div_pow2 by lia.
  pose proof (Z.div_mod k 512 ltac:(lia)) as Hd. rewrite Hm in Hd.
  replace ((0x81000 + k * 8) / 2 ^ 12) with (0x81 + k / 512).
  - lia.
  - apply (Z.div_unique _ _ _ 0); lia.
Qed.

Lemma erased_frontier_step (k : Z) :
  0 <= k ->
  erased_frontier (k + 1) = (if k mod 512 =? 0 then k + 512 else erased_frontier k).
Proof.
  intros Hk. unfold erased_frontier.
  destruct (Z.eqb_spec (k mod 512) 0) as [E|E].
  - pose proof (Z.div_mod k 512 ltac:(lia)) as Hd. rewrite E in Hd.
    assert (H : k / 512 + 1 = (k + 1 + 511) / 512) by (apply (Z.div_unique _ _ _ 0); lia).
    lia.
  - f_equal. pose proof (Z.div_mod k 512 ltac:(lia)) as Hd.
    pose proof (Z.mod_pos_bound k 512 ltac:(lia)).
    rewrite <- (Z.div_unique (k + 1 + 511) 512 (k / 512 + 1) (k mod 512 + 0)) by lia.
    rewrite <- (Z.div_unique (k + 511) 512 (k / 512 + 1) (k mod 512 - 1)) by lia.
    reflexivity.
Qed.

Lemma frontier_above (k : Z) :
  0 <= k -> k mod 512 <> 0 -> k < erased_frontier k.
Proof.
  intros Hk E. unfold erased_frontier.
  pose proof (Z.div_mod k 512 ltac:(lia)) as Hd.
  pose proof (Z.mod_pos_bound k 512 ltac:(lia)).
  rewrite <- (Z.div_unique (k + 511) 512 (k / 512 + 1) (k mod 512 - 1)) by lia. lia.
Qed.

Lemma frontier_le (k : Z) : 0 <= k -> k <= erased_frontier k.
Proof.
  intros Hk. unfold erased_frontier.
  destruct (Z.eq_dec (k mod 512) 0) as [E|E].
  - pose proof (Z.div_mod k 512 ltac:(lia)) as Hd.
    rewrite <- (Z.div_unique (k + 511) 512 (k / 512) 511) by lia. lia.
  - pose proof (Z.div_mod k 512 ltac:(lia)) as Hd.
    pose proof (Z.mod_pos_bound k 512 ltac:(lia)).
    rewrite <- (Z.div_unique (k + 511) 512 (k / 512 + 1) (k mod 512 - 1)) by lia. lia.
Qed.

(** One reading below capacity, all flash calls succeeding. *)
Lemma ring_save_step (st : device) (ws : list f32) (t : f32) :
  ring_inv st ws -> (List.length ws < 1000)%nat ->
  exists st', saveTemperatureReading all_ok st t = (true, st')
    /\ ring_inv st' (ws ++ [t])
    /\ currentMode st' = currentMode st
    /\ n_initialTimestamp (config st') = n_initialTimestamp (config st)
    /\ n_wakeupInterval (config st') = n_wakeupInterval (config st)
    /\ n_personalId (config st') = n_personalId (config st).
Proof.
  intros [Hidx [Hw He]] Hlen.
  set (k := List.length ws) in *.
  unfold saveTemperatureReading. cbv zeta. rewrite Hidx.
  assert (Hmod : Z.of_nat k mod MAX_DATA_ENTRIES = Z.of_nat k)
    by (unfold MAX_DATA_ENTRIES; apply Z.mod_small; lia).
  rewrite Hmod.
  assert (Hu : u32 (DATA_START_ADDRESS + Z.of_nat k * sizeof_TemperatureData)
               = DATA_START_ADDRESS + Z.of_nat k * sizeof_TemperatureData)
    by (unfold u32, DATA_START_ADDRESS, sizeof_TemperatureData; apply Z.mod_small; lia).
  rewrite Hu.
  assert (Hslot : Z.to_nat ((DATA_START_ADDRESS + Z.of_nat k * sizeof_TemperatureData
                             - DATA_START_ADDRESS) / sizeof_TemperatureData) = k).
  { unfold sizeof_TemperatureData.
    replace (DATA_START_ADDRESS + Z.of_nat k * 8 - DATA_START_ADDRESS)
      with (Z.of_nat k * 8) by ring.
    rewrite Z.div_mul by lia. apply Nat2Z.id. }
  rewrite Hslot.
  change (FLASH_PAGE_SIZE / sizeof_TemperatureData) with 512.
  assert (Hfr := erased_frontier_step (Z.of_nat k) ltac:(lia)).
  (* the region before the program step *)
  set (r1 := if Z.of_nat k mod 512 =? 0
             then erase_page (data st) (DATA_START_ADDRESS + Z.of_nat k * sizeof_TemperatureData)
             else data st).
  assert (Hstep : (if Z.of_nat k mod 512 =? 0 then
                     if negb (data_erase_ok all_ok) then None
                     else Some (erase_page (data st)
                                  (Z.land (DATA_START_ADDRESS + Z.of_nat k * sizeof_TemperatureData)
                                          (Z.lnot (FLASH_PAGE_SIZE - 1))))
                   else Some (data st)) = Some r1).
  { unfold r1. destruct (Z.eqb_spec (Z.of_nat k mod 512) 0) as [E|E]; [|reflexivity].
    rewrite page_align by lia. reflexivity. }
  rewrite Hstep. cbn [negb data_program_ok all_ok].
  assert (Hr1_lt : forall j, (j < k)%nat -> r1 j = data st j).
  { intros j Hj. unfold r1. destruct (Z.of_nat k mod 512 =? 0); [|reflexivity].
    unfold erase_page, slot_address, DATA_START_ADDRESS, sizeof_TemperatureData.
    destruct (Z.leb_spec (0x81000 + Z.of_nat k * 8) (0x81000 + Z.of_nat j * 8)); [lia|].
    reflexivity. }
  assert (Hr1_ge : forall j, (k <= j)%nat ->
             Z.of_nat j < erased_frontier (Z.of_nat (k + 1)) -> r1 j = Erased).
  { intros j Hj Hf. rewrite Nat2Z.inj_add in Hf. cbn [Z.of_nat Pos.of_succ_nat] in Hf.
    rewrite Hfr in Hf. unfold r1.
    destruct (Z.eqb_spec (Z.of_nat k mod 512) 0) as [E|E].
    - unfold erase_page, slot_address, DATA_START_ADDRESS, sizeof_TemperatureData,
        FLASH_PAGE_SIZE.
      destruct (Z.leb_spec (0x81000 + Z.of_nat k * 8) (0x81000 + Z.of_nat j * 8)); [|lia].
      destruct (Z.ltb_spec (0x81000 + Z.of_nat j * 8) (0x81000 + Z.of_nat k * 8 + 4096));
        [reflexivity|lia].
    - apply He; lia. }
  eexists. split; [reflexivity|].
  unfold ring_inv.
  cbn [saveConfig cfg_erase_ok cfg_program_ok all_ok negb with_page with_config
       with_data config data currentMode config_page set_magic set_mode set_index
       n_currentDataIndex n_initialTimestamp n_wakeupInterval n_personalId].
  split; [|repeat split; reflexivity].
  split; [|split].
  - rewrite length_app. cbn [List.length]. unfold u32. rewrite Z.mod_small by lia. unfold k. lia.
  - intros j t' Hj. unfold program_slot.
    destruct (Nat.eqb_spec j k) as [->|Hne].
    + rewrite (Hr1_ge k (le_n _)) by (rewrite Nat2Z.inj_add; change (Z.of_nat 1) with 1; rewrite Hfr;
        destruct (Z.eqb_spec (Z.of_nat k mod 512) 0) as [E0|E0];
        [lia|pose proof (frontier_above (Z.of_nat k) ltac:(lia) E0); lia]).
      rewrite nth_error_app2 in Hj by lia. rewrite Nat.sub_diag in Hj.
      cbn in Hj. injection Hj as <-. reflexivity.
    + destruct (Nat.lt_ge_cases j k) as [Hl|Hl].
      * rewrite nth_error_app1 in Hj by lia. rewrite Hr1_lt by lia. apply Hw. exact Hj.
      * exfalso. rewrite nth_error_app2 in Hj by lia.
        unfold k in *. destruct (j - List.length ws)%nat as [|n] eqn:Ejk; [lia|]. cbn in Hj.
        destruct n; cbn in Hj; congruence.
  - intros j Hj Hf. rewrite length_app in Hj, Hf. cbn [List.length] in Hj, Hf.
    unfold program_slot. destruct (Nat.eqb_spec j k) as [->|Hne]; [lia|].
    apply Hr1_ge; [lia|]. exact Hf.
Qed.

Lemma save_all_ok (ts : list f32) : forall st ws,
  ring_inv st ws -> (List.length ws + List.length ts <= 1000)%nat ->
  exists st', save_all st (map (fun t => (all_ok, t)) ts) = (repeat true (List.length ts), st')
    /\ ring_inv st' (ws ++ ts)
    /\ currentMode st' = currentMode st
    /\ n_initialTimestamp (config st') = n_initialTimestamp (config st)
    /\ n_wakeupInterval (config st') = n_wakeupInterval (config st)
    /\ n_personalId (config st') = n_personalId (config st).
Proof.
  induction ts as [|t ts IH]; intros st ws Hinv Hlen.
  - exists st. rewrite app_nil_r. split; [reflexivity|]. split; [exact Hinv|]. auto.
  - cbn [List.length] in Hlen.
    destruct (ring_save_step st ws t Hinv ltac:(lia)) as [st1 [Hs [Hinv1 [Hm1 [Ht1 [Hw1 Hp1]]]]]].
    destruct (IH st1 (ws ++ [t]) Hinv1 ltac:(rewrite length_app; cbn; lia))
      as [st2 [Hs2 [Hinv2 [Hm2 [Ht2 [Hw2 Hp2]]]]]].
    exists st2. cbn [map save_all]. rewrite Hs, Hs2. split; [reflexivity|].
    rewrite <- app_assoc in Hinv2. split; [exact Hinv2|].
    repeat split; congruence.
Qed.

Lemma map_seq_combine {A B : Type} (f : nat -> B) (g : nat -> A -> B) (ts : list A) :
  forall k, (forall j t, nth_error ts j = Some t -> f (k + j)%nat = g (k + j)%nat t) ->
  map f (seq k (List.length ts)) = map (fun p => g (fst p) (snd p)) (combine (seq k (List.length ts)) ts).
Proof.
  induction ts as [|t ts IH]; intros k H; [reflexivity|].
  cbn [List.length seq map combine]. f_equal.
  - specialize (H 0%nat t eq_refl). rewrite Nat.add_0_r in H. exact H.
  - apply IH. intros j t' Hj. replace (S k + j)%nat with (k + S j)%nat by lia.
    apply H. exact Hj.
Qed.

Lemma save_all_app (st : device) (xs ys : list (flash_ops * f32)) :
  save_all st (xs ++ ys) =
  let '(a, st1) := save_all st xs in
  let '(b, st2) := save_all st1 ys in (a ++ b, st2).
Proof.
  revert st. induction xs as [|[ops t] xs IH]; intro st; cbn.
  - destruct (save_all st ys). reflexivity.
  - destruct (saveTemperatureReading ops st t) as [ok st1].
    rewrite IH. destruct (save_all st1 xs) as [a st2].
    destruct (save_all st2 ys) as [b st3]. reflexivity.
Qed.

End NewFwFacts.

Module NewFwProps.
Import F32 Boot NewFw NewFwFacts.

(** Starting from index 0, whatever the data slots held, [n <= 1000]
    readings saved with every flash call succeeding all return [true] and
    leave [currentDataIndex = n].  A retrieve request then answers
    [RESP:ERROR;NO_DATA] when [n = 0], and otherwise prints
    [RESP:OK;SENDING_DATA], the stored timestamp, interval and ID,
    [Total Readings:n], [DATA:BEGIN;], the [n] records [(i, t_i)] in the
    order saved, and [DATA:END;]. *)
Theorem ring_readback (st0 : device) (ts : list f32) :
  n_currentDataIndex (config st0) = 0 ->
  (List.length ts <= 1000)%nat ->
  exists st, save_all st0 (map (fun t => (all_ok, t)) ts) = (repeat true (List.length ts), st)
    /\ n_currentDataIndex (config st) = Z.of_nat (List.length ts)
    /\ fst (handleRetrieveRequest all_ok all_ok st) =
       (if (List.length ts =? 0)%nat
        then [sendResponse "RESP:" "ERROR" (Some "NO_DATA"%string)]
        else sendResponse "RESP:" "OK" (Some "SENDING_DATA"%string)
          :: [Number "Initial Timestamp:" (n_initialTimestamp (config st0));
              Number "Wake-up Interval:" (n_wakeupInterval (config st0));
              Str "Personal ID:" (Config.cstr (n_personalId (config st0)));
              Number "Total Readings:" (Z.of_nat (List.length ts));
              sendResponse "DATA:" "BEGIN" None]
          ++ map (fun p => DataRow (Written (Z.of_nat (fst p)) (snd p)))
                 (combine (seq 0 (List.length ts)) ts)
          ++ [sendResponse "DATA:" "END" None]).
Proof.
  intros H0 Hlen.
  assert (Hinv0 : ring_inv st0 []).
  { split; [exact H0|]. split.
    - intros j t Hj. destruct j; discriminate.
    - intros j _ Hj. unfold erased_frontier in Hj. cbn in Hj. lia. }
  destruct (save_all_ok ts st0 [] Hinv0 ltac:(cbn; lia))
    as [st [Hs [[Hi [Hw _]] [_ [Ht [Hv Hp]]]]]].
  cbn [app] in Hi, Hw. exists st. split; [exact Hs|]. split; [exact Hi|].
  unfold handleRetrieveRequest. rewrite Hi.
  destruct (Nat.eqb_spec (List.length ts) 0) as [E|E].
  - replace (Z.of_nat (List.length ts) =? 0) with true by lia. reflexivity.
  - replace (Z.of_nat (List.length ts) =? 0) with false by lia.
    unfold saveConfig at 1. cbn -[sendDataToHost].
    unfold sendDataToHost. cbn [config with_page with_config with_mode set_magic set_mode
      n_currentDataIndex n_initialTimestamp n_wakeupInterval n_personalId data].
    rewrite Hi. replace (Z.of_nat (List.length ts) =? 0) with false by lia.
    rewrite Z.min_l by (unfold MAX_DATA_ENTRIES; lia). rewrite Nat2Z.id.
    cbn [fst]. rewrite Ht, Hv, Hp. cbn [app]. do 6 f_equal. f_equal.
    apply (map_seq_combine (fun i => DataRow (data st i))
             (fun i t => DataRow (Written (Z.of_nat i) t)) ts 0).
    intros j t Hj. cbn [Nat.add]. rewrite (Hw j t Hj). reflexivity.
Qed.

Lemma ring_readback_witness :
  exists st, save_all power_on_device (map (fun t => (all_ok, t)) [of_int 20; of_int 21])
               = ([true; true], st)
    /\ n_currentDataIndex (config st) = 2
    /\ fst (handleRetrieveRequest all_ok all_ok st) =
       [sendResponse "RESP:" "OK" (Some "SENDING_DATA"%string);
        Number "Initial Timestamp:" 0;
        Number "Wake-up Interval:" 300;
        Str "Personal ID:" (Config.cstr (Config.char16 "DEFAULT_ID"));
        Number "Total Readings:" 2;
        sendResponse "DATA:" "BEGIN" None;
        DataRow (Written 0 (of_int 20)); DataRow (Written 1 (of_int 21));
        sendResponse "DATA:" "END" None].
Proof.
  apply (ring_readback power_on_device [of_int 20; of_int 21]); [reflexivity|].
  apply Nat.leb_le. vm_compute. reflexivity.
Defined.

(** The ring does not erase before it wraps: from index 0 with every flash
    call succeeding, the 1001st reading goes to slot 0 ([1000 mod 1000]),
    whose page is not erased because [1000] is not a multiple of 512.  It is
    programmed over the first record, and all 1001 saves report success.
    The index becomes 1001; slot 0 holds the bitwise AND of the first record
    [(0, t_0)] and the new record [(1000, t)]; slots 1 to 999 keep their
    readings. *)
Theorem ring_wrap_overwrites (st0 : device) (ts : list f32) (t : f32) :
  n_currentDataIndex (config st0) = 0 ->
  List.length ts = 1000%nat ->
  exists st, save_all st0 (map (fun t => (all_ok, t)) (ts ++ [t])) = (repeat true 1001, st)
    /\ n_currentDataIndex (config st) = 1001
    /\ data st 0%nat = Programmed (Written 0 (hd (of_int 0) ts)) 1000 t
    /\ (forall j u, (1 <= j)%nat -> nth_error ts j = Some u ->
          data st j = Written (Z.of_nat j) u).
Proof.
  intros H0 Hlen.
  assert (Hinv0 : ring_inv st0 []).
  { split; [exact H0|]. split.
    - intros j u Hj. destruct j; discriminate.
    - intros j _ Hj. unfold erased_frontier in Hj. cbn in Hj. lia. }
  destruct (save_all_ok ts st0 [] Hinv0 ltac:(cbn; lia))
    as [st [Hs [[Hi [Hw _]] _]]].
  cbn [app] in Hi, Hw. rewrite Hlen in Hi, Hs.
  destruct ts as [|t0 ts'] eqn:Ets; [discriminate|].
  rewrite <- Ets in *.
  assert (Hw0 : data st 0%nat = Written 0 t0) by (apply (Hw 0%nat t0); subst; reflexivity).
  rewrite map_app, save_all_app, Hs. cbn [map save_all].
  unfold saveTemperatureReading at 1. rewrite Hi.
  change (Z.of_nat 1000) with 1000.
  cbn -[program_slot u32].
  exists (with_page
       (with_config
          (with_config
             (with_data st (program_slot true (data st) 0 1000 t))
             (set_index (config st) 1001))
          (set_magic (set_mode (set_index (config st) 1001) (currentMode st)) 0xABCD1234))
       (Some (set_magic (set_mode (set_index (config st) 1001) (currentMode st)) 0xABCD1234))).
  split; [reflexivity|]. split; [reflexivity|]. split.
  - cbn. rewrite Hw0, Ets. reflexivity.
  - intros j u Hj Hu. cbn. destruct j as [|j]; [lia|]. apply Hw. exact Hu.
Qed.

Lemma ring_wrap_overwrites_witness :
  exists st, save_all power_on_device
               (map (fun t => (all_ok, t)) (repeat (of_int 20) 1000 ++ [of_int 21]))
               = (repeat true 1001, st)
    /\ n_currentDataIndex (config st) = 1001
    /\ data st 0%nat = Programmed (Written 0 (of_int 20)) 1000 (of_int 21)
    /\ (forall j u, (1 <= j)%nat -> nth_error (repeat (of_int 20) 1000) j = Some u ->
          data st j = Written (Z.of_nat j) u).
Proof.
  apply (ring_wrap_overwrites power_on_device (repeat (of_int 20) 1000) (of_int 21));
    [reflexivity|].
  apply repeat_length.
Defined.

End NewFwProps.

Module NewFwSerialFacts.
Import Config Boot NewFw NewFwSerial.

Lemma serial_accumulate (ops : flash_ops) (l : list Z) : forall buf input st,
  Forall not_eol l -> (List.length buf + List.length l <= 127)%nat ->
  processSerialInput ops buf (l ++ input) st = processSerialInput ops (buf ++ l) input st.
Proof.
  induction l as [|c l IH]; intros buf input st Hl Hlen.
  - rewrite app_nil_r. reflexivity.
  - inversion Hl as [|? ? [H10 H13] Hl']; subst.
    cbn [app processSerialInput].
    replace ((c =? 10) || (c =? 13)) with false
      by (symmetry; apply orb_false_iff; split; apply Z.eqb_neq; assumption).
    cbn [List.length] in Hlen.
    replace (List.length buf <? MAX_BUFFER_SIZE - 1)%nat with true
      by (symmetry; apply Nat.ltb_lt; unfold MAX_BUFFER_SIZE; lia).
    rewrite IH by (auto; rewrite length_app; cbn; lia).
    rewrite <- app_assoc. reflexivity.
Qed.

Lemma serial_skip_eol (ops : flash_ops) (e : list Z) : forall rest st,
  Forall (fun c => c = 10 \/ c = 13) e ->
  processSerialInput ops [] (e ++ rest) st = processSerialInput ops [] rest st.
Proof.
  induction e as [|c e IH]; intros rest st He; [reflexivity|].
  inversion He as [|? ? Hc He']; subst.
  cbn [app processSerialInput].
  replace ((c =? 10) || (c =? 13)) with true
    by (destruct Hc as [-> | ->]; reflexivity).
  cbn [List.length Nat.ltb Nat.leb]. apply IH. exact He'.
Qed.

Lemma cstr_no_zero (l : list Z) : Forall (fun c => c <> 0) l -> cstr l = l.
Proof.
  induction l as [|c l IH]; intro H; [reflexivity|].
  inversion H; subst. cbn. replace (c =? 0) with false by (symmetry; apply Z.eqb_neq; auto).
  f_equal. auto.
Qed.

Lemma cstr_app_zero (l r : list Z) : Forall (fun c => c <> 0) l -> cstr (l ++ 0 :: r) = l.
Proof.
  induction l as [|c l IH]; intro H; [reflexivity|].
  inversion H; subst. cbn. replace (c =? 0) with false by (symmetry; apply Z.eqb_neq; auto).
  f_equal. auto.
Qed.

Lemma strchr_split_app (c : Z) (a b : list Z) :
  ~ In c a -> strchr_split c (a ++ c :: b) = Some (a, b).
Proof.
  induction a as [|x a IH]; intro H; cbn.
  - rewrite Z.eqb_refl. reflexivity.
  - replace (x =? c) with false by (symmetry; apply Z.eqb_neq; intro E; apply H; left; auto).
    rewrite IH by (intro; apply H; right; auto). reflexivity.
Qed.

Lemma strchr_split_none (c : Z) (a : list Z) : ~ In c a -> strchr_split c a = None.
Proof.
  induction a as [|x a IH]; intro H; cbn; [reflexivity|].
  replace (x =? c) with false by (symmetry; apply Z.eqb_neq; intro E; apply H; left; auto).
  rewrite IH by (intro; apply H; right; auto). reflexivity.
Qed.

Lemma strtok_app (a b : list Z) :
  a <> [] -> ~ In 44 a -> strtok (a ++ 44 :: b) = Some (a, b).
Proof.
  intros Ha Hn. unfold strtok.
  destruct a as [|x a']; [congruence|].
  cbn [app skip_commas].
  replace (x =? 44) with false by (symmetry; apply Z.eqb_neq; intro E; apply Hn; left; auto).
  change (x :: a' ++ 44 :: b) with ((x :: a') ++ 44 :: b).
  rewrite strchr_split_app by exact Hn. reflexivity.
Qed.

Lemma strtok_last (a : list Z) :
  a <> [] -> ~ In 44 a -> strtok a = Some (a, []).
Proof.
  intros Ha Hn. unfold strtok.
  destruct a as [|x a']; [congruence|].
  cbn [skip_commas].
  replace (x =? 44) with false by (symmetry; apply Z.eqb_neq; intro E; apply Hn; left; auto).
  rewrite strchr_split_none by exact Hn. reflexivity.
Qed.

Lemma numeral_bytes (ds : list Z) :
  Forall digit ds -> Forall (fun c => 48 <= c <= 57) (numeral ds).
Proof.
  intro H. unfold numeral. apply Forall_map.
  eapply Forall_impl; [|exact H]. unfold digit. intros; lia.
Qed.

Lemma numeral_not_in (ds : list Z) (c : Z) :
  Forall digit ds -> (c < 48 \/ 57 < c) -> ~ In c (numeral ds).
Proof.
  intros H Hc Hin. apply numeral_bytes in H. rewrite Forall_forall in H.
  specialize (H c Hin). lia.
Qed.

Lemma numeral_no_zero (ds : list Z) :
  Forall digit ds -> Forall (fun c => c <> 0) (numeral ds).
Proof.
  intro H. apply numeral_bytes in H. eapply Forall_impl; [|exact H]. cbv beta. intros a Ha. lia.
Qed.

Lemma digits_value_numeral (ds : list Z) : forall acc,
  Forall digit ds ->
  digits_value (numeral ds) acc = fold_left (fun a d => a * 10 + d) ds acc.
Proof.
  induction ds as [|d ds IH]; intros acc H; [reflexivity|].
  inversion H as [|? ? Hd Hds]; subst. unfold digit in Hd.
  cbn [numeral map digits_value fold_left].
  replace (isdigit (48 + d)) with true
    by (symmetry; unfold isdigit; apply andb_true_iff; split; apply Z.leb_le; lia).
  replace (48 + d - 48) with d by lia.
  apply IH. exact Hds.
Qed.

Lemma fold_decimal_nonneg (ds : list Z) : forall acc,
  Forall digit ds -> 0 <= acc -> 0 <= fold_left (fun a d => a * 10 + d) ds acc.
Proof.
  induction ds as [|d ds IH]; intros acc H Ha; [exact Ha|].
  inversion H as [|? ? Hd Hds]; subst. unfold digit in Hd.
  cbn [fold_left]. apply IH; [exact Hds|lia].
Qed.

Lemma strtoul_numeral (ds : list Z) :
  Forall digit ds -> decimal ds <= ULONG_MAX -> strtoul (numeral ds) = decimal ds.
Proof.
  intros H Hle. unfold strtoul.
  assert (Hv : digits_value (numeral ds) 0 = decimal ds)
    by (unfold decimal; apply digits_value_numeral; exact H).
  destruct ds as [|d ds'] eqn:E.
  - cbn. reflexivity.
  - rewrite <- E in *.
    assert (Hd : 0 <= d <= 9) by (subst; inversion H; assumption).
    assert (Hn : numeral ds = (48 + d) :: numeral ds') by (subst; reflexivity).
    rewrite Hn. cbn [skip_spaces].
    replace (isspace (48 + d)) with false
      by (symmetry; unfold isspace; apply orb_false_iff; split;
          [apply Z.eqb_neq; lia | apply andb_false_iff; right; apply Z.leb_gt; lia]).
    replace (48 + d =? 45) with false by (symmetry; apply Z.eqb_neq; lia).
    replace (48 + d =? 43) with false by (symmetry; apply Z.eqb_neq; lia).
    rewrite <- Hn, Hv.
    replace (ULONG_MAX <? decimal ds) with false by (symmetry; apply Z.ltb_ge; lia).
    reflexivity.
Qed.

Lemma decimal_nonneg (ds : list Z) : Forall digit ds -> 0 <= decimal ds.
Proof. intro H. apply fold_decimal_nonneg; [exact H | lia]. Qed.

Lemma u32_ulong (z : Z) : 0 <= z <= ULONG_MAX -> u32 z = z.
Proof. intro H. unfold u32, ULONG_MAX in *. apply Z.mod_small. lia. Qed.

Lemma strncpy_id_short (id : list Z) :
  Forall (fun c => c <> 0) id -> (List.length id <= 15)%nat ->
  InitCommand.strncpy_id id = id ++ repeat 0 (16 - List.length id).
Proof.
  intros H Hl. unfold InitCommand.strncpy_id.
  rewrite firstn_all2 by lia. rewrite cstr_no_zero by exact H. reflexivity.
Qed.

(** [saveConfig] never changes [currentMode]. *)
Lemma saveConfig_mode (ops : flash_ops) (st : device) :
  currentMode (snd (saveConfig ops st)) = currentMode st.
Proof.
  unfold saveConfig. destruct (cfg_erase_ok ops), (cfg_program_ok ops); reflexivity.
Qed.

Lemma saveTemperatureReading_mode (ops : flash_ops) (st : device) (t : F32.f32) :
  currentMode (snd (saveTemperatureReading ops st t)) = currentMode st.
Proof.
  unfold saveTemperatureReading.
  destruct (_ =? 0); [destruct (data_erase_ok ops)|]; cbn [negb];
    try reflexivity;
    (destruct (data_program_ok ops); cbn [negb];
     [rewrite saveConfig_mode; reflexivity | reflexivity]).
Qed.

Lemma initializeDevice_mode (ops : flash_ops) (packet : list Z) (st : device) :
  currentMode (snd (initializeDevice ops packet st)) = currentMode st.
Proof.
  unfold initializeDevice.
  destruct (strtok _) as [[t1 r1]|]; [|reflexivity].
  destruct (strtok r1) as [[t2 r2]|]; [|reflexivity].
  destruct (strtok r2) as [[t3 r3]|]; [|reflexivity].
  destruct (saveConfig ops _) as [ok st'] eqn:E.
  cbn. change st' with (snd (ok, st')). rewrite <- E, saveConfig_mode. reflexivity.
Qed.

Lemma handleRetrieveRequest_mode (ops1 ops2 : flash_ops) (st : device) :
  currentMode (snd (handleRetrieveRequest ops1 ops2 st)) = currentMode st
  \/ currentMode (snd (handleRetrieveRequest ops1 ops2 st)) = MODE_IDLE.
Proof.
  unfold handleRetrieveRequest.
  destruct (_ =? 0); [left; reflexivity|].
  right. unfold sendDataToHost.
  destruct (_ =? 0); cbn; rewrite saveConfig_mode; reflexivity.
Qed.

Lemma processCommand_mode (ops1 ops2 : flash_ops) (buffer : list Z) (st : device) :
  let '(_, _, st') := processCommand ops1 ops2 buffer st in
  currentMode st' = currentMode st \/ currentMode st' = MODE_IDLE.
Proof.
  unfold processCommand.
  destruct (eq_bytes _ "CMD:"); [|left; reflexivity].
  destruct (strchr_split 59 _) as [[cmdStart cmdEnd]|]; [|left; reflexivity].
  destruct (eq_bytes cmdStart "STATUS"); [left; reflexivity|].
  destruct (eq_bytes cmdStart "INIT").
  - destruct cmdEnd as [|b cmdEnd]; [left; reflexivity|].
    pose proof (initializeDevice_mode ops1 (b :: cmdEnd) st) as H.
    destruct (initializeDevice ops1 (b :: cmdEnd) st) as [[msgs ok] st'].
    destruct ok; left; exact H.
  - destruct (eq_bytes cmdStart "RETRIEVE"); [|left; reflexivity].
    pose proof (handleRetrieveRequest_mode ops1 ops2 st) as H.
    destruct (handleRetrieveRequest ops1 ops2 st) as [lines st']. exact H.
Qed.

Lemma processSerialInput_mode (ops : flash_ops) (input : list Z) : forall buf st,
  let '(_, _, _, st') := processSerialInput ops buf input st in
  currentMode st' = currentMode st \/ currentMode st' = MODE_IDLE.
Proof.
  induction input as [|c input IH]; intros buf st; cbn [processSerialInput];
    [left; reflexivity|].
  destruct ((c =? 10) || (c =? 13)).
  - destruct (0 <? List.length buf)%nat; [|apply IH].
    pose proof (processCommand_mode ops ops (cstr buf) st) as H1.
    destruct (processCommand ops ops (cstr buf) st) as [[out1 p] st1].
    destruct p; [|exact H1].
    specialize (IH [] st1).
    destruct (processSerialInput ops [] input st1) as [[[out2 p] b] st2].
    destruct H1 as [H1|H1]; rewrite H1 in IH; destruct IH as [IH|IH]; auto.
  - destruct (List.length buf <? MAX_BUFFER_SIZE - 1)%nat; [apply IH|].
    specialize (IH [] st).
    destruct (processSerialInput ops [] input st) as [[[out2 p] b] st2]. exact IH.
Qed.

Lemma main_iteration_not_logging (ops : flash_ops) (t : F32.f32) (input buf : list Z)
    (st : device) :
  currentMode st <> MODE_LOGGING ->
  let '(_, _, _, st') := main_iteration ops t input buf st in
  currentMode st' <> MODE_LOGGING.
Proof.
  intro H. unfold main_iteration.
  replace (currentMode st =? MODE_LOGGING) with false by (symmetry; apply Z.eqb_neq; exact H).
  destruct (currentMode st =? MODE_DATA_RETRIEVAL).
  - unfold sendDataToHost.
    destruct (_ =? 0); cbn; rewrite saveConfig_mode; cbn; unfold MODE_IDLE, MODE_LOGGING; lia.
  - unfold checkSerialCommands.
    replace (currentMode st =? MODE_LOGGING) with false by (symmetry; apply Z.eqb_neq; exact H).
    cbn [negb].
    pose proof (processSerialInput_mode ops input buf st) as H1.
    destruct (processSerialInput ops buf input st) as [[[out p] b] st'].
    destruct H1 as [-> | ->]; [exact H | unfold MODE_IDLE, MODE_LOGGING; lia].
Qed.

(** [enterSleep] changes only [config.wakeupInterval]. *)
Lemma enterSleep_mode (st : device) : currentMode (enterSleep st) = currentMode st.
Proof. unfold enterSleep. destruct (negb _); reflexivity. Qed.

Lemma saveConfig_interval (ops : flash_ops) (st : device) :
  n_wakeupInterval (config (snd (saveConfig ops st))) = n_wakeupInterval (config st).
Proof.
  unfold saveConfig. destruct (cfg_erase_ok ops), (cfg_program_ok ops); reflexivity.
Qed.

(** [saveTemperatureReading] keeps the wake-up interval of [config]; with
    every flash call succeeding it stores a config page carrying it and
    the next index. *)
Lemma saveTemperatureReading_interval (ops : flash_ops) (st : device) (t : F32.f32) :
  n_wakeupInterval (config (snd (saveTemperatureReading ops st t)))
  = n_wakeupInterval (config st).
Proof.
  unfold saveTemperatureReading.
  destruct (_ =? 0); [destruct (data_erase_ok ops)|]; cbn [negb];
    try reflexivity;
    (destruct (data_program_ok ops); cbn [negb];
     [rewrite saveConfig_interval; reflexivity | reflexivity]).
Qed.

Lemma saveTemperatureReading_page_ok (st : device) (t : F32.f32) :
  exists c, config_page (snd (saveTemperatureReading all_ok st t)) = Some c
    /\ n_wakeupInterval c = n_wakeupInterval (config st)
    /\ n_currentDataIndex c = u32 (n_currentDataIndex (config st) + 1).
Proof.
  unfold saveTemperatureReading.
  change (data_erase_ok all_ok) with true. change (data_program_ok all_ok) with true.
  cbn [negb].
  destruct (_ =? 0); unfold saveConfig;
    change (cfg_erase_ok all_ok) with true; change (cfg_program_ok all_ok) with true;
    cbn [negb]; eexists; (split; [reflexivity|]); split; reflexivity.
Qed.

End NewFwSerialFacts.

Module NewFwSerialProps.
Import Config Boot NewFw NewFwSerial NewFwSerialFacts.

(** [processCommand] compares the command word up to the first [;] exactly
    and ignores what follows it for [STATUS] and [RETRIEVE]: [CMD:STATUS;]
    answers with [handleStatusRequest] and changes nothing, [CMD:RETRIEVE;]
    runs [handleRetrieveRequest], and [CMD:INIT;] with an empty payload
    answers [RESP:OK;READY_FOR_INIT] and changes nothing. *)
Theorem processCommand_word (ops1 ops2 : flash_ops) (st : device) (p : list Z) :
  processCommand ops1 ops2 (bytes_of "CMD:STATUS;" ++ p) st
    = ([handleStatusRequest st], InitCommand.Running, st)
  /\ processCommand ops1 ops2 (bytes_of "CMD:RETRIEVE;" ++ p) st
    = (fst (handleRetrieveRequest ops1 ops2 st), InitCommand.Running,
       snd (handleRetrieveRequest ops1 ops2 st))
  /\ processCommand ops1 ops2 (bytes_of "CMD:INIT;") st
    = ([sendResponse "RESP:" "OK" (Some "READY_FOR_INIT"%string)], InitCommand.Running, st).
Proof.
  split; [|split].
  - reflexivity.
  - unfold processCommand. cbn -[handleRetrieveRequest].
    destruct (handleRetrieveRequest ops1 ops2 st). reflexivity.
  - reflexivity.
Qed.

(** A line that does not start with [CMD:], or has no [;] after it, is
    answered [RESP:ERROR;Invalid command format] and changes nothing. *)
Theorem processCommand_invalid_format (ops1 ops2 : flash_ops) (st : device)
    (buffer : list Z) :
  firstn 4 buffer <> bytes_of "CMD:" \/ ~ In 59 (skipn 4 buffer) ->
  processCommand ops1 ops2 buffer st
    = ([sendResponse "RESP:" "ERROR" (Some "Invalid command format"%string)],
       InitCommand.Running, st).
Proof.
  intro H. unfold processCommand, eq_bytes.
  destruct (list_eq_dec Z.eq_dec (firstn 4 buffer) (bytes_of "CMD:")) as [E|E];
    [|reflexivity].
  destruct H as [H|H]; [contradiction|].
  rewrite strchr_split_none by exact H. reflexivity.
Qed.

Lemma processCommand_invalid_format_witness :
  processCommand all_ok all_ok (bytes_of "CMD:STATUS") power_on_device
    = ([sendResponse "RESP:" "ERROR" (Some "Invalid command format"%string)],
       InitCommand.Running, power_on_device).
Proof. apply processCommand_invalid_format. right. cbn. lia. Defined.

(** A [CMD:<word>;...] line whose word is not [STATUS], [INIT] or
    [RETRIEVE] is answered [RESP:ERROR;Unknown command] and changes
    nothing. *)
Theorem processCommand_unknown (ops1 ops2 : flash_ops) (st : device) (w p : list Z) :
  ~ In 59 w -> w <> bytes_of "STATUS" -> w <> bytes_of "INIT" -> w <> bytes_of "RETRIEVE" ->
  processCommand ops1 ops2 (bytes_of "CMD:" ++ w ++ 59 :: p) st
    = ([sendResponse "RESP:" "ERROR" (Some "Unknown command"%string)],
       InitCommand.Running, st).
Proof.
  intros H59 H1 H2 H3. unfold processCommand.
  change (bytes_of "CMD:" ++ w ++ 59 :: p) with (67 :: 77 :: 68 :: 58 :: w ++ 59 :: p).
  cbn [firstn skipn]. rewrite strchr_split_app by exact H59.
  unfold eq_bytes.
  destruct (list_eq_dec Z.eq_dec w (bytes_of "STATUS")); [contradiction|].
  destruct (list_eq_dec Z.eq_dec w (bytes_of "INIT")); [contradiction|].
  destruct (list_eq_dec Z.eq_dec w (bytes_of "RETRIEVE")); [contradiction|].
  reflexivity.
Qed.

Lemma processCommand_unknown_witness :
  processCommand all_ok all_ok (bytes_of "CMD:" ++ bytes_of "RESET" ++ [59]) power_on_device
    = ([sendResponse "RESP:" "ERROR" (Some "Unknown command"%string)],
       InitCommand.Running, power_on_device).
Proof.
  apply processCommand_unknown; [cbn; lia | discriminate | discriminate | discriminate].
Defined.

(** From an empty buffer, a line of 1 to 127 bytes other than CR and LF,
    ended by any run of CR and LF bytes (for instance CR LF), is handed to
    [processCommand] exactly once; the extra line ends are skipped, and the
    bytes after them are processed from an empty buffer (unless the command
    powered the device off). *)
Theorem serial_line_dispatch (ops : flash_ops) (l e rest : list Z) (st : device) :
  Forall not_eol l -> (1 <= List.length l <= 127)%nat ->
  e <> [] -> Forall (fun c => c = 10 \/ c = 13) e ->
  processSerialInput ops [] (l ++ e ++ rest) st =
  match processCommand ops ops (cstr l) st with
  | (out1, InitCommand.SystemOff, st1) => (out1, InitCommand.SystemOff, [], st1)
  | (out1, InitCommand.Running, st1) =>
      let '(out2, p, buf, st2) := processSerialInput ops [] rest st1 in
      (out1 ++ out2, p, buf, st2)
  end.
Proof.
  intros Hl Hlen He Heol.
  rewrite (serial_accumulate ops l [] (e ++ rest) st Hl) by (cbn; lia).
  cbn [app].
  destruct e as [|x e']; [congruence|].
  inversion Heol as [|? ? Hx He']; subst.
  cbn [app processSerialInput].
  replace ((x =? 10) || (x =? 13)) with true by (destruct Hx as [-> | ->]; reflexivity).
  replace (0 <? List.length l)%nat with true by (symmetry; apply Nat.ltb_lt; lia).
  destruct (processCommand ops ops (cstr l) st) as [[out1 p] st1].
  destruct p; [|reflexivity].
  rewrite serial_skip_eol by exact He'. reflexivity.
Qed.

Lemma serial_line_dispatch_witness :
  processSerialInput all_ok [] (bytes_of "CMD:STATUS;" ++ [13; 10] ++ bytes_of "CMD:X;")
    power_on_device
  = match processCommand all_ok all_ok (cstr (bytes_of "CMD:STATUS;")) power_on_device with
    | (out1, InitCommand.SystemOff, st1) => (out1, InitCommand.SystemOff, [], st1)
    | (out1, InitCommand.Running, st1) =>
        let '(out2, p, buf, st2) := processSerialInput all_ok [] (bytes_of "CMD:X;") st1 in
        (out1 ++ out2, p, buf, st2)
    end.
Proof.
  apply serial_line_dispatch.
  - cbn. unfold not_eol. repeat constructor; lia.
  - cbn. lia.
  - discriminate.
  - apply Forall_cons; [right; reflexivity|].
    apply Forall_cons; [left; reflexivity|]. apply Forall_nil.
Defined.

(** From an empty buffer, 127 bytes without CR or LF followed by a 128th
    such byte produce [RESP:ERROR;Command too long]; these 128 bytes are
    dropped, and the bytes after them are read as the start of a new
    command. *)
Theorem serial_line_too_long (ops : flash_ops) (l : list Z) (c : Z) (rest : list Z)
    (st : device) :
  Forall not_eol l -> List.length l = 127%nat -> not_eol c ->
  processSerialInput ops [] (l ++ c :: rest) st =
  let '(out, p, buf, st') := processSerialInput ops [] rest st in
  (sendResponse "RESP:" "ERROR" (Some "Command too long"%string) :: out, p, buf, st').
Proof.
  intros Hl Hlen [H10 H13].
  rewrite (serial_accumulate ops l [] (c :: rest) st Hl) by (cbn; lia).
  cbn [app processSerialInput].
  replace ((c =? 10) || (c =? 13)) with false
    by (symmetry; apply orb_false_iff; split; apply Z.eqb_neq; assumption).
  replace (List.length l <? MAX_BUFFER_SIZE - 1)%nat with false
    by (symmetry; apply Nat.ltb_ge; rewrite Hlen; reflexivity).
  reflexivity.
Qed.

Lemma serial_line_too_long_witness :
  processSerialInput all_ok [] (repeat 65 127 ++ 66 :: bytes_of "CMD:STATUS;") power_on_device
  = let '(out, p, buf, st') := processSerialInput all_ok [] (bytes_of "CMD:STATUS;")
                                 power_on_device in
    (sendResponse "RESP:" "ERROR" (Some "Command too long"%string) :: out, p, buf, st').
Proof.
  apply serial_line_too_long.
  - apply Forall_forall. intros x Hx. apply repeat_spec in Hx. subst. unfold not_eol. lia.
  - apply repeat_length.
  - unfold not_eol. lia.
Defined.

(** [CMD:INIT;<ts,id,iv>] with decimal [ts] and [iv] below 2^32, and an
    [id] of 1 to 15 bytes without NUL, [,] or [>], in a packet of at most
    63 bytes, with the config page erase and program succeeding: the only
    line printed is [RESP:OK;INITIALIZED] and the device powers off.  [config] and the config page then
    hold [ts], [iv], [id] padded with NULs, index 0, the current mode and
    the magic number.  On the next boot [setup] selects Logging unless [ts]
    is 0 or [id] is [DEFAULT_ID]. *)
Theorem init_packet_roundtrip (ops2 : flash_ops) (st : device) (ts id iv : list Z) :
  ts <> [] -> Forall digit ts -> decimal ts <= ULONG_MAX ->
  iv <> [] -> Forall digit iv -> decimal iv <= ULONG_MAX ->
  id <> [] -> Forall (fun c => c <> 0 /\ c <> 44 /\ c <> 62) id ->
  (List.length id <= 15)%nat ->
  (List.length ts + List.length id + List.length iv + 4 <= 63)%nat ->
  processCommand all_ok ops2
    (bytes_of "CMD:INIT;" ++ 60 :: numeral ts ++ 44 :: id ++ 44 :: numeral iv ++ [62]) st
  = ([sendResponse "RESP:" "OK" (Some "INITIALIZED"%string)], InitCommand.SystemOff,
     {| config := {| n_initialTimestamp := decimal ts; n_wakeupInterval := decimal iv;
                     n_personalId := id ++ repeat 0 (16 - List.length id);
                     n_currentDataIndex := 0; n_mode := currentMode st;
                     n_magicNumber := MAGIC |};
        currentMode := currentMode st; data := data st;
        config_page := Some {| n_initialTimestamp := decimal ts;
                               n_wakeupInterval := decimal iv;
                               n_personalId := id ++ repeat 0 (16 - List.length id);
                               n_currentDataIndex := 0; n_mode := currentMode st;
                               n_magicNumber := MAGIC |} |})
  /\ setup_new true true {| n_initialTimestamp := decimal ts; n_wakeupInterval := decimal iv;
                            n_personalId := id ++ repeat 0 (16 - List.length id);
                            n_currentDataIndex := 0; n_mode := currentMode st;
                            n_magicNumber := MAGIC |}
     = (if (decimal ts =? 0) || eq_bytes id "DEFAULT_ID" then MODE_IDLE else MODE_LOGGING).
Proof.
  intros Hts Dts Vts Hiv Div Viv Hid Cid Lid Lp.
  assert (Nid : Forall (fun c => c <> 0) id)
    by (eapply Forall_impl; [|exact Cid]; cbv beta; intros a Ha; apply Ha).
  assert (I44 : ~ In 44 id)
    by (intro Hin; rewrite Forall_forall in Cid; destruct (Cid 44 Hin) as [_ [C _]]; apply C; reflexivity).
  assert (I62 : ~ In 62 id)
    by (intro Hin; rewrite Forall_forall in Cid; destruct (Cid 62 Hin) as [_ [_ C]]; apply C; reflexivity).
  split.
  - unfold processCommand.
    change (bytes_of "CMD:INIT;" ++ 60 :: numeral ts ++ 44 :: id ++ 44 :: numeral iv ++ [62])
      with (67 :: 77 :: 68 :: 58 :: 73 :: 78 :: 73 :: 84 :: 59 ::
            60 :: numeral ts ++ 44 :: id ++ 44 :: numeral iv ++ [62]).
    cbn [firstn skipn strchr_split Z.eqb Pos.eqb].
    change (eq_bytes [73; 78; 73; 84] "STATUS") with false.
    change (eq_bytes [73; 78; 73; 84] "INIT") with true.
    cbv iota beta.
    unfold initializeDevice.
    rewrite firstn_all2
      by (unfold numeral; repeat progress (rewrite ?length_app, ?length_map; cbn [List.length]);
          lia).
    change (60 =? 60) with true. cbv iota beta.
    replace (numeral ts ++ 44 :: id ++ 44 :: numeral iv ++ [62])
      with ((numeral ts ++ 44 :: id ++ 44 :: numeral iv) ++ [62])
      by (repeat (rewrite <- app_assoc || rewrite <- app_comm_cons); reflexivity).
    rewrite strchr_split_app.
    2: { intro Hin. apply in_app_or in Hin as [Hin|Hin].
         - exact (numeral_not_in ts 62 Dts ltac:(lia) Hin).
         - destruct Hin as [Hin|Hin]; [discriminate|].
           apply in_app_or in Hin as [Hin|Hin]; [exact (I62 Hin)|].
           destruct Hin as [Hin|Hin]; [discriminate|].
           exact (numeral_not_in iv 62 Div ltac:(lia) Hin). }
    rewrite strtok_app
      by (try (unfold numeral; destruct ts; [congruence|discriminate]);
          exact (numeral_not_in ts 44 Dts ltac:(lia))).
    rewrite strtok_app by assumption.
    rewrite strtok_last
      by (try (unfold numeral; destruct iv; [congruence|discriminate]);
          exact (numeral_not_in iv 44 Div ltac:(lia))).
    rewrite !strtoul_numeral by assumption.
    rewrite (u32_ulong (decimal ts)) by (split; [apply decimal_nonneg|]; assumption).
    rewrite (u32_ulong (decimal iv)) by (split; [apply decimal_nonneg|]; assumption).
    rewrite strncpy_id_short by assumption.
    reflexivity.
  - unfold setup_new. cbn [negb andb n_magicNumber n_initialTimestamp n_personalId
                           n_currentDataIndex].
    change (MAGIC =? MAGIC) with true. cbv iota beta.
    assert (Hc : cstr (id ++ repeat 0 (16 - List.length id)) = id).
    { replace (16 - List.length id)%nat with (S (15 - List.length id)) by lia.
      apply cstr_app_zero. exact Nid. }
    unfold strlen, strcmp_ne, eq_bytes. rewrite Hc.
    replace (0 <? List.length id)%nat with true
      by (symmetry; apply Nat.ltb_lt; destruct id; [congruence|cbn; lia]).
    change (0 <? 0) with false.
    destruct (decimal ts =? 0); [reflexivity|].
    destruct (list_eq_dec Z.eq_dec id (bytes_of "DEFAULT_ID")); reflexivity.
Qed.

Lemma init_packet_roundtrip_witness :
  processCommand all_ok all_ok
    (bytes_of "CMD:INIT;" ++ 60 :: numeral [1; 7; 0; 0; 0; 0; 0; 0; 0; 0]
       ++ 44 :: bytes_of "P01" ++ 44 :: numeral [6; 0; 0] ++ [62]) power_on_device
  = ([sendResponse "RESP:" "OK" (Some "INITIALIZED"%string)], InitCommand.SystemOff,
     {| config := {| n_initialTimestamp := decimal [1; 7; 0; 0; 0; 0; 0; 0; 0; 0];
                     n_wakeupInterval := decimal [6; 0; 0];
                     n_personalId := bytes_of "P01" ++ repeat 0 (16 - List.length (bytes_of "P01"));
                     n_currentDataIndex := 0; n_mode := currentMode power_on_device;
                     n_magicNumber := MAGIC |};
        currentMode := currentMode power_on_device; data := data power_on_device;
        config_page := Some {| n_initialTimestamp := decimal [1; 7; 0; 0; 0; 0; 0; 0; 0; 0];
                               n_wakeupInterval := decimal [6; 0; 0];
                               n_personalId := bytes_of "P01"
                                               ++ repeat 0 (16 - List.length (bytes_of "P01"));
                               n_currentDataIndex := 0; n_mode := currentMode power_on_device;
                               n_magicNumber := MAGIC |} |})
  /\ setup_new true true {| n_initialTimestamp := decimal [1; 7; 0; 0; 0; 0; 0; 0; 0; 0];
                            n_wakeupInterval := decimal [6; 0; 0];
                            n_personalId := bytes_of "P01"
                                            ++ repeat 0 (16 - List.length (bytes_of "P01"));
                            n_currentDataIndex := 0; n_mode := currentMode power_on_device;
                            n_magicNumber := MAGIC |}
     = (if (decimal [1; 7; 0; 0; 0; 0; 0; 0; 0; 0] =? 0) || eq_bytes (bytes_of "P01") "DEFAULT_ID"
        then MODE_IDLE else MODE_LOGGING).
Proof.
  apply init_packet_roundtrip;
    try discriminate;
    try (vm_compute; discriminate);
    try (unfold digit; repeat constructor; lia);
    try (cbn; lia).
  cbn. repeat constructor; lia.
Defined.

(** An INIT packet [<ts>] without personal ID fails with
    [[ERROR] Missing personal ID], [[ERROR] Failed to initialize device] and
    [RESP:ERROR;INIT_FAILED], writes no flash, and yet leaves [ts] in the
    global [config].  An idle, unconfigured device with no readings that
    reported [NOT_CONFIGURED] reports [CONFIGURED] after it (when
    [ts > 0]). *)
Theorem failed_init_sets_timestamp (ops1 ops2 : flash_ops) (st : device) (ts : list Z) :
  ts <> [] -> Forall digit ts -> 0 < decimal ts <= ULONG_MAX ->
  (List.length ts + 2 <= 63)%nat ->
  currentMode st <> MODE_LOGGING -> n_currentDataIndex (config st) = 0 ->
  n_initialTimestamp (config st) = 0 ->
  handleStatusRequest st = sendResponse "RESP:" "OK" (Some "NOT_CONFIGURED"%string)
  /\ exists st',
       processCommand ops1 ops2 (bytes_of "CMD:INIT;" ++ 60 :: numeral ts ++ [62]) st
       = ([Text "[ERROR] Missing personal ID"; Text "[ERROR] Failed to initialize device";
           sendResponse "RESP:" "ERROR" (Some "INIT_FAILED"%string)],
          InitCommand.Running, st')
     /\ config_page st' = config_page st /\ data st' = data st
     /\ currentMode st' = currentMode st
     /\ n_initialTimestamp (config st') = decimal ts
     /\ handleStatusRequest st' = sendResponse "RESP:" "OK" (Some "CONFIGURED"%string).
Proof.
  intros Hts Dts Vts Lp Hm Hi H0.
  assert (Hm' : (currentMode st =? MODE_LOGGING) = false) by (apply Z.eqb_neq; exact Hm).
  split.
  - unfold handleStatusRequest. rewrite Hm', Hi, H0. reflexivity.
  - exists (with_config st (set_timestamp (config st) (decimal ts))).
    split; [|split; [reflexivity|split; [reflexivity|split; [reflexivity|split; [reflexivity|]]]]].
    + unfold processCommand.
      change (bytes_of "CMD:INIT;" ++ 60 :: numeral ts ++ [62])
        with (67 :: 77 :: 68 :: 58 :: 73 :: 78 :: 73 :: 84 :: 59 :: 60 :: numeral ts ++ [62]).
      cbn [firstn skipn strchr_split Z.eqb Pos.eqb].
      change (eq_bytes [73; 78; 73; 84] "STATUS") with false.
      change (eq_bytes [73; 78; 73; 84] "INIT") with true.
      cbv iota beta.
      unfold initializeDevice.
      rewrite firstn_all2
        by (unfold numeral; repeat progress (rewrite ?length_app, ?length_map; cbn [List.length]);
            lia).
      change (60 =? 60) with true. cbv iota beta.
      rewrite strchr_split_app by exact (numeral_not_in ts 62 Dts ltac:(lia)).
      rewrite strtok_last
        by (try (unfold numeral; destruct ts; [congruence|discriminate]);
            exact (numeral_not_in ts 44 Dts ltac:(lia))).
      rewrite strtoul_numeral by (assumption || lia).
      rewrite u32_ulong by (split; [apply decimal_nonneg|]; (assumption || lia)).
      reflexivity.
    + unfold handleStatusRequest. cbn [with_config config currentMode set_timestamp
        n_currentDataIndex n_initialTimestamp].
      rewrite Hm', Hi. change (0 <? 0) with false. cbv iota.
      replace (0 <? decimal ts) with true by (symmetry; apply Z.ltb_lt; lia).
      reflexivity.
Qed.

Lemma failed_init_sets_timestamp_witness :
  handleStatusRequest power_on_device
    = sendResponse "RESP:" "OK" (Some "NOT_CONFIGURED"%string)
  /\ exists st',
       processCommand all_ok all_ok
         (bytes_of "CMD:INIT;" ++ 60 :: numeral [1; 2; 3] ++ [62]) power_on_device
       = ([Text "[ERROR] Missing personal ID"; Text "[ERROR] Failed to initialize device";
           sendResponse "RESP:" "ERROR" (Some "INIT_FAILED"%string)],
          InitCommand.Running, st')
     /\ config_page st' = config_page power_on_device
     /\ data st' = data power_on_device
     /\ currentMode st' = currentMode power_on_device
     /\ n_initialTimestamp (config st') = decimal [1; 2; 3]
     /\ handleStatusRequest st' = sendResponse "RESP:" "OK" (Some "CONFIGURED"%string).
Proof.
  apply failed_init_sets_timestamp;
    try discriminate; try reflexivity;
    try (unfold digit; repeat constructor; lia);
    try (cbn; lia).
Defined.

(** Once [currentMode] is Logging, every pass of the main loop only runs
    [enterSleep] and saves a reading: nothing is printed, the serial input
    is never read (the command buffer is unchanged), and the mode stays
    Logging whatever the flash calls return.  Only a reset leaves
    Logging. *)
Theorem logging_loop_absorbing (passes : list (flash_ops * F32.f32 * list Z))
    (buf : list Z) (st : device) :
  currentMode st = MODE_LOGGING ->
  main_loop passes buf st
  = ([], InitCommand.Running, buf,
     fold_left (fun st '(ops, t, _) => snd (saveTemperatureReading ops (enterSleep st) t))
       passes st)
  /\ currentMode (fold_left (fun st '(ops, t, _) =>
                               snd (saveTemperatureReading ops (enterSleep st) t))
                   passes st) = MODE_LOGGING.
Proof.
  revert st. induction passes as [|[[ops t] input] passes IH]; intros st Hm.
  - split; [reflexivity|exact Hm].
  - cbn [main_loop fold_left].
    unfold main_iteration. rewrite Hm. change (MODE_LOGGING =? MODE_LOGGING) with true.
    cbv iota beta zeta.
    pose proof (saveTemperatureReading_mode ops (enterSleep st) t) as Hs.
    rewrite enterSleep_mode in Hs.
    destruct (saveTemperatureReading ops (enterSleep st) t) as [ok st1] eqn:E.
    cbn [snd] in Hs |- *.
    destruct (IH st1 ltac:(congruence)) as [IH1 IH2].
    rewrite IH1. split; [reflexivity|exact IH2].
Qed.

Lemma logging_loop_absorbing_witness :
  main_loop [(all_ok, F32.of_int 20, bytes_of "CMD:RETRIEVE;" ++ [10]);
             (all_ok, F32.of_int 21, [])] []
    (with_mode power_on_device MODE_LOGGING)
  = ([], InitCommand.Running, [],
     fold_left (fun st '(ops, t, _) => snd (saveTemperatureReading ops (enterSleep st) t))
       [(all_ok, F32.of_int 20, bytes_of "CMD:RETRIEVE;" ++ [10]);
        (all_ok, F32.of_int 21, [])]
       (with_mode power_on_device MODE_LOGGING))
  /\ currentMode (fold_left (fun st '(ops, t, _) =>
                               snd (saveTemperatureReading ops (enterSleep st) t))
       [(all_ok, F32.of_int 20, bytes_of "CMD:RETRIEVE;" ++ [10]);
        (all_ok, F32.of_int 21, [])]
       (with_mode power_on_device MODE_LOGGING)) = MODE_LOGGING.
Proof. apply logging_loop_absorbing. reflexivity. Defined.

(** The debug assignment in [enterSleep] overrides the configured wake-up
    interval: after one pass of the main loop in Logging mode,
    [config.wakeupInterval] is 30 whatever the flash calls return, and
    when they all succeed the config page written by that pass holds the
    interval 30 with the next data index. *)
Theorem logging_pass_sets_interval_30 (ops : flash_ops) (t : F32.f32)
    (input buf : list Z) (st : device) :
  currentMode st = MODE_LOGGING ->
  n_wakeupInterval (config (snd (main_iteration ops t input buf st))) = 30
  /\ exists c, config_page (snd (main_iteration all_ok t input buf st)) = Some c
       /\ n_wakeupInterval c = 30
       /\ n_currentDataIndex c = u32 (n_currentDataIndex (config st) + 1).
Proof.
  intros Hm. unfold main_iteration. rewrite Hm.
  change (MODE_LOGGING =? MODE_LOGGING) with true. cbv iota beta zeta.
  assert (Hi : n_wakeupInterval (config (enterSleep st)) = 30)
    by (unfold enterSleep; rewrite Hm; reflexivity).
  assert (Hx : n_currentDataIndex (config (enterSleep st)) = n_currentDataIndex (config st))
    by (unfold enterSleep; rewrite Hm; reflexivity).
  split.
  - pose proof (saveTemperatureReading_interval ops (enterSleep st) t) as H.
    destruct (saveTemperatureReading ops (enterSleep st) t) as [ok st1].
    cbn [snd] in H |- *. congruence.
  - destruct (saveTemperatureReading_page_ok (enterSleep st) t) as [c [Hc [Hci Hcx]]].
    destruct (saveTemperatureReading all_ok (enterSleep st) t) as [ok st1].
    cbn [snd] in Hc |- *. exists c. split; [exact Hc|]. split; congruence.
Qed.

Lemma logging_pass_sets_interval_30_witness :
  n_wakeupInterval (config (snd (main_iteration all_ok (F32.of_int 20) [] []
                                   (with_mode power_on_device MODE_LOGGING)))) = 30
  /\ exists c, config_page (snd (main_iteration all_ok (F32.of_int 20) [] []
                                   (with_mode power_on_device MODE_LOGGING))) = Some c
       /\ n_wakeupInterval c = 30
       /\ n_currentDataIndex c
          = u32 (n_currentDataIndex (config (with_mode power_on_device MODE_LOGGING)) + 1).
Proof. apply logging_pass_sets_interval_30. reflexivity. Defined.

(** From any mode other than Logging, no sequence of main-loop passes
    (serial commands, data transfers) reaches Logging: only [setup] at boot
    selects it. *)
Theorem command_mode_never_logs (passes : list (flash_ops * F32.f32 * list Z))
    (buf : list Z) (st : device) :
  currentMode st <> MODE_LOGGING ->
  let '(_, _, _, st') := main_loop passes buf st in currentMode st' <> MODE_LOGGING.
Proof.
  revert buf st. induction passes as [|[[ops t] input] passes IH]; intros buf st Hm.
  - exact Hm.
  - cbn [main_loop].
    pose proof (main_iteration_not_logging ops t input buf st Hm) as H1.
    destruct (main_iteration ops t input buf st) as [[[out1 p] buf1] st1].
    destruct p; [|exact H1].
    specialize (IH buf1 st1 H1).
    destruct (main_loop passes buf1 st1) as [[[out2 p] buf2] st2]. exact IH.
Qed.

Lemma command_mode_never_logs_witness :
  let '(_, _, _, st') :=
    main_loop [(all_ok, F32.of_int 20,
                bytes_of "CMD:INIT;<0,P01,60>" ++ [10] ++ bytes_of "CMD:RETRIEVE;" ++ [10])]
      [] power_on_device in
  currentMode st' <> MODE_LOGGING.
Proof. apply command_mode_never_logs. discriminate. Defined.

(** A successful [saveTemperatureReading] (index below 2^32 - 1) stores a
    config page with index [currentDataIndex + 1].  [setup] boots from that
    page into Idle: a logging device that is reset after saving a reading
    does not resume logging. *)
Theorem reboot_after_reading_idle (ops : flash_ops) (st st' : device) (t : F32.f32) :
  0 <= n_currentDataIndex (config st) < 2 ^ 32 - 1 ->
  saveTemperatureReading ops st t = (true, st') ->
  exists c, config_page st' = Some c
    /\ n_currentDataIndex c = n_currentDataIndex (config st) + 1
    /\ setup_new true true c = MODE_IDLE.
Proof.
  intros Hi H.
  assert (K : forall st0, config st0 = config st ->
    saveConfig ops (with_config st0 (set_index (config st0)
                     (u32 (n_currentDataIndex (config st) + 1)))) = (true, st') ->
    exists c, config_page st' = Some c
      /\ n_currentDataIndex c = n_currentDataIndex (config st) + 1
      /\ setup_new true true c = MODE_IDLE).
  { intros st0 E H0. unfold saveConfig in H0.
    destruct (cfg_erase_ok ops); cbn [negb] in H0; [|discriminate H0].
    destruct (cfg_program_ok ops); cbn [negb] in H0; [|discriminate H0].
    injection H0 as <-. eexists. split; [reflexivity|].
    cbn [config with_config with_page set_magic set_mode set_index
         n_currentDataIndex n_magicNumber n_initialTimestamp n_personalId].
    rewrite E.
    assert (Hu : u32 (n_currentDataIndex (config st) + 1) = n_currentDataIndex (config st) + 1)
      by (unfold u32; apply Z.mod_small; lia).
    rewrite Hu. split; [reflexivity|].
    unfold setup_new.
    cbn [set_magic set_mode set_index n_currentDataIndex n_magicNumber
         n_initialTimestamp n_personalId].
    replace (0 <? n_currentDataIndex (config st) + 1) with true
      by (symmetry; apply Z.ltb_lt; lia).
    repeat match goal with |- context [if ?b then _ else _] => destruct b end; reflexivity. }
  unfold saveTemperatureReading in H.
  destruct (_ mod (FLASH_PAGE_SIZE / sizeof_TemperatureData) =? 0);
    [destruct (data_erase_ok ops); cbn [negb] in H; [|discriminate H]|];
    (destruct (data_program_ok ops); cbn [negb] in H; [|discriminate H]);
    (eapply K; [|exact H]; reflexivity).
Qed.

Lemma reboot_after_reading_idle_witness :
  exists c, config_page (snd (saveTemperatureReading all_ok power_on_device (F32.of_int 20)))
              = Some c
    /\ n_currentDataIndex c = n_currentDataIndex (config power_on_device) + 1
    /\ setup_new true true c = MODE_IDLE.
Proof.
  apply (reboot_after_reading_idle all_ok power_on_device
           (snd (saveTemperatureReading all_ok power_on_device (F32.of_int 20)))
           (F32.of_int 20)).
  - cbn. lia.
  - reflexivity.
Defined.

End NewFwSerialProps.

